(** * Dis Maman backend: access tiers, answer generation and feedback

    A shallow embedding of [dismaman-complete/backend/server.py]: the
    FastAPI handlers [create_child], [ask_question],
    [get_monetization_status] and [submit_feedback], the Python values and
    MongoDB collections they work on, and the properties of the access
    policy, of the provider fallback chain and of the complexity level that
    the design document states about them; then the handlers around them,
    for the accounts, the children, the history and the subscription, and
    what their code shows. *)

From Stdlib Require Import ZArith QArith_base Lia.
From stdpp Require Import gmap strings list fin_maps pretty sorting.

Local Open Scope Z_scope.

(** ** Python values *)

Module Py.

(** [datetime.datetime], naive (no time zone), as the server uses it. *)
Record datetime := mk_datetime {
  year : Z; month : Z; day : Z;
  hour : Z; minute : Z; second : Z; microsecond : Z
}.

(** The values found in the documents and in the JSON bodies of the
    server.  [PId i] is the ObjectId [i] as well as its 24-digit string
    [str(i)]: the two determine each other and the server converts
    freely between them ([str(child["_id"])], [ObjectId(user_id)]). *)
Inductive pyval :=
| PNone
| PBool (b : bool)
| PInt (n : Z)
| PStr (s : string)
| PDate (d : datetime)
| PId (i : nat).

#[global] Instance datetime_eq_dec : EqDecision datetime.
Proof. solve_decision. Defined.

#[global] Instance pyval_eq_dec : EqDecision pyval.
Proof. solve_decision. Defined.

(** A Python dict with string keys (a Mongo document, a JSON object). *)
Abbreviation dict := (gmap string pyval).

(** What Python raises, as far as the handlers can see it. *)
Inductive exn :=
| HTTPException (status_code : Z) (detail : string)
| KeyError (key : string)
| TypeError
| AttributeError
| WriteError
| APIError
| Exception (message : string).

Inductive res (A : Type) :=
| Ok (a : A)
| Raise (e : exn).
Arguments Ok {A} a.
Arguments Raise {A} e.

(** Truth value of an object: [if v], [not v], [v and ...]. *)
Definition truthy (v : pyval) : bool :=
  match v with
  | PNone => false
  | PBool b => b
  | PInt n => negb (n =? 0)
  | PStr s => negb (String.eqb s "")
  | PDate _ => true
  | PId _ => true
  end.

(** [d[k]] *)
Definition getitem (d : dict) (k : string) : res pyval :=
  match d !! k with
  | Some v => Ok v
  | None => Raise (KeyError k)
  end.

(** [d.get(k, default)] *)
Definition get (d : dict) (k : string) (default : pyval) : pyval :=
  match d !! k with
  | Some v => v
  | None => default
  end.

(** An operand of integer arithmetic: [bool] is a subclass of [int]. *)
Definition as_int (v : pyval) : res Z :=
  match v with
  | PInt n => Ok n
  | PBool b => Ok (if b then 1 else 0)
  | _ => Raise TypeError
  end.

(** *** Text *)

Definition dq : string :=
  String (Ascii.Ascii false true false false false true false false) "".
Definition nl : string :=
  String (Ascii.Ascii false true false true false false false false) "".

Definition code (c : Ascii.ascii) : N := Ascii.N_of_ascii c.

(** [len(s)] counts code points: the bytes of the UTF-8 text that are
    not continuation bytes. *)
Fixpoint py_len (s : string) : Z :=
  match s with
  | EmptyString => 0
  | String c r =>
      (if ((128 <=? code c) && (code c <? 192))%N then 0 else 1) + py_len r
  end.

(** [str.isspace] on a character of one, two or three bytes. *)
Definition space1 (b : N) : bool :=
  (((9 <=? b) && (b <=? 13)) || ((28 <=? b) && (b <=? 32)))%N.
Definition space2 (b0 b1 : N) : bool :=
  ((b0 =? 194) && ((b1 =? 133) || (b1 =? 160)))%N.
Definition space3 (b0 b1 b2 : N) : bool :=
  (((b0 =? 225) && (b1 =? 154) && (b2 =? 128))
   || ((b0 =? 226) && (b1 =? 128)
       && (((128 <=? b2) && (b2 <=? 138)) || (b2 =? 168) || (b2 =? 169)
           || (b2 =? 175)))
   || ((b0 =? 226) && (b1 =? 129) && (b2 =? 159))
   || ((b0 =? 227) && (b1 =? 128) && (b2 =? 128)))%N.

(** [len(s.strip()) == 0]: the text is made of white space only. *)
Fixpoint blank (s : string) : bool :=
  match s with
  | EmptyString => true
  | String c0 r0 =>
      if space1 (code c0) then blank r0
      else
        match r0 with
        | EmptyString => false
        | String c1 r1 =>
            if space2 (code c0) (code c1) then blank r1
            else
              match r1 with
              | EmptyString => false
              | String c2 r2 =>
                  if space3 (code c0) (code c1) (code c2) then blank r2
                  else false
              end
        end
  end.

(** [not s or len(s.strip()) == 0] on a completion, which may be [None]. *)
Definition no_text (content : option string) : bool :=
  match content with
  | None => true
  | Some s => blank s
  end.

Definition of_content (content : option string) : pyval :=
  match content with
  | None => PNone
  | Some s => PStr s
  end.

(** Decimal numeral padded with zeros to [width] digits ([{n:02d}]). *)
Definition zfill (width : nat) (n : Z) : string :=
  let s := pretty n in
  String.concat "" (replicate (width - String.length s)%nat "0") +:+ s.

(** [d.isoformat(sep)] *)
Definition isoformat_with (sep : string) (d : datetime) : string :=
  zfill 4 (year d) +:+ "-" +:+ zfill 2 (month d) +:+ "-" +:+ zfill 2 (day d)
  +:+ sep +:+ zfill 2 (hour d) +:+ ":" +:+ zfill 2 (minute d) +:+ ":"
  +:+ zfill 2 (second d)
  +:+ (if microsecond d =? 0 then "" else "." +:+ zfill 6 (microsecond d)).

Definition isoformat : datetime -> string := isoformat_with "T".

(** [str(v)], which is also how an f-string renders [{v}].  The digits of
    an ObjectId are not modelled; its decimal index stands for them. *)
Definition py_str (v : pyval) : string :=
  match v with
  | PNone => "None"
  | PBool true => "True"
  | PBool false => "False"
  | PInt n => pretty n
  | PStr s => s
  | PDate d => isoformat_with " " d
  | PId i => pretty i
  end.

(** *** Dates *)

(** [d.replace(day=1, hour=0, minute=0, second=0, microsecond=0)] *)
Definition start_of_month (d : datetime) : datetime :=
  {| year := year d; month := month d; day := 1;
     hour := 0; minute := 0; second := 0; microsecond := 0 |}.

Definition is_leap (y : Z) : bool :=
  (y mod 4 =? 0) && (negb (y mod 100 =? 0) || (y mod 400 =? 0)).

Definition days_before_year (y : Z) : Z :=
  let y' := y - 1 in y' * 365 + y' / 4 - y' / 100 + y' / 400.

Definition days_before_month (y m : Z) : Z :=
  nth (Z.to_nat m) [0; 0; 31; 59; 90; 120; 151; 181; 212; 243; 273; 304; 334] 0
  + (if (2 <? m) && is_leap y then 1 else 0).

(** [d.toordinal()]: day 1 is 0001-01-01. *)
Definition toordinal (d : datetime) : Z :=
  days_before_year (year d) + days_before_month (year d) (month d) + day d.

Definition seconds_of_day (d : datetime) : Z :=
  second d + minute d * 60 + hour d * 3600.

(** Microseconds since the start of day 0; the order of naive datetimes
    ([<], [$gte]) is the order of these numbers. *)
Definition micros (d : datetime) : Z :=
  (toordinal d * 86400 + seconds_of_day d) * 1000000 + microsecond d.

Definition dt_ltb (a b : datetime) : bool := micros a <? micros b.
Definition dt_leb (a b : datetime) : bool := micros a <=? micros b.

(** [datetime.timedelta]: its constructor normalises the three fields with
    [divmod], so that [0 <= seconds < 86400] and
    [0 <= microseconds < 1000000]; only [days] carries the sign. *)
Record timedelta := mk_timedelta {
  days : Z; seconds : Z; microseconds : Z
}.

Definition timedelta_of (d s us : Z) : timedelta :=
  let s1 := s + us / 1000000 in
  {| days := d + s1 / 86400;
     seconds := s1 mod 86400;
     microseconds := us mod 1000000 |}.

(** [a - b] on datetimes. *)
Definition dt_sub (a b : datetime) : timedelta :=
  timedelta_of (toordinal a - toordinal b)
               (seconds_of_day a - seconds_of_day b)
               (microsecond a - microsecond b).

End Py.

Import Py.

(** ** MongoDB collections *)

Module Mongo.

(** A collection maps the [_id] of each document to the rest of it. *)
Abbreviation collection := (gmap nat dict).

(** The document as the driver hands it out, [_id] included. *)
Definition with_id (i : nat) (d : dict) : dict := <["_id" := PId i]> d.

(** The conditions used in the server's filters: [{k: v}] and
    [{k: {"$gte": v}}].  A filter on [None] also selects the documents
    without the field; [$gte] compares within one type only. *)
Inductive cond :=
| Eq (v : pyval)
| Gte (v : pyval).

Definition holds (c : cond) (field : option pyval) : bool :=
  match c, field with
  | Eq v, Some w => bool_decide (w = v)
  | Eq v, None => bool_decide (v = PNone)
  | Gte (PDate b), Some (PDate a) => dt_leb b a
  | Gte (PInt b), Some (PInt a) => b <=? a
  | Gte _, _ => false
  end.

Definition matches (q : list (string * cond)) (i : nat) (d : dict) : bool :=
  forallb (λ kc, holds kc.2 (with_id i d !! kc.1)) q.

(** [find_one({"_id": ObjectId(i), **q})] *)
Definition find_one (c : collection) (i : nat) (q : list (string * cond))
  : option dict :=
  match c !! i with
  | Some d => if matches q i d then Some (with_id i d) else None
  | None => None
  end.

(** [count_documents(q)] *)
Definition count_documents (c : collection) (q : list (string * cond)) : Z :=
  Z.of_nat (size (filter (λ kv : nat * dict, Is_true (matches q kv.1 kv.2)) c)).

(** [insert_one(d)]: the document gets an [_id] no document has. *)
Definition insert_one (c : collection) (d : dict) : nat * collection :=
  let i := fresh (dom c) in (i, <[i := d]> c).

(** [update_one({"_id": ObjectId(i)}, {"$set": fields})]; no document
    with this [_id]: nothing happens. *)
Definition set_fields (fields : list (string * pyval)) (d : dict) : dict :=
  foldr (λ kv acc, <[kv.1 := kv.2]> acc) d fields.

Definition update_one_set (c : collection) (i : nat)
  (fields : list (string * pyval)) : collection :=
  alter (set_fields fields) i c.

(** [update_one({"_id": ObjectId(i)}, {"$inc": {k: n}})]; the server
    rejects the update of a field that is not a number. *)
Definition update_one_inc (c : collection) (i : nat) (k : string) (n : Z)
  : res collection :=
  match c !! i with
  | None => Ok c
  | Some d =>
      match d !! k with
      | None => Ok (<[i := <[k := PInt n]> d]> c)
      | Some (PInt m) => Ok (<[i := <[k := PInt (m + n)]> d]> c)
      | Some _ => Raise WriteError
      end
  end.

End Mongo.

Import Mongo.

(** ** The server's world *)

(** [db.users], [db.children], [db.responses] *)
Record database := mk_database {
  users : gmap nat dict;
  children : gmap nat dict;
  responses : gmap nat dict
}.

Inductive collection_name := Users | Children | Responses.

Definition coll (n : collection_name) (d : database) : gmap nat dict :=
  match n with
  | Users => users d
  | Children => children d
  | Responses => responses d
  end.

Definition set_coll (n : collection_name) (c : gmap nat dict) (d : database)
  : database :=
  match n with
  | Users => mk_database c (children d) (responses d)
  | Children => mk_database (users d) c (responses d)
  | Responses => mk_database (users d) (children d) c
  end.

(** A request to [openai_client.chat.completions.create]: the model, the
    system and the user message, and the sampling parameters. *)
Record completion_request := mk_request {
  model : string;
  system_content : string;
  user_content : string;
  max_completion_tokens : option Z;
  max_tokens : option Z;
  temperature : option Q
}.

(** What comes back: the call raises (network error, timeout, unknown
    model, no choice), or [response.choices[0].message.content], which may
    be [None]. *)
Inductive completion :=
| Fails
| Content (content : option string).

(** What a request handler depends on but does not own: the OpenAI client
    ([None] without an API key), and the clocks.  [utc_at k] and
    [local_at k] are what [datetime.utcnow()] and [datetime.now()] return
    when they are the [k]-th reading of the clock in a request. *)
Record env := mk_env {
  openai_client : option (completion_request -> completion);
  utc_at : nat -> datetime;
  local_at : nat -> datetime
}.

(** What a handler changes: the database, the number of clock readings so
    far, and the requests sent to the provider, oldest first. *)
Record state := mk_state {
  db : database;
  readings : nat;
  sent : list completion_request
}.

Definition with_db (d : database) (s : state) : state :=
  mk_state d (readings s) (sent s).

(** Handlers run in a reader, state and exception monad: an exception
    leaves the writes made before it in place. *)
Definition M (A : Type) : Type := env -> state -> res A * state.

#[global] Instance M_ret : MRet M := λ A a _ s, (Ok a, s).

#[global] Instance M_bind : MBind M := λ A B f m e s,
  match m e s with
  | (Ok a, s') => f a e s'
  | (Raise x, s') => (Raise x, s')
  end.

Definition raise {A} (x : exn) : M A := λ _ s, (Raise x, s).

Definition lift {A} (r : res A) : M A := λ _ s, (r, s).

(** [try: m  except Exception as x: h x] *)
Definition try_except {A} (m : M A) (h : exn -> M A) : M A := λ e s,
  match m e s with
  | (Ok a, s') => (Ok a, s')
  | (Raise x, s') => h x e s'
  end.

Definition utcnow : M datetime := λ e s,
  (Ok (utc_at e (readings s)), mk_state (db s) (S (readings s)) (sent s)).

Definition now : M datetime := λ e s,
  (Ok (local_at e (readings s)), mk_state (db s) (S (readings s)) (sent s)).

(** [if openai_client:] *)
Definition client_configured : M bool := λ e s,
  (Ok (bool_decide (is_Some (openai_client e))), s).

(** [openai_client.chat.completions.create(...).choices[0].message.content] *)
Definition create (r : completion_request) : M (option string) := λ e s,
  match openai_client e with
  | None => (Raise AttributeError, s)
  | Some provider =>
      let s' := mk_state (db s) (readings s) (sent s ++ [r]) in
      match provider r with
      | Fails => (Raise APIError, s')
      | Content c => (Ok c, s')
      end
  end.

Definition db_find_one (n : collection_name) (i : nat)
  (q : list (string * cond)) : M (option dict) := λ _ s,
  (Ok (find_one (coll n (db s)) i q), s).

Definition db_count_documents (n : collection_name)
  (q : list (string * cond)) : M Z := λ _ s,
  (Ok (count_documents (coll n (db s)) q), s).

Definition db_insert_one (n : collection_name) (d : dict) : M nat := λ _ s,
  let '(i, c) := insert_one (coll n (db s)) d in
  (Ok i, with_db (set_coll n c (db s)) s).

Definition db_update_one_set (n : collection_name) (i : nat)
  (fields : list (string * pyval)) : M unit := λ _ s,
  (Ok tt, with_db (set_coll n (update_one_set (coll n (db s)) i fields) (db s)) s).

Definition db_update_one_inc (n : collection_name) (i : nat) (k : string)
  (z : Z) : M unit := λ _ s,
  match update_one_inc (coll n (db s)) i k z with
  | Ok c => (Ok tt, with_db (set_coll n c (db s)) s)
  | Raise x => (Raise x, s)
  end.

(** [ObjectId(v)] *)
Definition as_id (v : pyval) : res nat :=
  match v with
  | PId i => Ok i
  | _ => Raise TypeError
  end.

(** [len(v)] on a completion *)
Definition len_of (content : option string) : res Z :=
  match content with
  | Some s => Ok (py_len s)
  | None => Raise TypeError
  end.

(** A handler serves one request: it starts with a fresh count of clock
    readings and an empty list of provider requests. *)
Definition serve {A} (handler : M A) (e : env) (d : database)
  : res A * database * list completion_request :=
  let '(r, s) := handler e (mk_state d 0 []) in (r, db s, sent s).

(** ** Utility functions *)

(** [calculate_age_months] *)
Definition calculate_age_months (birth_year birth_month : pyval) : M Z :=
  t ← now;
  by_ ← lift (as_int birth_year);
  bm ← lift (as_int birth_month);
  mret (Z.max 0 ((year t - by_) * 12 + (month t - bm))).

(** [calculate_child_age_years].  The result of the source is the float
    [age + max(0, now.month - birth_month) / 12.0], a whole number of
    years plus some twelfths; it is kept exactly, as a number of twelfths
    of a year. *)
Definition calculate_child_age_years (birth_month birth_year : pyval) : M Z :=
  t ← now;
  by_ ← lift (as_int birth_year);
  bm ← lift (as_int birth_month);
  let age := year t - by_ in
  let age := if month t <? bm then age - 1 else age in
  mret (age * 12 + Z.max 0 (month t - bm)).

(** [int(age)] and [int(age + k)] on an age in twelfths *)
Definition int_of_age (age : Z) : Z := Z.quot age 12.

(** [get_complexity_descriptor] *)
Definition get_complexity_descriptor (complexity_level : Z) (age : Z) : string :=
  let base_age := Z.max 36 (Z.min age 144) in
  if complexity_level <=? -2 then
    "très simple, comme pour un enfant de "
    +:+ pretty (Z.max 3 (int_of_age (base_age - 24)))
    +:+ " ans, avec des mots très faciles"
  else if complexity_level =? -1 then
    "simple, comme pour un enfant de "
    +:+ pretty (Z.max 3 (int_of_age (base_age - 12)))
    +:+ " ans, avec des explications courtes"
  else if complexity_level =? 0 then
    "adapté à un enfant de " +:+ pretty (int_of_age base_age) +:+ " ans"
  else if complexity_level =? 1 then
    "plus détaillé avec des exemples concrets, comme pour un enfant de "
    +:+ pretty (Z.min 12 (int_of_age (base_age + 12)))
    +:+ " ans qui veut approfondir"
  else
    "très détaillé avec des explications scientifiques et des exemples variés, comme pour un enfant de "
    +:+ pretty (Z.min 12 (int_of_age (base_age + 24)))
    +:+ " ans qui est très curieux".

Definition lines (l : list string) : string := String.concat nl l.

(** [get_complexity_instructions] *)
Definition get_complexity_instructions (complexity_level : Z) : string :=
  if complexity_level <=? -2 then
    lines
      [ "- Utilise des mots TRÈS simples (3-4 lettres maximum quand possible)";
        "- Phrases TRÈS courtes (3-5 mots maximum)";
        "- Répète les mots importants";
        "- Utilise beaucoup d'onomatopées (boum, splash, miaou...)";
        "- Donne des exemples très concrets et familiers";
        "- Évite complètement les concepts abstraits" ]
  else if complexity_level =? -1 then
    lines
      [ "- Utilise un vocabulaire simple mais un peu plus riche";
        "- Phrases courtes mais complètes (5-8 mots)";
        "- Explique un seul concept à la fois";
        "- Utilise des comparaisons avec des objets familiers";
        "- Évite les détails techniques";
        "- Reste très concret et visuel" ]
  else if complexity_level =? 0 then
    lines
      [ "- Utilise un vocabulaire adapté à l'âge";
        "- Phrases de longueur normale (8-12 mots)";
        "- Explique clairement mais sans trop de détails";
        "- Utilise des exemples que l'enfant peut comprendre";
        "- Introduis quelques mots nouveaux en les expliquant";
        "- Équilibre entre simplicité et richesse" ]
  else if complexity_level =? 1 then
    lines
      [ "- Utilise un vocabulaire plus riche et varié";
        "- Phrases plus longues et complexes";
        "- Donne plus de détails et d'exemples";
        "- Explique les " +:+ dq +:+ "pourquoi" +:+ dq +:+ " et les " +:+ dq +:+ "comment" +:+ dq;
        "- Introduis des concepts un peu plus avancés";
        "- Encourage les questions de suivi" ]
  else
    lines
      [ "- Utilise un vocabulaire riche et précis";
        "- Phrases complexes avec plusieurs idées";
        "- Donne des explications détaillées et scientifiques";
        "- Utilise des termes techniques en les expliquant";
        "- Donne plusieurs exemples et contre-exemples";
        "- Encourage la réflexion critique et les questions approfondies" ].

(** [s[n:]] *)
Fixpoint string_from (n : nat) (s : string) : string :=
  match n, s with
  | O, _ => s
  | S n', String _ r => string_from n' r
  | S _, EmptyString => EmptyString
  end.

(** [generate_advanced_system_message]; a [complexity_level] that does not
    compare with an integer raises in [get_complexity_descriptor]. *)
Definition generate_advanced_system_message (child_name child_gender : pyval)
  (age : Z) (level : pyval) : res string :=
  match as_int level with
  | Raise x => Raise x
  | Ok complexity_level =>
    let complexity_desc := get_complexity_descriptor complexity_level age in
    let girl := bool_decide (child_gender = PStr "girl") in
    let il := if girl then "elle" else "il" in
    let lui := if girl then "elle" else "lui" in
    let son := if girl then "sa" else "son" in
    let petit := if girl then "petite" else "petit" in
    let curieux := if girl then "curieuse" else "curieux" in
    let gender_text := if girl then "une fille" else "un garçon" in
    Ok (lines
      [ "Tu es une assistante bienveillante qui répond aux questions des enfants avec une voix de maman rassurante. ";
        "";
        "RÈGLE CRUCIALE - STRUCTURE DE RÉPONSE OBLIGATOIRE POUR SUJETS SCIENTIFIQUES/TECHNIQUES :";
        "📚 POUR TOUTE QUESTION SCIENTIFIQUE/TECHNIQUE :";
        "1. D'ABORD re-expliquer SIMPLEMENT les termes de la question ";
        "2. ENSUITE donner l'explication adaptée à l'âge";
        "3. TERMINER par une question pour encourager la curiosité";
        "";
        "EXEMPLE OBLIGATOIRE :";
        "Question: " +:+ dq +:+ "Pourquoi un orage peut faire du feu ?" +:+ dq;
        "Réponse: " +:+ dq +:+ py_str child_name +:+ ", laisse-moi t'expliquer ! Un orage, c'est quand il y a de gros nuages noirs dans le ciel avec de la pluie, du tonnerre et des éclairs. Les éclairs, ce sont des grosses étincelles électriques très puissantes qui descendent du ciel. Ces éclairs sont si chauds qu'ils peuvent allumer les arbres ou l'herbe sèche, comme une allumette géante ! C'est pour ça qu'on peut voir du feu après un orage. Est-ce que tu as déjà vu des éclairs dans le ciel " +:+ py_str child_name +:+ " ?" +:+ dq;
        "";
        "RÈGLES DE SÉCURITÉ ÉQUILIBRÉES (PRIORITÉ ABSOLUE):";
        "⚠️ SUJETS INTERDITS - REDIRECTION OBLIGATOIRE VERS LES PARENTS :";
        "- Violence, guerre, mort violente, meurtre, armes → " +:+ dq +:+ "C'est une question importante " +:+ py_str child_name +:+ ", mais je pense que papa ou maman pourra mieux t'expliquer cela. Demande-leur quand tu les verras !" +:+ dq;
        "- Contenu sexuel explicite, pornographie, anatomie intime détaillée → " +:+ dq +:+ py_str child_name +:+ ", c'est une question que tes parents t'expliqueront mieux que moi. Va leur demander ma " +:+ petit +:+ " !" +:+ dq;
        "- Drogues, alcool, substances dangereuses → " +:+ dq +:+ "Ma " +:+ petit +:+ " " +:+ py_str child_name +:+ ", c'est un sujet pour les grands. Tes parents pourront t'en parler quand tu seras plus grand" +:+ (if String.eqb gender_text "une fille" then string_from 4 gender_text else "") +:+ "." +:+ dq;
        "";
        "✅ ÉDUCATION SEXUELLE DE BASE AUTORISÉE avec vocabulaire familial :";
        "- " +:+ dq +:+ "Comment on fait les bébés ?" +:+ dq +:+ " → Répondre avec vocabulaire simple et familial adapté à l'âge : " +:+ dq +:+ "Quand un papa et une maman s'aiment très fort, ils peuvent créer ensemble un petit bébé qui grandit dans le ventre de maman pendant 9 mois. C'est un cadeau d'amour très spécial " +:+ py_str child_name +:+ " !" +:+ dq;
        "- Questions sur la naissance, la grossesse, les familles → Utiliser un vocabulaire doux et adapté à l'âge";
        "- Différences entre garçons/filles → Réponses simples et respectueuses";
        "";
        "INSTRUCTIONS PRINCIPALES:";
        "- Réponds directement à l'enfant en utilisant son prénom " +:+ dq +:+ py_str child_name +:+ dq;
        "- " +:+ py_str child_name +:+ " est " +:+ gender_text +:+ " de " +:+ pretty (int_of_age age) +:+ " ans";
        "- Adapte ton langage pour qu'il soit " +:+ complexity_desc;
        "- Utilise les bons pronoms: " +:+ il +:+ ", " +:+ lui +:+ ", " +:+ son +:+ " quand tu parles de " +:+ py_str child_name;
        "- Encourage " +:+ son +:+ " côté " +:+ curieux +:+ " et créatif";
        "- Utilise un ton chaleureux, rassurant et maternel";
        "";
        "NIVEAU DE COMPLEXITÉ SPÉCIFIQUE:";
        get_complexity_instructions complexity_level;
        "";
        "- Explique les choses de manière simple et imagée adaptée à " +:+ gender_text +:+ " de " +:+ pretty (int_of_age age) +:+ " ans";
        "- Évite les mots techniques compliqués sauf si le niveau le permet";
        "- Termine souvent par une question ou encouragement pour stimuler la curiosité";
        "- Adapte tes exemples selon le genre si pertinent (sans stéréotypes excessifs)";
        "";
        "SÉCURITÉ ENFANT:";
        "- JAMAIS de détails explicites ou choquants";
        "- Vocabulaire familial et rassurant pour l'éducation sexuelle de base";
        "- Toujours protéger l'innocence tout en éduquant de façon appropriée";
        "- Rester positif et éducatif" ])
  end.

(** The system message of the more-details request in [submit_feedback]. *)
Definition enhanced_system_message (name : pyval) : string :=
  lines
      [ "Tu es un expert pédagogue qui va ajouter une section " +:+ dq +:+ "Plus d'infos" +:+ dq +:+ " très enrichissante pour " +:+ py_str name +:+ ".";
        "";
        "OBJECTIF : Ajouter des explications approfondies et ludiques.";
        "";
        "TON ET STYLE :";
        "- Enthousiaste et accessible";
        "- Utilise le prénom de l'enfant (" +:+ py_str name +:+ ")";
        "- Explications détaillées mais claires";
        "- Analogies concrètes et exemples du quotidien";
        "- Phrases comme " +:+ dq +:+ "Tu sais " +:+ py_str name +:+ dq +:+ ", " +:+ dq +:+ "Figure-toi " +:+ py_str name +:+ dq;
        "- Conclusion motivante";
        "";
        "FORMAT EXACT :";
        "[Contenu original exactement identique]";
        "";
        "## 🧠 Plus d'infos pour " +:+ py_str name +:+ " !";
        "";
        "[Contenu style pédagogique avec explications approfondies]";
        "" ].

(** ** Request bodies *)

Inductive Gender := BOY | GIRL.

Definition Gender_value (g : Gender) : string :=
  match g with
  | BOY => "boy"
  | GIRL => "girl"
  end.

(** [ChildCreate]; [valid] is the validation FastAPI runs on the body
    before the handler ([max_year] is the year at which the server
    started). *)
Module ChildCreate.
Record t := mk {
  name : string;
  gender : Gender;
  birth_month : Z;
  birth_year : Z;
  complexity_level : Z
}.

Definition valid (max_year : Z) (c : t) : bool :=
  (1 <=? py_len (name c)) && (py_len (name c) <=? 50)
  && (1 <=? birth_month c) && (birth_month c <=? 12)
  && (2000 <=? birth_year c) && (birth_year c <=? max_year)
  && (-2 <=? complexity_level c) && (complexity_level c <=? 2).
End ChildCreate.

(** [QuestionRequest]; [child_id] is the id the string of the body denotes. *)
Module QuestionRequest.
Record t := mk {
  question : string;
  child_id : nat
}.
End QuestionRequest.

(** The three texts the pattern of [FeedbackSubmission.feedback] admits. *)
Inductive feedback_kind := understood | too_complex | need_more_details.

#[global] Instance feedback_kind_eq_dec : EqDecision feedback_kind.
Proof. solve_decision. Defined.

Definition feedback_text (k : feedback_kind) : string :=
  match k with
  | understood => "understood"
  | too_complex => "too_complex"
  | need_more_details => "need_more_details"
  end.

(** The JSON body of [submit_feedback]: scalars, and the nested object
    [new_response]. *)
Inductive jval :=
| JVal (v : pyval)
| JObj (d : dict).

(** ** Handlers *)

(** [get_current_user], after the token has been decoded to its subject. *)
Definition get_current_user (sub : nat) : M dict :=
  user ← db_find_one Users sub [];
  match user with
  | None => raise (HTTPException 401 "User not found")
  | Some user => mret user
  end.

(** [create_child] *)
Definition create_child (child_data : ChildCreate.t) (current_user : dict)
  : M dict :=
  user_id ← lift (getitem current_user "_id");
  children_count ← db_count_documents Children [("parent_id", Eq user_id)];
  if 4 <=? children_count then
    raise (HTTPException 400 "Maximum 4 children allowed")
  else
    created_at ← utcnow;
    let new_child : dict :=
      list_to_map
        [ ("name", PStr (ChildCreate.name child_data));
          ("gender", PStr (Gender_value (ChildCreate.gender child_data)));
          ("birth_month", PInt (ChildCreate.birth_month child_data));
          ("birth_year", PInt (ChildCreate.birth_year child_data));
          ("complexity_level", PInt (ChildCreate.complexity_level child_data));
          ("parent_id", user_id);
          ("created_at", PDate created_at) ] in
    child_id ← db_insert_one Children new_child;
    age_months ← calculate_age_months
                   (PInt (ChildCreate.birth_year child_data))
                   (PInt (ChildCreate.birth_month child_data));
    mret (list_to_map
        [ ("id", PId child_id);
          ("name", PStr (ChildCreate.name child_data));
          ("gender", PStr (Gender_value (ChildCreate.gender child_data)));
          ("birth_month", PInt (ChildCreate.birth_month child_data));
          ("birth_year", PInt (ChildCreate.birth_year child_data));
          ("complexity_level", PInt (ChildCreate.complexity_level child_data));
          ("age_months", PInt age_months);
          ("parent_id", user_id) ] : dict).

(** [POST /api/children]: validation of the body, then the handler. *)
Definition post_children (max_year : Z) (child_data : ChildCreate.t)
  (current_user : dict) : M dict :=
  if ChildCreate.valid max_year child_data then
    create_child child_data current_user
  else raise (HTTPException 422 "Unprocessable Entity").

(** [trial_end_date and datetime.utcnow() < trial_end_date], as a truth
    value: the clock is read only when [trial_end_date] is true, and the
    comparison raises unless it is a date. *)
Definition is_trial_active (trial_end_date : pyval) : M bool :=
  if truthy trial_end_date then
    t ← utcnow;
    match trial_end_date with
    | PDate e => mret (dt_ltb t e)
    | _ => raise TypeError
    end
  else mret false.

(** The answer of last resort of [ask_question]. *)
Definition could_not_answer (name : pyval) : string :=
  "Bonjour " +:+ py_str name
  +:+ ", je n'ai pas pu répondre à ta question pour le moment. Peux-tu me la redemander ?".

(** The two requests of the fallback chain. *)
Definition gpt5 (system user : string) (budget : Z) : completion_request :=
  mk_request "gpt-5" system user (Some budget) None None.

Definition gpt4o (system user : string) (budget : Z) (temp : Q)
  : completion_request :=
  mk_request "gpt-4o" system user None (Some budget) (Some temp).

(** [try: GPT-5, empty answers raise  except Exception: GPT-4o] *)
Definition primary_then_fallback (system user : string) (budget : Z) (temp : Q)
  : M (option string) :=
  try_except
    (content ← create (gpt5 system user budget);
     if no_text content then raise (Exception "Empty response from GPT-5")
     else mret content)
    (λ gpt5_error, create (gpt4o system user budget temp)).

(** [ask_question] *)
Definition ask_question (request : QuestionRequest.t) (current_user : dict)
  : M dict :=
  user_id ← lift (getitem current_user "_id");
  child ← db_find_one Children (QuestionRequest.child_id request)
            [("parent_id", Eq user_id)];
  match child with
  | None => raise (HTTPException 404 "Child not found")
  | Some child =>
    let is_premium := get current_user "is_premium" (PBool false) in
    let trial_end_date := get current_user "trial_end_date" PNone in
    trial_active ← is_trial_active trial_end_date;
    let active_child_id := get current_user "active_child_id" PNone in
    t ← utcnow;
    questions_this_month ← db_count_documents Responses
      [("user_id", Eq user_id); ("created_at", Gte (PDate (start_of_month t)))];
    _ ← (if negb (truthy is_premium) && negb trial_active then
           child__id ← lift (getitem child "_id");
           if truthy active_child_id
              && negb (bool_decide (child__id = active_child_id))
           then raise (HTTPException 402 "Child not active in free version")
           else if 1 <=? questions_this_month
           then raise (HTTPException 402 "Monthly question limit reached")
           else mret tt
         else mret tt);
    birth_month ← lift (getitem child "birth_month");
    birth_year ← lift (getitem child "birth_year");
    age_years ← calculate_child_age_years birth_month birth_year;
    age_months ← calculate_age_months birth_year birth_month;
    let complexity_level := get child "complexity_level" (PInt 0) in
    name ← lift (getitem child "name");
    gender ← lift (getitem child "gender");
    system_message ← lift (generate_advanced_system_message
                             name gender age_years complexity_level);
    ai_answer ←
      try_except (A := pyval)
        (configured ← client_configured;
         if configured : bool then
           content ← primary_then_fallback system_message
                       (QuestionRequest.question request) 300 (7 # 10);
           mret (of_content content)
         else mret (PStr (could_not_answer name)))
        (λ e, mret (PStr (could_not_answer name)));
    created_at ← utcnow;
    let new_response : dict :=
      list_to_map
        [ ("question", PStr (QuestionRequest.question request));
          ("answer", ai_answer);
          ("child_id", PId (QuestionRequest.child_id request));
          ("child_name", name);
          ("child_age_months", PInt age_months);
          ("parent_id", user_id);
          ("created_at", PDate created_at);
          ("feedback", PNone) ] in
    response_id ← db_insert_one Responses new_response;
    user_oid ← lift (as_id user_id);
    _ ← db_update_one_inc Users user_oid "questions_asked" 1;
    returned_at ← utcnow;
    mret (list_to_map
        [ ("id", PId response_id);
          ("question", PStr (QuestionRequest.question request));
          ("answer", ai_answer);
          ("child_id", PId (QuestionRequest.child_id request));
          ("child_name", name);
          ("child_age_months", PInt age_months);
          ("created_at", PDate returned_at) ] : dict)
  end.

(** [get_monetization_status] *)
Definition get_monetization_status (current_user : dict) : M dict :=
  user_id ← lift (getitem current_user "_id");
  let is_premium := get current_user "is_premium" (PBool false) in
  let subscription_type := get current_user "subscription_type" PNone in
  let trial_end_date := get current_user "trial_end_date" PNone in
  default_start ← utcnow;
  let trial_start_date :=
    get current_user "trial_start_date" (PDate default_start) in
  let active_child_id := get current_user "active_child_id" PNone in
  trial_active ← is_trial_active trial_end_date;
  trial_days_left ←
    (if trial_active : bool then
       t ← utcnow;
       match trial_end_date with
       | PDate e => mret (days (dt_sub e t))
       | _ => raise TypeError
       end
     else mret 0);
  t ← utcnow;
  questions_this_month ← db_count_documents Responses
    [("user_id", Eq user_id); ("created_at", Gte (PDate (start_of_month t)))];
  let is_post_trial_setup_required :=
    negb (truthy is_premium) && (trial_days_left <=? 0)
    && negb (truthy active_child_id) in
  let popup_frequency :=
    if negb (truthy is_premium) then
      if trial_days_left <=? 0 then
        if is_post_trial_setup_required then "child_selection"
        else if 1 <=? questions_this_month then "monthly_limit"
        else "none"
      else "none"
    else "none" in
  mret (list_to_map
      [ ("is_premium", is_premium);
        ("trial_days_left", PInt trial_days_left);
        ("questions_asked", PInt questions_this_month);
        ("questions_this_month", PInt questions_this_month);
        ("popup_frequency", PStr popup_frequency);
        ("trial_start_date",
          PStr (match trial_start_date with
                | PDate d => isoformat d
                | v => py_str v
                end));
        ("last_popup_shown", get current_user "last_popup_shown" (PStr ""));
        ("subscription_type", subscription_type);
        ("active_child_id", active_child_id);
        ("is_post_trial_setup_required", PBool is_post_trial_setup_required) ]
    : dict).

(** The answer of last resort of the regeneration. *)
Definition could_not_regenerate (name : pyval) : string :=
  "Bonjour " +:+ py_str name
  +:+ ", je n'ai pas pu régénérer ma réponse. Peux-tu me redemander ?".

(** The user message of the more-details request. *)
Definition more_details_request (question : pyval) : string :=
  "Ajoute une section 'Plus d'infos' pédagogique pour cette question : "
  +:+ py_str question.

(** The body of the [try] block of [submit_feedback]: it computes the new
    answer, stores it and returns the [new_response] object.  The source
    looks [response_doc['question']] up while it builds each of the two
    requests; here it is looked up once before them, the exception of a
    missing key ending in the same handler. *)
Definition regenerate_response (response_id : nat) (feedback : feedback_kind)
  (response_doc child : dict) : M dict :=
  birth_month ← lift (getitem child "birth_month");
  birth_year ← lift (getitem child "birth_year");
  age_years ← calculate_child_age_years birth_month birth_year;
  new_answer ←
    (if bool_decide (feedback = need_more_details) then
       name ← lift (getitem child "name");
       question ← lift (getitem response_doc "question");
       plus_infos_section ←
         primary_then_fallback (enhanced_system_message name)
           (more_details_request question) 400 (8 # 10);
       original_response ← lift (getitem response_doc "answer");
       let new_answer :=
         py_str original_response +:+ nl +:+ nl
         +:+ py_str (of_content plus_infos_section) in
       _ ← lift (len_of plus_infos_section);
       mret (Some new_answer)
     else
       name ← lift (getitem child "name");
       gender ← lift (getitem child "gender");
       system_message ← lift (generate_advanced_system_message
                                name gender age_years
                                (get child "complexity_level" (PInt 0)));
       question ← lift (getitem response_doc "question");
       primary_then_fallback system_message (py_str question) 300 (7 # 10));
  new_answer ←
    (if no_text new_answer then
       name ← lift (getitem child "name");
       mret (Some (could_not_regenerate name))
     else mret new_answer);
  regenerated_timestamp ← utcnow;
  _ ← db_update_one_set Responses response_id
        [ ("answer", of_content new_answer);
          ("regenerated", PBool true);
          ("regenerated_timestamp", PDate regenerated_timestamp) ];
  question ← lift (getitem response_doc "question");
  child_id ← lift (getitem response_doc "child_id");
  name ← lift (getitem child "name");
  mret (list_to_map
      [ ("id", PId response_id);
        ("question", question);
        ("answer", of_content new_answer);
        ("child_id", child_id);
        ("child_name", name);
        ("complexity_level", get child "complexity_level" (PInt 0)) ] : dict).

Definition complexity_change (feedback : feedback_kind) : Z :=
  match feedback with
  | too_complex => -1
  | need_more_details => 1
  | understood => 0
  end.

Definition regenerate (feedback : feedback_kind) : bool :=
  match feedback with
  | too_complex => true
  | need_more_details => true
  | understood => false
  end.

(** [submit_feedback] *)
Definition submit_feedback (response_id : nat) (feedback : feedback_kind)
  (current_user : dict) : M (gmap string jval) :=
  user_id ← lift (getitem current_user "_id");
  let is_premium := get current_user "is_premium" (PBool false) in
  let trial_end_date := get current_user "trial_end_date" PNone in
  trial_active ← is_trial_active trial_end_date;
  if negb (truthy is_premium) && negb trial_active
     && bool_decide (feedback ∈ [too_complex; need_more_details])
  then
    raise (HTTPException 402 "Feedback buttons available in premium version only")
  else
    response_doc ← db_find_one Responses response_id [("parent_id", Eq user_id)];
    match response_doc with
    | None => raise (HTTPException 404 "Response not found")
    | Some response_doc =>
      child_ref ← lift (getitem response_doc "child_id");
      child_id ← lift (as_id child_ref);
      child ← db_find_one Children child_id [("parent_id", Eq user_id)];
      match child with
      | None => raise (HTTPException 404 "Child not found")
      | Some child =>
        child ←
          (if negb (complexity_change feedback =? 0) then
             current_level ←
               lift (as_int (get child "complexity_level" (PInt 0)));
             let new_level :=
               Z.max (-2) (Z.min 2 (current_level + complexity_change feedback)) in
             _ ← db_update_one_set Children child_id
                   [("complexity_level", PInt new_level)];
             mret (<["complexity_level" := PInt new_level]> child)
           else mret child);
        feedback_timestamp ← utcnow;
        _ ← db_update_one_set Responses response_id
              [ ("feedback", PStr (feedback_text feedback));
                ("feedback_timestamp", PDate feedback_timestamp) ];
        let result : gmap string jval :=
          list_to_map [ ("success", JVal (PBool true));
                        ("regenerate", JVal (PBool (regenerate feedback))) ] in
        if regenerate feedback then
          try_except
            (new_response ←
               regenerate_response response_id feedback response_doc child;
             mret (<["new_response" := JObj new_response]> result))
            (λ e,
               mret (<["error" := JVal (PStr "Could not regenerate response")]>
                       (<["regenerate" := JVal (PBool false)]> result)))
        else mret result
      end
    end.

(** ** The other handlers *)

(** *** Cursors and deletion *)

(** [find(q)]: the documents that match.  The driver returns them in the
    natural order of the collection, which a query does not fix; the model
    lists them in the order of [map_to_list]. *)
Definition find (c : collection) (q : list (string * cond)) : list dict :=
  (λ kv : nat * dict, with_id kv.1 kv.2)
    <$> filter (λ kv : nat * dict, Is_true (matches q kv.1 kv.2)) (map_to_list c).

(** [find_one(q)] without an [_id]: the first document that matches. *)
Definition find_first (c : collection) (q : list (string * cond))
  : option dict :=
  head (find c q).

(** [delete_one({"_id": ObjectId(i), **q})] and its [deleted_count] *)
Definition delete_one (c : collection) (i : nat) (q : list (string * cond))
  : Z * collection :=
  match find_one c i q with
  | Some _ => (1, delete i c)
  | None => (0, c)
  end.

(** How BSON orders values: by type first (null, which a missing field
    counts as, then numbers, strings, ObjectIds, booleans, dates), then
    within the type.  ObjectIds are ordered by their index here. *)
Definition bson_rank (v : option pyval) : Z :=
  match v with
  | None | Some PNone => 0
  | Some (PInt _) => 1
  | Some (PStr _) => 2
  | Some (PId _) => 3
  | Some (PBool _) => 4
  | Some (PDate _) => 5
  end.

Definition bson_leb (a b : option pyval) : bool :=
  match a, b with
  | Some (PInt x), Some (PInt y) => x <=? y
  | Some (PStr x), Some (PStr y) => String.leb x y
  | Some (PId x), Some (PId y) => (x <=? y)%nat
  | Some (PBool x), Some (PBool y) => implb x y
  | Some (PDate x), Some (PDate y) => dt_leb x y
  | _, _ => bson_rank a <=? bson_rank b
  end.

(** [.sort(k, -1)]: the documents with the greater [k] first. *)
Definition descending (k : string) (a b : dict) : Prop :=
  Is_true (bson_leb (b !! k) (a !! k)).

#[global] Instance descending_dec k a b : Decision (descending k a b).
Proof. unfold descending. apply _. Defined.

Definition sort_descending (k : string) (l : list dict) : list dict :=
  merge_sort (descending k) l.

Definition db_find (n : collection_name) (q : list (string * cond))
  : M (list dict) := λ _ s,
  (Ok (find (coll n (db s)) q), s).

Definition db_find_first (n : collection_name) (q : list (string * cond))
  : M (option dict) := λ _ s,
  (Ok (find_first (coll n (db s)) q), s).

Definition db_delete_one (n : collection_name) (i : nat)
  (q : list (string * cond)) : M Z := λ _ s,
  let '(deleted_count, c) := delete_one (coll n (db s)) i q in
  (Ok deleted_count, with_db (set_coll n c (db s)) s).

(** *** Children *)

(** The entry of a child in the list of [get_children]: the body of its
    loop. *)
Definition child_entry (user_id : pyval) (child : dict) : M dict :=
  birth_year ← lift (getitem child "birth_year");
  birth_month ← lift (getitem child "birth_month");
  age_months ← calculate_age_months birth_year birth_month;
  child__id ← lift (getitem child "_id");
  name ← lift (getitem child "name");
  gender ← lift (getitem child "gender");
  mret (list_to_map
      [ ("id", child__id);
        ("name", name);
        ("gender", gender);
        ("birth_month", birth_month);
        ("birth_year", birth_year);
        ("complexity_level", get child "complexity_level" (PInt 0));
        ("age_months", PInt age_months);
        ("parent_id", user_id) ] : dict).

(** [get_children] *)
Definition get_children (current_user : dict) : M (list dict) :=
  user_id ← lift (getitem current_user "_id");
  children ← db_find Children [("parent_id", Eq user_id)];
  mapM (child_entry user_id) (take 4 children).

(** [delete_child] *)
Definition delete_child (child_id : nat) (current_user : dict) : M dict :=
  user_id ← lift (getitem current_user "_id");
  deleted_count ← db_delete_one Children child_id [("parent_id", Eq user_id)];
  if deleted_count =? 0 then raise (HTTPException 404 "Child not found")
  else mret ({[ "message" := PStr "Child deleted successfully" ]} : dict).

(** [get_child_complexity]; the age is in twelfths of a year, as
    [calculate_child_age_years] gives it. *)
Record complexity_info := mk_complexity_info {
  info_child_id : nat;
  info_complexity_level : pyval;
  info_name : pyval;
  info_age_years : Z
}.

Definition get_child_complexity (child_id : nat) (current_user : dict)
  : M complexity_info :=
  user_id ← lift (getitem current_user "_id");
  child ← db_find_one Children child_id [("parent_id", Eq user_id)];
  match child with
  | None => raise (HTTPException 404 "Child not found")
  | Some child =>
    name ← lift (getitem child "name");
    birth_month ← lift (getitem child "birth_month");
    birth_year ← lift (getitem child "birth_year");
    age_years ← calculate_child_age_years birth_month birth_year;
    mret (mk_complexity_info child_id
            (get child "complexity_level" (PInt 0)) name age_years)
  end.

(** *** Responses *)

(** The entry of a response in the list of [get_child_responses]: the
    body of its loop. *)
Definition response_entry (response : dict) : M dict :=
  response__id ← lift (getitem response "_id");
  question ← lift (getitem response "question");
  answer ← lift (getitem response "answer");
  child_name ← lift (getitem response "child_name");
  created_at ← lift (getitem response "created_at");
  mret (list_to_map
      [ ("id", response__id);
        ("question", question);
        ("answer", answer);
        ("child_name", child_name);
        ("created_at", created_at);
        ("feedback", get response "feedback" PNone) ] : dict).

(** [get_child_responses]; [child_id] is the id the string of the path
    denotes. *)
Definition get_child_responses (child_id : nat) (current_user : dict)
  : M (list dict) :=
  user_id ← lift (getitem current_user "_id");
  found ← db_find Responses
             [("child_id", Eq (PId child_id)); ("parent_id", Eq user_id)];
  mapM response_entry (take 20 (sort_descending "created_at" found)).

(** *** Monetization *)

(** [select_active_child] *)
Definition select_active_child (child_id : nat) (current_user : dict)
  : M dict :=
  user_id ← lift (getitem current_user "_id");
  child ← db_find_one Children child_id [("parent_id", Eq user_id)];
  match child with
  | None => raise (HTTPException 404 "Child not found")
  | Some _ =>
    user_oid ← lift (as_id user_id);
    _ ← db_update_one_set Users user_oid [("active_child_id", PId child_id)];
    mret (list_to_map
        [ ("message", PStr "Active child selected");
          ("active_child_id", PId child_id) ] : dict)
  end.

(** *** Adding to a date *)

(** The month and the day of day [n] of a year, counted from 0: the end
    of CPython's [_ord2ymd], which estimates the month and corrects it. *)
Definition month_day (leapyear : bool) (n : Z) : Z * Z :=
  let month := Z.shiftr (n + 50) 5 in
  let preceding :=
    nth (Z.to_nat month) [-1; 0; 31; 59; 90; 120; 151; 181; 212; 243; 273; 304; 334] 0
    + (if (2 <? month) && leapyear then 1 else 0) in
  if n <? preceding then
    let month := month - 1 in
    let preceding :=
      preceding
      - (nth (Z.to_nat month) [-1; 31; 28; 31; 30; 31; 30; 31; 31; 30; 31; 30; 31] 0
         + (if (month =? 2) && leapyear then 1 else 0)) in
    (month, n - preceding + 1)
  else (month, n - preceding + 1).

(** [date.fromordinal(n)], CPython's [_ord2ymd]: the year, month and day
    of day [n]. *)
Definition fromordinal (n : Z) : Z * Z * Z :=
  let n := n - 1 in
  let n400 := n / 146097 in
  let n := n mod 146097 in
  let year := n400 * 400 + 1 in
  let n100 := n / 36524 in
  let n := n mod 36524 in
  let n4 := n / 1461 in
  let n := n mod 1461 in
  let n1 := n / 365 in
  let n := n mod 365 in
  let year := year + (n100 * 100 + n4 * 4 + n1) in
  if (n1 =? 4) || (n100 =? 4) then (year - 1, 12, 31)
  else
    let leapyear := (n1 =? 3) && (negb (n4 =? 24) || (n100 =? 3)) in
    let '(month, day) := month_day leapyear n in
    (year, month, day).

(** [t + d] on a datetime and a timedelta; past the year 9999 it raises
    [OverflowError], an [Exception]. *)
Definition dt_add (t : datetime) (d : timedelta) : res datetime :=
  let delta :=
    timedelta_of (toordinal t + days d) (seconds_of_day t + seconds d)
      (microsecond t + microseconds d) in
  let hour := seconds delta / 3600 in
  let rem := seconds delta mod 3600 in
  let minute := rem / 60 in
  let second := rem mod 60 in
  if (0 <? days delta) && (days delta <=? 3652059) then
    let '(y, m, dd) := fromordinal (days delta) in
    Ok (mk_datetime y m dd hour minute second (microseconds delta))
  else Raise (Exception "date value out of range").

(** [subscribe_premium]; the statements after its [return] are never
    reached. *)
Definition subscribe_premium (subscription_type transaction_id : string)
  (current_user : dict) : M dict :=
  user_id ← lift (getitem current_user "_id");
  if negb (bool_decide (subscription_type ∈ ["monthly"; "annual"])) then
    raise (HTTPException 400 "Invalid subscription type")
  else
    t ← utcnow;
    end_date ← lift (dt_add t (timedelta_of
                 (if String.eqb subscription_type "monthly" then 30 else 365) 0 0));
    let price :=
      if String.eqb subscription_type "monthly" then "5.99€" else "59.90€" in
    user_oid ← lift (as_id user_id);
    _ ← db_update_one_set Users user_oid
          [ ("is_premium", PBool true);
            ("subscription_type", PStr subscription_type);
            ("subscription_end_date", PDate end_date);
            ("transaction_id", PStr transaction_id);
            ("active_child_id", PNone) ];
    mret (list_to_map
        [ ("message", PStr "Subscription successful");
          ("subscription_type", PStr subscription_type);
          ("price", PStr price);
          ("end_date", PStr (isoformat end_date)) ] : dict).

(** *** Authentication *)

(** The claims of a token: [{"sub": ..., "exp": ...}]. *)
Module Token.
Record t := mk {
  sub : pyval;
  exp : datetime
}.
End Token.

(** [UserCreate] and [UserLogin] *)
Module UserCreate.
Record t := mk {
  email : string;
  password : string;
  first_name : string;
  last_name : string
}.
End UserCreate.

Module UserLogin.
Record t := mk {
  email : string;
  password : string
}.
End UserLogin.

Section Authentication.

(** The password context and the token encoder are libraries: [hash]
    draws a salt and may refuse a password, [verify] may refuse a stored
    value that is not a hash it knows, [jwt.encode] signs the claims. *)
Variable pwd_context_hash : string → string → res string.
Variable pwd_context_verify : string → pyval → res bool.
Variable jwt_encode : Token.t → string.

(** [verify_password] *)
Definition verify_password (plain_password : string) (hashed_password : pyval)
  : res bool :=
  pwd_context_verify plain_password hashed_password.

(** [get_password_hash], with the salt the library draws *)
Definition get_password_hash (salt password : string) : res string :=
  pwd_context_hash salt password.

(** [create_access_token(data={"sub": user_id})]: no [expires_delta] is
    ever passed, the token lasts 15 minutes. *)
Definition create_access_token (user_id : pyval) : M string :=
  t ← utcnow;
  expire ← lift (dt_add t (timedelta_of 0 (15 * 60) 0));
  mret (jwt_encode (Token.mk user_id expire)).

(** [create_refresh_token]; [REFRESH_TOKEN_EXPIRE_DAYS] is 7. *)
Definition create_refresh_token (user_id : pyval) : M string :=
  t ← utcnow;
  expire ← lift (dt_add t (timedelta_of 7 0 0));
  mret (jwt_encode (Token.mk user_id expire)).

(** [register] *)
Definition register (salt : string) (user_data : UserCreate.t)
  : M (gmap string jval) :=
  existing_user ← db_find_first Users
                    [("email", Eq (PStr (UserCreate.email user_data)))];
  match existing_user with
  | Some _ => raise (HTTPException 400 "Email already registered")
  | None =>
    hashed_password ← lift (get_password_hash salt (UserCreate.password user_data));
    t ← utcnow;
    trial_end_date ← lift (dt_add t (timedelta_of 30 0 0));
    created_at ← utcnow;
    let new_user : dict :=
      list_to_map
        [ ("email", PStr (UserCreate.email user_data));
          ("password", PStr hashed_password);
          ("first_name", PStr (UserCreate.first_name user_data));
          ("last_name", PStr (UserCreate.last_name user_data));
          ("is_premium", PBool false);
          ("trial_end_date", PDate trial_end_date);
          ("created_at", PDate created_at);
          ("questions_asked", PInt 0);
          ("popup_count", PInt 0) ] in
    user_id ← db_insert_one Users new_user;
    access_token ← create_access_token (PId user_id);
    refresh_token ← create_refresh_token (PId user_id);
    mret (list_to_map
        [ ("access_token", JVal (PStr access_token));
          ("refresh_token", JVal (PStr refresh_token));
          ("token_type", JVal (PStr "bearer"));
          ("user", JObj (list_to_map
             [ ("id", PId user_id);
               ("email", PStr (UserCreate.email user_data));
               ("first_name", PStr (UserCreate.first_name user_data));
               ("last_name", PStr (UserCreate.last_name user_data)) ])) ]
      : gmap string jval)
  end.

(** [login] *)
Definition login (user_data : UserLogin.t) : M (gmap string jval) :=
  user ← db_find_first Users [("email", Eq (PStr (UserLogin.email user_data)))];
  let incorrect := HTTPException 401 "Incorrect email or password" in
  match user with
  | None => raise incorrect
  | Some user =>
    hashed_password ← lift (getitem user "password");
    verified ← lift (verify_password (UserLogin.password user_data) hashed_password);
    if negb verified then raise incorrect
    else
      user_id ← lift (getitem user "_id");
      access_token ← create_access_token user_id;
      refresh_token ← create_refresh_token user_id;
      email ← lift (getitem user "email");
      first_name ← lift (getitem user "first_name");
      last_name ← lift (getitem user "last_name");
      mret (list_to_map
          [ ("access_token", JVal (PStr access_token));
            ("refresh_token", JVal (PStr refresh_token));
            ("token_type", JVal (PStr "bearer"));
            ("user", JObj (list_to_map
               [ ("id", user_id);
                 ("email", email);
                 ("first_name", first_name);
                 ("last_name", last_name) ])) ]
        : gmap string jval)
  end.

End Authentication.

(** * The properties *)

(** ** Vocabulary *)

(** The microseconds of a day. *)
Definition day_us : Z := 86400000000.

(** The ceiling of [a / b]. *)
Definition ceil_div (a b : Z) : Z := - ((- a) / b).

(** [x] brought into the interval from [lo] to [hi]. *)
Definition clamp (x lo hi : Z) : Z := Z.max lo (Z.min hi x).

(** The tier of an account at time [t], read off the fields the handlers
    read: premium when [is_premium] is true, else trial while [t] is before
    [trial_end_date], else post-trial free; no tier when [trial_end_date] is
    true without being a date (the handlers raise on such an account). *)
Inductive tier := premium | trial | post_trial_free.

Definition tier_of (current_user : dict) (t : datetime) : option tier :=
  if truthy (get current_user "is_premium" (PBool false)) then Some premium
  else
    match get current_user "trial_end_date" PNone with
    | PDate end_ => Some (if dt_ltb t end_ then trial else post_trial_free)
    | v => if truthy v then None else Some post_trial_free
    end.

(** The answer the database holds for a response. *)
Definition stored_answer (d : database) (response_id : nat) : option pyval :=
  responses d !! response_id ≫= (.!! "answer").

(** The level of a child, [child.get("complexity_level", 0)], is an integer
    between -2 and 2. *)
Definition level_ok (child : dict) : bool :=
  match get child "complexity_level" (PInt 0) with
  | PInt n => (-2 <=? n) && (n <=? 2)
  | _ => false
  end.

Definition levels_ok (d : database) : Prop :=
  map_Forall (λ _ child, level_ok child = true) (children d).

(** The number of children of an account, as [create_child] counts them. *)
Definition children_of (d : database) (uid : nat) : Z :=
  count_documents (children d) [("parent_id", Eq (PId uid))].

(** The counter [questions_asked] of the account is a number, or absent:
    [$inc] can update it. *)
Definition counter_ok (d : database) (uid : nat) : Prop :=
  match users d !! uid with
  | Some u =>
      match u !! "questions_asked" with
      | Some (PInt _) | None => True
      | Some _ => False
      end
  | None => True
  end.

(** No response has a field [user_id]: [ask_question], the only writer of
    [db.responses], stores none. *)
Definition responses_by_ask (d : database) : Prop :=
  map_Forall (λ _ r, r !! "user_id" = None) (responses d).

(** An attempt that raises or returns no text. *)
Definition attempt_fails (r : completion) : bool :=
  match r with
  | Fails => true
  | Content c => no_text c
  end.

(** The fallback chain got the completion [c], and sent [calls]: from the
    primary model, whose text is not blank, or else from the secondary
    model. *)
Definition answered_by (p : completion_request → completion)
  (system user : string) (budget : Z) (temp : Q) (c : option string)
  (calls : list completion_request) : Prop :=
  (p (gpt5 system user budget) = Content c ∧ no_text c = false
   ∧ calls = [gpt5 system user budget])
  ∨ (attempt_fails (p (gpt5 system user budget)) = true
     ∧ p (gpt4o system user budget temp) = Content c
     ∧ calls = [gpt5 system user budget; gpt4o system user budget temp]).

(** Nothing comes out of the fallback chain: there is no client, or the
    primary model raises or returns no text and the secondary one raises or
    returns no content. *)
Definition second_attempt_raises (e : env) : Prop :=
  match openai_client e with
  | None => True
  | Some p =>
      ∀ q, (model q = "gpt-5" → attempt_fails (p q) = true)
           ∧ (model q = "gpt-4o" → p q = Fails ∨ p q = Content None)
  end.

(** The state after the requests [l] have gone to the provider. *)
Definition sending (l : list completion_request) (s : state) : state :=
  mk_state (db s) (readings s) (sent s ++ l).

(** The second half of the fallback chain. *)
Definition second_attempt (p : completion_request → completion)
  (system user : string) (budget : Z) (temp : Q) (s : state)
  : res (option string) * state :=
  let s' := sending [gpt5 system user budget; gpt4o system user budget temp] s in
  match p (gpt4o system user budget temp) with
  | Fails => (Raise APIError, s')
  | Content c => (Ok c, s')
  end.

(** The fields [submit_feedback] sets on the response. *)
Definition feedback_fields (feedback : feedback_kind) (t : datetime)
  : list (string * pyval) :=
  [ ("feedback", PStr (feedback_text feedback)); ("feedback_timestamp", PDate t) ].

(** The level [submit_feedback] computes from the level [n]. *)
Definition new_level (feedback : feedback_kind) (n : Z) : Z :=
  Z.max (-2) (Z.min 2 (n + complexity_change feedback)).

(** The bodies of [submit_feedback] before and after a failed regeneration. *)
Definition result_of (feedback : feedback_kind) : gmap string jval :=
  list_to_map [ ("success", JVal (PBool true));
                ("regenerate", JVal (PBool (regenerate feedback))) ].

Definition failed_result (feedback : feedback_kind) : gmap string jval :=
  <["error" := JVal (PStr "Could not regenerate response")]>
    (<["regenerate" := JVal (PBool false)]> (result_of feedback)).

(** The fields a regeneration sets on the response. *)
Definition regenerated_fields (a : string) (t : datetime)
  : list (string * pyval) :=
  [ ("answer", PStr a); ("regenerated", PBool true);
    ("regenerated_timestamp", PDate t) ].

(** The document [create_child] inserts. *)
Definition new_child_doc (child_data : ChildCreate.t) (uid : nat)
  (created_at : datetime) : dict :=
  list_to_map
    [ ("name", PStr (ChildCreate.name child_data));
      ("gender", PStr (Gender_value (ChildCreate.gender child_data)));
      ("birth_month", PInt (ChildCreate.birth_month child_data));
      ("birth_year", PInt (ChildCreate.birth_year child_data));
      ("complexity_level", PInt (ChildCreate.complexity_level child_data));
      ("parent_id", PId uid);
      ("created_at", PDate created_at) ].

(** The refusal the quota of one question a month asks for. *)
Definition monthly_limit : exn :=
  HTTPException 402 "Monthly question limit reached".

(** A feedback request: who sends it (the document of the account, as
    authentication found it), for which response, of which kind, and the
    provider and clocks it runs against. *)
Record feedback_event := mk_feedback_event {
  ev_env : env;
  ev_user : nat;
  ev_account : dict;
  ev_response : nat;
  ev_kind : feedback_kind
}.

Definition serve_feedback (ev : feedback_event) (d : database)
  : res (gmap string jval) * database * list completion_request :=
  serve (submit_feedback (ev_response ev) (ev_kind ev)
           (with_id (ev_user ev) (ev_account ev))) (ev_env ev) d.

Definition after_feedback (d : database) (ev : feedback_event) : database :=
  (serve_feedback ev d).1.2.

(** The databases a sequence of feedback requests goes through. *)
Fixpoint feedback_trace (d : database) (events : list feedback_event)
  : list database :=
  d :: match events with
       | [] => []
       | ev :: events' => feedback_trace (after_feedback d ev) events'
       end.

(** Between [before] and [after], the level of the child of the response
    has been set to the clamp of its sum with the change of [kind], and no
    other child has changed. *)
Definition level_moved (kind : feedback_kind) (before after : database)
  (response_id : nat) : Prop :=
  ∃ response_doc child_id child level,
    responses before !! response_id = Some response_doc
    ∧ response_doc !! "child_id" = Some (PId child_id)
    ∧ children before !! child_id = Some child
    ∧ as_int (get child "complexity_level" (PInt 0)) = Ok level
    ∧ children after
      = <[child_id :=
            <["complexity_level" :=
                PInt (clamp (level + complexity_change kind) (-2) 2)]> child]>
          (children before).




(** Projections of a result. *)
Definition answer_of (r : res dict) : option pyval :=
  match r with
  | Ok body => body !! "answer"
  | Raise _ => None
  end.

Definition flag_of (r : res dict) (k : string) : option pyval :=
  match r with
  | Ok body => body !! k
  | Raise _ => None
  end.

Definition exception_of {A} (r : res A) : option exn :=
  match r with
  | Ok _ => None
  | Raise x => Some x
  end.

Definition body_of {A} (r : res (gmap string A)) : gmap string A :=
  match r with
  | Ok body => body
  | Raise _ => ∅
  end.

Definition level_of (d : database) (child_id : nat) : option pyval :=
  (λ child, get child "complexity_level" (PInt 0)) <$> children d !! child_id.

(** ** Vocabulary of the other properties *)

(** The document [ask_question] stores. *)
Definition response_doc_of (request : QuestionRequest.t) (uid : nat)
  (name answer : pyval) (age_months : Z) (created_at : datetime) : dict :=
  list_to_map
    [ ("question", PStr (QuestionRequest.question request));
      ("answer", answer);
      ("child_id", PId (QuestionRequest.child_id request));
      ("child_name", name);
      ("child_age_months", PInt age_months);
      ("parent_id", PId uid);
      ("created_at", PDate created_at);
      ("feedback", PNone) ].

(** The exceptions [ask_question] raises before it writes anything. *)
Definition refusal (x : exn) : Prop :=
  x = HTTPException 404 "Child not found"
  ∨ x = HTTPException 402 "Child not active in free version"
  ∨ x = monthly_limit
  ∨ x = TypeError
  ∨ ∃ k, x = KeyError k.

(** [active_child_id and str(child["_id"]) != active_child_id] *)
Definition inactive_child (current_user : dict) (child_id : nat) : bool :=
  truthy (get current_user "active_child_id" PNone)
  && negb (bool_decide (PId child_id = get current_user "active_child_id" PNone)).

(** The questions [ask_question] counts for the month of [t]. *)
Definition questions_counted (d : database) (uid : nat) (t : datetime) : Z :=
  count_documents (responses d)
    [("user_id", Eq (PId uid)); ("created_at", Gte (PDate (start_of_month t)))].

(** A text without a decimal digit. *)
Definition is_digit (c : Ascii.ascii) : bool :=
  let n := Ascii.nat_of_ascii c in (48 <=? n)%nat && (n <=? 57)%nat.

Fixpoint no_digit (s : string) : bool :=
  match s with
  | EmptyString => true
  | String c r => negb (is_digit c) && no_digit r
  end.

(** The child is not one of the account: no such child, or another parent. *)
Definition foreign (d : database) (uid child_id : nat) : Prop :=
  ∀ child, children d !! child_id = Some child →
           child !! "parent_id" ≠ Some (PId uid).

(** The handler answers 404 "Child not found" and changes nothing. *)
Definition child_not_found {A} (handler : M A) (e : env) (d : database) : Prop :=
  serve handler e d = (Raise (HTTPException 404 "Child not found"), d, []).

(** The fields [subscribe_premium] sets. *)
Definition subscription_fields (subscription_type transaction_id : string)
  (end_date : datetime) : list (string * pyval) :=
  [ ("is_premium", PBool true);
    ("subscription_type", PStr subscription_type);
    ("subscription_end_date", PDate end_date);
    ("transaction_id", PStr transaction_id);
    ("active_child_id", PNone) ].

(** No two accounts have the same email. *)
Definition emails_unique (d : database) : Prop :=
  ∀ i j ui uj email,
    users d !! i = Some ui → users d !! j = Some uj →
    ui !! "email" = Some (PStr email) → uj !! "email" = Some (PStr email) →
    i = j.

Definition email_taken (d : database) (email : string) : Prop :=
  ∃ i u, users d !! i = Some u ∧ u !! "email" = Some (PStr email).

(** The clock stays a year away from the end of the calendar, and reads
    proper times of day. *)
Definition clock_in_range (e : env) : Prop :=
  ∀ k, let t := utc_at e k in
       1 ≤ toordinal t ≤ 3652059 - 366
       ∧ 0 ≤ seconds_of_day t < 86400
       ∧ 0 ≤ microsecond t < 1000000.

(** The day of the year that [month_day] returns is the one it was given. *)
Definition month_day_ok (leapyear : bool) (n : Z) : bool :=
  let '(m, dd) := month_day leapyear n in
  (1 <=? m) && (m <=? 12) && (1 <=? dd)
  && (days_before_month (if leapyear then 2024 else 2025) m + dd =? n + 1).

(** The time of day is a proper one. *)
Definition proper_time (t : datetime) : Prop :=
  0 ≤ hour t < 24 ∧ 0 ≤ minute t < 60 ∧ 0 ≤ second t < 60
  ∧ 0 ≤ microsecond t < 1000000.

(** ** An example deployment *)
Definition noon_29 : datetime := mk_datetime 2025 1 29 12 0 0 0.
Definition midnight_31 : datetime := mk_datetime 2025 1 31 0 0 0 0.

Definition march_10 (minute : Z) : datetime := mk_datetime 2025 3 10 12 minute 0 0.

Definition env_at (t : datetime) (client : option (completion_request → completion))
  : env :=
  mk_env client (λ _, t) (λ _, t).

Definition trial_account : dict :=
  list_to_map [ ("is_premium", PBool false); ("trial_end_date", PDate midnight_31) ].

Definition free_account : dict :=
  list_to_map
    [ ("email", PStr "parent@example.org");
      ("is_premium", PBool false);
      ("trial_end_date", PDate midnight_31);
      ("active_child_id", PId 0);
      ("questions_asked", PInt 0) ].

Definition premium_account : dict :=
  list_to_map
    [ ("email", PStr "premium@example.org");
      ("is_premium", PBool true);
      ("trial_end_date", PDate midnight_31);
      ("questions_asked", PInt 1) ].

Definition lea : dict :=
  list_to_map
    [ ("name", PStr "Lea"); ("gender", PStr "girl"); ("birth_month", PInt 5);
      ("birth_year", PInt 2019); ("complexity_level", PInt 0);
      ("parent_id", PId 0) ].

Definition tom : dict :=
  list_to_map
    [ ("name", PStr "Tom"); ("gender", PStr "boy"); ("birth_month", PInt 11);
      ("birth_year", PInt 2017); ("complexity_level", PInt 2);
      ("parent_id", PId 1) ].

Definition sky_response : dict :=
  list_to_map
    [ ("question", PStr "Pourquoi le ciel est bleu ?");
      ("answer", PStr "A cause de la lumiere du soleil.");
      ("child_id", PId 1); ("child_name", PStr "Tom");
      ("child_age_months", PInt 88); ("parent_id", PId 1);
      ("created_at", PDate (march_10 0)); ("feedback", PNone) ].

Definition example_db : database :=
  mk_database
    (list_to_map [ (0%nat, free_account); (1%nat, premium_account) ])
    (list_to_map [ (0%nat, lea); (1%nat, tom) ])
    (list_to_map [ (0%nat, sky_response) ]).

(** The same deployment with a blank answer stored. *)
Definition blank_response : dict := <["answer" := PStr " "]> sky_response.

Definition blank_db : database :=
  mk_database (users example_db) (children example_db)
    (list_to_map [ (0%nat, blank_response) ]).

(** Providers: one whose primary model raises and whose secondary model
    answers [text], and one that always raises. *)
Definition only_secondary (text : string) (q : completion_request) : completion :=
  if String.eqb (model q) "gpt-5" then Fails else Content (Some text).

Definition unavailable (q : completion_request) : completion := Fails.

Definition sky_question : QuestionRequest.t :=
  QuestionRequest.mk "Pourquoi la mer est salee ?" 0.

(** The request of user [uid], authenticated first. *)
Definition as_user {A} (uid : nat) (handler : dict → M A) : M A :=
  current_user ← get_current_user uid; handler current_user.

Definition premium_user : dict := with_id 1 premium_account.

(** Requests of the premium user on the stored response, and of the free one. *)
Definition feedback_run (kind : feedback_kind)
  (client : option (completion_request → completion))
  : res (gmap string jval) * database * list completion_request :=
  serve (submit_feedback 0 kind premium_user) (env_at (march_10 0) client)
    example_db.

Definition question_run
  : res dict * database * list completion_request :=
  serve (ask_question sky_question (with_id 0 free_account))
    (env_at (march_10 0) (Some (only_secondary "Parce que."))) example_db.

Definition sky_events : list feedback_event :=
  [ mk_feedback_event (env_at (march_10 0) (Some (only_secondary "Voila.")))
      1 premium_account 0 too_complex;
    mk_feedback_event (env_at (march_10 1) None) 1 premium_account 0 too_complex;
    mk_feedback_event (env_at (march_10 2) (Some unavailable))
      1 premium_account 0 need_more_details;
    mk_feedback_event (env_at (march_10 3) None) 0 free_account 0 understood ].


Definition encore_run := feedback_run need_more_details (Some (only_secondary "Encore.")).

Definition down_run := feedback_run need_more_details (Some unavailable).

Definition simpler_run := feedback_run too_complex None.

(** ** More of the example deployment *)

(** A second child of the first account. *)
Definition noe : dict :=
  list_to_map
    [ ("name", PStr "Noe"); ("gender", PStr "boy"); ("birth_month", PInt 11);
      ("birth_year", PInt 2025); ("complexity_level", PInt 0);
      ("parent_id", PId 0) ].

Definition family_db : database :=
  mk_database (users example_db) (<[2%nat := noe]> (children example_db))
    (responses example_db).

Definition noon_30 : datetime := mk_datetime 2025 1 30 12 0 0 0.

(** What a handler returns and the state it leaves, from the state in
    which [serve] starts it. *)
Definition run_on {A} (handler : M A) (e : env) (d : database) : res A * state :=
  handler e (mk_state d 0 []).

Definition apology_run : res dict * state :=
  run_on (ask_question sky_question (with_id 0 free_account))
    (env_at (march_10 0) (Some unavailable)) example_db.

Definition status_run : res dict * state :=
  run_on (get_monetization_status premium_user) (env_at (march_10 0) None)
    example_db.

(** A password context that does not hash, and an encoder that keeps the
    subject only: stand-ins with the interface of the libraries. *)
Definition plain_hash (salt password : string) : res string :=
  Ok ((password +:+ "$") +:+ salt).

Definition plain_verify (password : string) (hashed : pyval) : res bool :=
  match hashed with
  | PStr h => Ok (String.prefix (password +:+ "$") h)
  | _ => Raise TypeError
  end.

Definition subject_only (token : Token.t) : string := py_str (Token.sub token).

Definition zoe_signup : UserCreate.t :=
  UserCreate.mk "zoe@example.org" "secret" "Zoe" "Martin".

Definition signup_run : res (gmap string jval) * database * list completion_request :=
  serve (register plain_hash subject_only "salt" zoe_signup)
    (env_at (march_10 0) None) (mk_database ∅ ∅ ∅).

Definition zoe_account : dict :=
  list_to_map
    [ ("email", PStr "zoe@example.org"); ("password", PStr "secret$salt");
      ("first_name", PStr "Zoe"); ("last_name", PStr "Martin");
      ("is_premium", PBool false) ].

Definition zoe_db : database := mk_database {[ 0%nat := zoe_account ]} ∅ ∅.

(** * Proofs *)

(** ** Dates and text *)

Lemma timedelta_days_floor (d s us : Z) :
  days (timedelta_of d s us) = ((d * 86400 + s) * 1000000 + us) / day_us.
Proof.
  unfold timedelta_of, day_us; cbn [days].
  replace 86400000000 with (1000000 * 86400) by reflexivity.
  rewrite <- Z.div_div by lia.
  rewrite Z.div_add_l by lia.
  replace (d * 86400 + s + us / 1000000) with (d * 86400 + (s + us / 1000000)) by lia.
  rewrite Z.div_add_l by lia. reflexivity.
Qed.

Lemma dt_sub_days (a b : datetime) :
  days (dt_sub a b) = (micros a - micros b) / day_us.
Proof.
  unfold dt_sub. rewrite timedelta_days_floor. f_equal. unfold micros. lia.
Qed.

Lemma space1_nl : space1 10 = true.
Proof. reflexivity. Qed.

Lemma space2_nl b : space2 b 10 = false.
Proof. unfold space2. cbn. apply andb_false_r. Qed.

Lemma space3_nl_mid b0 b2 : space3 b0 10 b2 = false.
Proof.
  unfold space3. cbn. rewrite !andb_false_r. reflexivity.
Qed.

Lemma space3_nl_last b0 b1 : space3 b0 b1 10 = false.
Proof.
  unfold space3. cbn. rewrite !andb_false_r. reflexivity.
Qed.

Lemma app_String c r y : String c r +:+ y = String c (r +:+ y).
Proof. reflexivity. Qed.

Lemma blank_app_nl (a x : string) :
  blank (a +:+ nl +:+ x) = blank a && blank x.
Proof.
  remember (String.length a) as n eqn:Hn.
  revert a Hn. induction n as [n IH] using lt_wf_ind. intros a Hn.
  assert (Hrec : ∀ r, (String.length r < n)%nat →
            blank (r +:+ nl +:+ x) = blank r && blank x).
  { intros r Hr. exact (IH _ Hr r eq_refl). }
  clear IH. subst n.
  destruct a as [|c0 r0]; [reflexivity|].
  rewrite app_String. cbn [blank].
  destruct (space1 (code c0)); [apply Hrec; cbn; lia|].
  destruct r0 as [|c1 r1].
  { change ("" +:+ nl +:+ x) with (String (Ascii.Ascii false true false true false false false false) x).
    lazy beta iota. change (code (Ascii.Ascii false true false true false false false false)) with 10%N.
    rewrite space2_nl. destruct x; [reflexivity|]. now rewrite space3_nl_mid. }
  rewrite app_String.
  destruct (space2 (code c0) (code c1)); [apply Hrec; cbn; lia|].
  destruct r1 as [|c2 r2].
  { change ("" +:+ nl +:+ x) with (String (Ascii.Ascii false true false true false false false false) x).
    lazy beta iota. change (code (Ascii.Ascii false true false true false false false false)) with 10%N.
    now rewrite space3_nl_last. }
  rewrite app_String.
  destruct (space3 (code c0) (code c1) (code c2)); [apply Hrec; cbn; lia|reflexivity].
Qed.

(** ** Equations of the monad *)

Section Monad_equations.
Context {A B : Type}.
Implicit Types (e : env) (s : state).

Lemma bind_eq (m : M A) (f : A → M B) e s :
  (m ≫= f) e s =
  match m e s with
  | (Ok a, s') => f a e s'
  | (Raise x, s') => (Raise x, s')
  end.
Proof. reflexivity. Qed.

Lemma ret_eq (a : A) e s : (mret a : M A) e s = (Ok a, s).
Proof. reflexivity. Qed.

Lemma raise_eq (x : exn) e s : (raise x : M A) e s = (Raise x, s).
Proof. reflexivity. Qed.

Lemma lift_eq (r : res A) e s : lift r e s = (r, s).
Proof. reflexivity. Qed.

Lemma try_except_eq (m : M A) (h : exn → M A) e s :
  try_except m h e s =
  match m e s with
  | (Ok a, s') => (Ok a, s')
  | (Raise x, s') => h x e s'
  end.
Proof. reflexivity. Qed.

End Monad_equations.

Lemma getitem_with_id i d : getitem (with_id i d) "_id" = Ok (PId i).
Proof. unfold getitem, with_id. now rewrite lookup_insert_eq. Qed.

Lemma lookup_with_id_ne i d k : k ≠ "_id" → with_id i d !! k = d !! k.
Proof. intros H. unfold with_id. now rewrite lookup_insert_ne. Qed.

(** ** The trial and the fallback chain *)

Lemma is_trial_active_cases v e s :
  (∃ d, v = PDate d ∧
     is_trial_active v e s =
       (Ok (dt_ltb (utc_at e (readings s)) d),
        mk_state (db s) (S (readings s)) (sent s)))
  ∨ (truthy v = false ∧ is_trial_active v e s = (Ok false, s))
  ∨ (truthy v = true ∧ (∀ d, v ≠ PDate d) ∧
     is_trial_active v e s =
       (Raise TypeError, mk_state (db s) (S (readings s)) (sent s))).
Proof.
  unfold is_trial_active.
  destruct v as [|b|n|t|d|i]; cbn [truthy].
  - right; left; done.
  - destruct b; [right; right|right; left]; done.
  - destruct (n =? 0); cbn [negb]; [right; left|right; right]; done.
  - destruct (String.eqb t ""); cbn [negb]; [right; left|right; right]; done.
  - left; eexists; done.
  - right; right; done.
Qed.

Lemma primary_then_fallback_eq system user budget temp e s :
  primary_then_fallback system user budget temp e s =
  match openai_client e with
  | None => (Raise AttributeError, s)
  | Some p =>
      match p (gpt5 system user budget) with
      | Content c =>
          if no_text c then second_attempt p system user budget temp s
          else (Ok c, sending [gpt5 system user budget] s)
      | Fails => second_attempt p system user budget temp s
      end
  end.
Proof.
  unfold primary_then_fallback, second_attempt, sending.
  rewrite try_except_eq, bind_eq. unfold create.
  destruct (openai_client e) as [p|]; [|reflexivity].
  destruct (p (gpt5 system user budget)) as [|c]; cbn [sent db readings].
  - rewrite <- app_assoc. reflexivity.
  - destruct (no_text c); [|reflexivity].
    rewrite raise_eq. cbn [sent db readings]. rewrite <- app_assoc. reflexivity.
Qed.

(** ** Case analysis on a run

    A run of a handler is a nest of matches on the results of its steps.
    [mcases H] splits the run in [H] on the step at its head, again and
    again, until each case is a result; [munfold_in] exposes the steps. *)

Ltac head_scrutinee t :=
  lazymatch t with
  | match ?x with _ => _ end => head_scrutinee x
  | (match ?x with _ => _ end) _ => head_scrutinee x
  | (match ?x with _ => _ end) _ _ => head_scrutinee x
  | _ => t
  end.

Ltac munfold_in H :=
  cbv beta iota zeta delta
    [mbind M_bind mret M_ret lift raise try_except utcnow now
     client_configured db_find_one db_count_documents db_insert_one
     db_update_one_set db_update_one_inc] in H;
  cbn [db readings sent with_db coll set_coll users children responses] in H.

Ltac case_head H :=
  lazymatch type of H with
  | match ?x with _ => _ end = _ =>
      let y := head_scrutinee x in destruct y eqn:?
  | (match ?x with _ => _ end) _ = _ =>
      let y := head_scrutinee x in destruct y eqn:?
  | (match ?x with _ => _ end) _ _ = _ =>
      let y := head_scrutinee x in destruct y eqn:?
  end.

Lemma find_one_Some c i q d :
  find_one c i q = Some d →
  ∃ d0, c !! i = Some d0 ∧ d = with_id i d0 ∧ matches q i d0 = true.
Proof.
  unfold find_one. destruct (c !! i) as [d0|]; [|done].
  destruct (matches q i d0) eqn:Hm; [|done].
  intros [= <-]. eauto.
Qed.

Lemma get_with_id_ne i d k v : k ≠ "_id" → get (with_id i d) k v = get d k v.
Proof. intros H. unfold get. now rewrite lookup_with_id_ne. Qed.

Lemma getitem_Ok d k v : getitem d k = Ok v → d !! k = Some v.
Proof. unfold getitem. destruct (d !! k); congruence. Qed.

Lemma as_id_Ok v i : as_id v = Ok i → v = PId i.
Proof. destruct v; cbn; congruence. Qed.

Ltac msimpl_in H :=
  cbn [db readings sent with_db coll set_coll users children responses
       complexity_change regenerate negb Z.eqb andb] in H.

Ltac mcases H :=
  repeat (case_head H; msimpl_in H; try discriminate H).

(** ** The runs of [submit_feedback]

    A request is refused and changes nothing, or it finds the response and
    its child, stores the level and the feedback, and ends with, or
    without, the regeneration. *)

Lemma submit_feedback_inv uid account rid fb e s r s' :
  submit_feedback rid fb (with_id uid account) e s = (r, s') →
  (∃ x, r = Raise x ∧ db s' = db s ∧ sent s' = sent s)
  ∨ ∃ rdoc cid child s1 child1,
      responses (db s) !! rid = Some rdoc
      ∧ rdoc !! "child_id" = Some (PId cid)
      ∧ children (db s) !! cid = Some child
      ∧ sent s1 = sent s
      ∧ users (db s1) = users (db s)
      ∧ (∃ t, responses (db s1)
              = update_one_set (responses (db s)) rid (feedback_fields fb t))
      ∧ (fb = understood ∧ children (db s1) = children (db s)
           ∧ child1 = with_id cid child
         ∨ fb ≠ understood
           ∧ ∃ n, as_int (get child "complexity_level" (PInt 0)) = Ok n
               ∧ children (db s1)
                 = update_one_set (children (db s)) cid
                     [("complexity_level", PInt (new_level fb n))]
               ∧ child1 = <["complexity_level" := PInt (new_level fb n)]>
                            (with_id cid child))
      ∧ (if regenerate fb then
           match regenerate_response rid fb (with_id rid rdoc) child1 e s1 with
           | (Ok nr, s2) =>
               r = Ok (<["new_response" := JObj nr]> (result_of fb)) ∧ s' = s2
           | (Raise x, s2) => r = Ok (failed_result fb) ∧ s' = s2
           end
         else r = Ok (result_of fb) ∧ s' = s1).
Proof.
  intros H. unfold submit_feedback in H.
  rewrite bind_eq, lift_eq, getitem_with_id in H. rewrite bind_eq in H.
  destruct (is_trial_active_cases (get (with_id uid account) "trial_end_date" PNone) e s)
    as [(d & _ & Ha)|[(_ & Ha)|(_ & _ & Ha)]]; rewrite Ha in H; clear Ha.
  3: { injection H as <- <-. left. eauto. }
  all: munfold_in H.
  all: destruct fb; msimpl_in H.
  all: mcases H.
  all: try (injection H as <- <-; left; eauto; fail).
  all: repeat match goal with
       | Hf : find_one _ _ _ = Some _ |- _ =>
           apply find_one_Some in Hf; destruct Hf as (? & ? & -> & ?)
       | Hg : getitem (with_id _ _) "child_id" = Ok _ |- _ =>
           apply getitem_Ok in Hg; rewrite lookup_with_id_ne in Hg by done
       | Ha : as_id _ = Ok _ |- _ => apply as_id_Ok in Ha; subst
       end.
  all: msimpl_in H.
  all: repeat match goal with
       | Hi : context [get (with_id _ _) "complexity_level" _] |- _ =>
           rewrite get_with_id_ne in Hi by done
       end.
  all: match goal with
       | Hr : responses (db _) !! _ = Some ?rdoc,
         Hc : children (db _) !! ?cid = Some ?child,
         Hp : regenerate_response _ _ _ ?c1 _ ?st = _ |- _ =>
           injection H as <- <-; right; exists rdoc, cid, child, st, c1;
           rewrite Hp
       | Hr : responses (db _) !! _ = Some ?rdoc,
         Hc : children (db _) !! ?cid = Some ?child |- _ =>
           lazymatch type of H with
           | (_, ?st) = _ =>
               injection H as <- <-; right;
               exists rdoc, cid, child, st, (with_id cid child)
           end
       end.
  all: cbn [db readings sent with_db users children responses regenerate].
  all: split_and!; try done; eauto.
  all: try (left; done).
  all: right; split; [done|]; eexists; split_and!; eauto.
Qed.

Ltac munfold_all_in H :=
  cbv beta iota zeta delta
    [mbind M_bind mret M_ret lift raise try_except utcnow now
     client_configured db_find_one db_count_documents db_insert_one
     db_update_one_set db_update_one_inc
     calculate_child_age_years calculate_age_months] in H;
  cbn [db readings sent with_db coll set_coll users children responses] in H.

Lemma no_text_false c : no_text c = false → ∃ t, c = Some t ∧ blank t = false.
Proof. destruct c; cbn; [eauto|done]. Qed.

Lemma primary_then_fallback_frame system user budget temp e s r s' :
  primary_then_fallback system user budget temp e s = (r, s') →
  db s' = db s ∧ readings s' = readings s.
Proof.
  rewrite primary_then_fallback_eq. unfold second_attempt, sending.
  destruct (openai_client e) as [p|]; [|by intros [= <- <-]].
  destruct (p (gpt5 system user budget)) as [|c];
    [|destruct (no_text c)];
    try destruct (p (gpt4o system user budget temp));
    by intros [= <- <-].
Qed.

(** The regeneration touches the response only, and only when it succeeds. *)
Lemma regenerate_response_frame rid fb rdoc child e s r s' :
  regenerate_response rid fb rdoc child e s = (r, s') →
  is_Some (rdoc !! "child_id") →
  users (db s') = users (db s) ∧ children (db s') = children (db s)
  ∧ match r with
    | Raise _ => responses (db s') = responses (db s)
    | Ok nr =>
        ∃ a t, responses (db s')
               = update_one_set (responses (db s)) rid (regenerated_fields a t)
               ∧ nr !! "answer" = Some (PStr a)
    end.
Proof.
  intros H [cid Hcid]. unfold regenerate_response in H.
  assert (Hg : getitem rdoc "child_id" = Ok cid) by (unfold getitem; now rewrite Hcid).
  rewrite Hg in H.
  destruct fb;
    [rewrite bool_decide_eq_false_2 in H by done
    |rewrite bool_decide_eq_false_2 in H by done
    |rewrite bool_decide_eq_true_2 in H by done].
  all: munfold_all_in H.
  all: mcases H.
  all: try congruence.
  all: repeat match goal with
       | Hp : primary_then_fallback _ _ _ _ _ _ = _ |- _ =>
           apply primary_then_fallback_frame in Hp;
           cbn [db readings] in Hp; destruct Hp as [Hdb _]
       | Hn : no_text _ = false |- _ =>
           apply no_text_false in Hn; destruct Hn as (? & -> & _)
       end.
  all: injection H as <- <-;
       cbn [db readings sent with_db users children responses of_content];
       try rewrite !Hdb.
  all: split_and!; try done.
  all: do 2 eexists; split; [reflexivity|].
  all: by simplify_map_eq.
Qed.

Lemma primary_then_fallback_Ok system user budget temp e s c s' :
  primary_then_fallback system user budget temp e s = (Ok c, s') →
  ∃ p calls, openai_client e = Some p ∧ s' = sending calls s
             ∧ answered_by p system user budget temp c calls.
Proof.
  rewrite primary_then_fallback_eq. unfold second_attempt, answered_by.
  destruct (openai_client e) as [p|]; [|done].
  destruct (p (gpt5 system user budget)) as [|c1] eqn:H1;
    [|destruct (no_text c1) eqn:Hn];
    try destruct (p (gpt4o system user budget temp)) eqn:H2;
    intros [= <- <-]; eexists _, _; (split; [done|]); (split; [done|]);
    rewrite ?H1, ?H2; cbn [attempt_fails]; eauto.
Qed.

Lemma primary_then_fallback_Raise system user budget temp e s x s' :
  primary_then_fallback system user budget temp e s = (Raise x, s') →
  openai_client e = None
  ∨ ∃ p, openai_client e = Some p
         ∧ attempt_fails (p (gpt5 system user budget)) = true
         ∧ p (gpt4o system user budget temp) = Fails.
Proof.
  rewrite primary_then_fallback_eq. unfold second_attempt.
  destruct (openai_client e) as [p|]; [|by left].
  destruct (p (gpt5 system user budget)) as [|c1] eqn:H1;
    [|destruct (no_text c1) eqn:Hn];
    try destruct (p (gpt4o system user budget temp)) eqn:H2;
    intros [= <- <-]; right; exists p; rewrite ?H1;
    cbn [attempt_fails]; eauto.
Qed.

Lemma len_of_Ok c n : len_of c = Ok n → ∃ t, c = Some t.
Proof. destruct c; [eauto|done]. Qed.

(** A more-details regeneration that returns has got a text from the
    chain and stored the original answer followed by it. *)
Lemma regenerate_more_details_Ok rid rdoc child e s nr s' :
  regenerate_response rid need_more_details rdoc child e s = (Ok nr, s') →
  ∃ p name question original t calls ts,
    openai_client e = Some p
    ∧ child !! "name" = Some name
    ∧ rdoc !! "question" = Some question
    ∧ rdoc !! "answer" = Some original
    ∧ answered_by p (enhanced_system_message name)
        (more_details_request question) 400 (8 # 10) (Some t) calls
    ∧ sent s' = sent s ++ calls
    ∧ let combined := py_str original +:+ nl +:+ nl +:+ t in
      let a := if blank combined then could_not_regenerate name else combined in
      responses (db s') = update_one_set (responses (db s)) rid (regenerated_fields a ts)
      ∧ nr !! "answer" = Some (PStr a).
Proof.
  intros H. unfold regenerate_response in H.
  rewrite bool_decide_eq_true_2 in H by done.
  munfold_all_in H. mcases H.
  all: repeat match goal with
       | Hp : primary_then_fallback _ _ _ _ _ _ = (Ok _, _) |- _ =>
           apply primary_then_fallback_Ok in Hp;
           destruct Hp as (p & calls & Hcl & -> & Hans)
       | Hl : len_of _ = Ok _ |- _ =>
           apply len_of_Ok in Hl; destruct Hl as (t & ->)
       | Hg : getitem _ _ = Ok _ |- _ => apply getitem_Ok in Hg
       end.
  all: injection H as <- <-;
       cbn [db readings sent with_db users children responses of_content
            sending py_str no_text] in *.
  all: eexists _, _, _, _, _, _, _; split_and!; try eassumption; try reflexivity.
  all: cbv zeta; rewrite ?Heqb; try reflexivity; by simplify_map_eq.
Qed.

(** ** Feedback *)

Lemma set_fields_lookup_ne fields (d : dict) k :
  k ∉ fields.*1 → set_fields fields d !! k = d !! k.
Proof.
  induction fields as [|[k' v] fields IH]; [done|].
  cbn. intros Hk. rewrite not_elem_of_cons in Hk. destruct Hk as [Hne Hk].
  rewrite lookup_insert_ne by done. auto.
Qed.

Lemma update_one_set_lookup c i fields j k :
  k ∉ fields.*1 →
  update_one_set c i fields !! j ≫= (.!! k) = c !! j ≫= (.!! k).
Proof.
  intros Hk. unfold update_one_set. rewrite lookup_alter.
  destruct (decide (i = j)) as [->|]; [|done].
  destruct (c !! j) as [d|]; [|done]. cbn. by apply set_fields_lookup_ne.
Qed.

Lemma feedback_keeps_answer c rid fb t i :
  update_one_set c rid (feedback_fields fb t) !! i ≫= (.!! "answer")
  = c !! i ≫= (.!! "answer").
Proof.
  apply update_one_set_lookup. cbn. rewrite !not_elem_of_cons.
  split_and!; try done. apply not_elem_of_nil.
Qed.

Lemma serve_eq {A} (h : M A) e d r d' calls :
  serve h e d = (r, d', calls) →
  ∃ s', h e (mk_state d 0 []) = (r, s') ∧ db s' = d' ∧ sent s' = calls.
Proof.
  unfold serve. destruct (h e (mk_state d 0 [])) as [r0 s'].
  intros [= <- <- <-]. eauto.
Qed.


Lemma not_understood_elem fb :
  bool_decide (fb ∈ [too_complex; need_more_details]) = true ↔ fb ≠ understood.
Proof.
  destruct fb; split; done.
Qed.

Lemma getitem_Raise d k x : getitem d k = Raise x → x = KeyError k.
Proof. unfold getitem. destruct (d !! k); congruence. Qed.

Lemma as_id_Raise v x : as_id v = Raise x → x = TypeError.
Proof. destruct v; cbn; congruence. Qed.

Lemma as_int_Raise v x : as_int v = Raise x → x = TypeError.
Proof. destruct v; cbn; congruence. Qed.

Ltac raised :=
  repeat match goal with
  | Hx : getitem _ _ = Raise _ |- _ => apply getitem_Raise in Hx; subst
  | Hx : as_id _ = Raise _ |- _ => apply as_id_Raise in Hx; subst
  | Hx : as_int _ = Raise _ |- _ => apply as_int_Raise in Hx; subst
  end.

(** C6: the feedback gate.  [submit_feedback] answers 402 exactly when the
    account is in the post-trial free tier at the time of the request and
    the kind is too_complex or need_more_details; feedback of kind
    understood is never refused with 402, in any tier. *)
Theorem feedback_gate (uid : nat) (account : dict) (response_id : nat)
  (feedback : feedback_kind) (e : env) (s : state) :
  let current_user := with_id uid account in
  (∃ detail s',
      submit_feedback response_id feedback current_user e s
      = (Raise (HTTPException 402 detail), s'))
  ↔ tier_of current_user (utc_at e (readings s)) = Some post_trial_free
    ∧ feedback ≠ understood.
Proof.
  intros current_user. subst current_user.
  rewrite <- not_understood_elem.
  unfold submit_feedback, tier_of.
  rewrite bind_eq, lift_eq, getitem_with_id. rewrite bind_eq.
  set (cu := with_id uid account).
  destruct (is_trial_active_cases (get cu "trial_end_date" PNone) e s)
    as [(d & Hd & Ha)|[(Hf & Ha)|(Ht & Hn & Ha)]]; rewrite Ha; clear Ha.
  - rewrite Hd.
    destruct (truthy (get cu "is_premium" (PBool false)));
      destruct (dt_ltb (utc_at e (readings s)) d);
      destruct (bool_decide (feedback ∈ [too_complex; need_more_details]));
      cbn [negb andb]; rewrite ?raise_eq.
    all: try (split; [intros (detail & s' & H)|intros [? ?]; try done]).
    all: try (eexists _, _; reflexivity).
    all: try done.
    all: exfalso; munfold_in H; mcases H; raised; discriminate H.
  - destruct (get cu "trial_end_date" PNone) eqn:Hend; try done;
      cbn [truthy] in Hf |- *; rewrite ?Hf.
    all: destruct (truthy (get cu "is_premium" (PBool false)));
      destruct (bool_decide (feedback ∈ [too_complex; need_more_details]));
      cbn [negb andb]; rewrite ?raise_eq.
    all: try (split; [intros (detail & s' & H)|intros [? ?]; try done]).
    all: try (eexists _, _; reflexivity).
    all: try done.
    all: exfalso; munfold_in H; mcases H; raised; discriminate H.
  - split; [intros (detail & s' & H); discriminate H|].
    destruct (truthy (get cu "is_premium" (PBool false))); [by intros [? _]|].
    destruct (get cu "trial_end_date" PNone) eqn:Hend; cbn [truthy] in Ht |- *;
      rewrite ?Ht; try (by intros [? _]).
    all: exfalso; by eapply Hn.
Qed.

Lemma failed_result_regenerate fb :
  failed_result fb !! "regenerate" = Some (JVal (PBool false))
  ∧ failed_result fb !! "error" = Some (JVal (PStr "Could not regenerate response"))
  ∧ failed_result fb !! "new_response" = None.
Proof. by destruct fb. Qed.

Lemma success_result_regenerate fb nr :
  regenerate fb = true →
  (<["new_response" := JObj nr]> (result_of fb) : gmap string jval) !! "regenerate"
  = Some (JVal (PBool true)).
Proof. by destruct fb. Qed.

(** C9: the complexity level and the feedback are stored before the
    regeneration is tried.  When a too_complex or need_more_details request
    ends with regenerate = false, the body carries the error message, and
    the database holds the new level of the child and the feedback of the
    response, next to the original answer. *)
Theorem feedback_committed_before_regeneration (uid : nat) (account : dict)
  (response_id : nat) (feedback : feedback_kind) (e : env) (d d' : database)
  (body : gmap string jval) (calls : list completion_request) :
  feedback ≠ understood →
  serve (submit_feedback response_id feedback (with_id uid account)) e d
    = (Ok body, d', calls) →
  body !! "regenerate" = Some (JVal (PBool false)) →
  body !! "error" = Some (JVal (PStr "Could not regenerate response"))
  ∧ ∃ response_doc child_id child current_level t,
      responses d !! response_id = Some response_doc
      ∧ response_doc !! "child_id" = Some (PId child_id)
      ∧ children d !! child_id = Some child
      ∧ as_int (get child "complexity_level" (PInt 0)) = Ok current_level
      ∧ children d'
        = update_one_set (children d) child_id
            [ ("complexity_level",
               PInt (Z.max (-2)
                       (Z.min 2 (current_level + complexity_change feedback)))) ]
      ∧ responses d'
        = update_one_set (responses d) response_id
            [ ("feedback", PStr (feedback_text feedback));
              ("feedback_timestamp", PDate t) ]
      ∧ stored_answer d' response_id = stored_answer d response_id.
Proof.
  intros Hfb Hs Hreg.
  apply serve_eq in Hs. destruct Hs as (s' & H & <- & <-).
  apply submit_feedback_inv in H. cbn [db sent] in H.
  destruct H as [(x & [=] & _)
                |(rdoc & cid & child & s1 & child1 & Hr & Hc & Hch & Hsent & Hu
                  & (t & Hresp) & Hlevel & Hres)].
  destruct Hlevel as [(-> & _)|(_ & n & Hn & Hchildren & ->)]; [done|].
  assert (Hregen : regenerate feedback = true) by (by destruct feedback).
  rewrite Hregen in Hres.
  destruct (regenerate_response _ _ _ _ e s1) as [[nr|x] s2] eqn:Hrun;
    destruct Hres as [[= ->] ->].
  { rewrite success_result_regenerate in Hreg by done. done. }
  apply regenerate_response_frame in Hrun as (_ & Hch' & Hresp'); [|by rewrite lookup_with_id_ne].
  split; [apply failed_result_regenerate|].
  exists rdoc, cid, child, n, t. split_and!; try done.
  - by rewrite Hch', Hchildren.
  - by rewrite Hresp', Hresp.
  - unfold stored_answer. rewrite Hresp', Hresp. apply feedback_keeps_answer.
Qed.

(** C8, as the code has it.  When the second attempt of a more-details
    regeneration raises or has no content, the first one having raised or
    returned no text, no stored answer changes, and the caller gets
    regenerate = false with the error Could not regenerate response. *)
Theorem failed_more_details_keeps_answer (uid : nat) (account : dict)
  (response_id : nat) (e : env) (d d' : database)
  (r : res (gmap string jval)) (calls : list completion_request) :
  second_attempt_raises e →
  serve (submit_feedback response_id need_more_details (with_id uid account)) e d
    = (r, d', calls) →
  (∀ i, stored_answer d' i = stored_answer d i)
  ∧ ∀ body, r = Ok body →
      body !! "regenerate" = Some (JVal (PBool false))
      ∧ body !! "error" = Some (JVal (PStr "Could not regenerate response"))
      ∧ body !! "new_response" = None.
Proof.
  intros Hp Hs.
  apply serve_eq in Hs. destruct Hs as (s' & H & <- & <-).
  apply submit_feedback_inv in H. cbn [db sent] in H.
  destruct H as [(x & -> & -> & _)
                |(rdoc & cid & child & s1 & child1 & Hr & Hc & Hch & Hsent & Hu
                  & (t & Hresp) & Hlevel & Hres)]; [done|].
  cbn [regenerate] in Hres.
  destruct (regenerate_response _ _ _ _ e s1) as [[nr|x] s2] eqn:Hrun;
    destruct Hres as [-> ->].
  - exfalso. apply regenerate_more_details_Ok in Hrun.
    destruct Hrun as (p & name & question & original & txt & cs & ts & Hcl & _ & _ & _
                      & Hans & _).
    unfold second_attempt_raises in Hp. rewrite Hcl in Hp.
    destruct Hans as [(H1 & Hn & _)|(_ & H2 & _)].
    + destruct (Hp (gpt5 (enhanced_system_message name) (more_details_request question) 400)) as [Hf _].
      rewrite H1 in Hf. cbn in Hf, Hn. specialize (Hf eq_refl). congruence.
    + destruct (Hp (gpt4o (enhanced_system_message name) (more_details_request question) 400 (8 # 10))) as [_ Hf].
      destruct (Hf eq_refl); congruence.
  - apply regenerate_response_frame in Hrun as (_ & _ & Hresp'); [|by rewrite lookup_with_id_ne].
    split.
    + intros i. unfold stored_answer. rewrite Hresp', Hresp. apply feedback_keeps_answer.
    + intros body [= <-]. apply failed_result_regenerate.
Qed.

Lemma prefix_app (a b : string) : String.prefix a (a +:+ b) = true.
Proof.
  induction a as [|c a IH]; [by destruct b|].
  change (String c a +:+ b) with (String c (a +:+ b)).
  cbn [String.prefix]. destruct (Ascii.ascii_dec c c); [exact IH|congruence].
Qed.

(** C3, as the code has it.  A more-details regeneration that succeeds
    keeps the original answer as a prefix, unless the result is blank.  When
    [submit_feedback] with need_more_details reports regenerate = true, the
    last reply of the provider is the elaboration, and the answer stored and
    the answer returned are the original answer, two newlines and the
    elaboration, in this order, which starts with the original.  Only when
    the original and the elaboration are both blank is the answer of last
    resort stored and returned in its place. *)
Theorem more_details_keeps_original_unless_blank (uid : nat) (account : dict)
  (response_id : nat) (e : env) (d d' : database) (body : gmap string jval)
  (calls : list completion_request) (original : string) :
  serve (submit_feedback response_id need_more_details (with_id uid account)) e d
    = (Ok body, d', calls) →
  body !! "regenerate" = Some (JVal (PBool true)) →
  stored_answer d response_id = Some (PStr original) →
  ∃ section child_id child name p q,
    let combined := original +:+ nl +:+ nl +:+ section in
    let new_answer :=
      if blank combined then could_not_regenerate name else combined in
    responses d !! response_id ≫= (.!! "child_id") = Some (PId child_id)
    ∧ children d !! child_id = Some child
    ∧ child !! "name" = Some name
    ∧ openai_client e = Some p
    ∧ last calls = Some q
    ∧ p q = Content (Some section)
    ∧ blank combined = blank original && blank section
    ∧ stored_answer d' response_id = Some (PStr new_answer)
    ∧ (∃ new_response,
         body !! "new_response" = Some (JObj new_response)
         ∧ new_response !! "answer" = Some (PStr new_answer))
    ∧ (blank combined = false → String.prefix original new_answer = true).
Proof.
  intros Hs Hreg Horig.
  apply serve_eq in Hs. destruct Hs as (s' & H & <- & <-).
  apply submit_feedback_inv in H. cbn [db sent] in H.
  destruct H as [(x & [=] & _)
                |(rdoc & cid & child & s1 & child1 & Hr & Hc & Hch & Hsent & Hu
                  & (t & Hresp) & Hlevel & Hres)].
  cbn [regenerate] in Hres.
  destruct (regenerate_response _ _ _ _ e s1) as [[nr|x] s2] eqn:Hrun;
    destruct Hres as [[= ->] ->].
  2: { by destruct (failed_result_regenerate need_more_details) as (Hf & _);
         rewrite Hf in Hreg. }
  apply regenerate_more_details_Ok in Hrun.
  destruct Hrun as (p & name & question & orig & txt & cs & ts & Hcl & Hname & _
                    & Ho & Hans & Hsent' & Hresp' & Hnr).
  rewrite lookup_with_id_ne in Ho by done.
  unfold stored_answer in Horig. rewrite Hr in Horig. cbn in Horig.
  rewrite Ho in Horig. injection Horig as ->. cbn [py_str] in *.
  assert (Hname' : child !! "name" = Some name).
  { destruct Hlevel as [([=] & _)|(_ & n & _ & _ & ->)].
    rewrite lookup_insert_ne in Hname by done.
    by rewrite lookup_with_id_ne in Hname. }
  assert (Hlast : ∃ q, last (sent s2) = Some q ∧ p q = Content (Some txt)).
  { rewrite Hsent', Hsent. cbn [app].
    destruct Hans as [(H1 & _ & ->)|(_ & H2 & ->)]; eexists; split;
      try reflexivity; done. }
  destruct Hlast as (q & Hlast & Hq).
  exists txt, cid, child, name, p, q. cbv zeta.
  set (a := if blank (original +:+ nl +:+ nl +:+ txt)
            then could_not_regenerate name
            else original +:+ nl +:+ nl +:+ txt) in *.
  split_and!; try done.
  - by rewrite Hr.
  - rewrite blank_app_nl. by change (blank (nl +:+ txt)) with (blank txt).
  - unfold stored_answer. rewrite Hresp', Hresp.
    unfold update_one_set at 1. rewrite lookup_alter_eq.
    unfold update_one_set. rewrite lookup_alter_eq, Hr.
    cbn [fmap option_fmap option_map mbind option_bind regenerated_fields
         set_fields foldr]. by rewrite lookup_insert_eq.
  - exists nr. split; [by rewrite lookup_insert_eq|done].
  - intros Hb. subst a. rewrite Hb. apply prefix_app.
Qed.

(** ** The complexity level *)

Lemma clamp_range x lo hi : lo ≤ hi → lo ≤ clamp x lo hi ≤ hi.
Proof. unfold clamp. lia. Qed.

Lemma update_one_set_present c i (d : dict) k v :
  c !! i = Some d → update_one_set c i [(k, v)] = <[i := <[k := v]> d]> c.
Proof.
  intros H. unfold update_one_set. apply map_eq. intros j.
  rewrite lookup_alter. destruct (decide (i = j)) as [->|Hne].
  - by rewrite H, lookup_insert_eq.
  - by rewrite lookup_insert_ne.
Qed.

Lemma serve_feedback_children ev d r d' calls :
  serve_feedback ev d = (r, d', calls) →
  match r, ev_kind ev with
  | Ok _, too_complex | Ok _, need_more_details =>
      level_moved (ev_kind ev) d d' (ev_response ev)
  | _, _ => children d' = children d
  end.
Proof.
  unfold serve_feedback. intros Hs.
  apply serve_eq in Hs. destruct Hs as (s' & H & <- & <-).
  apply submit_feedback_inv in H. cbn [db sent] in H.
  destruct H as [(x & -> & -> & _)
                |(rdoc & cid & child & s1 & child1 & Hr & Hc & Hch & Hsent & Hu
                  & (t & Hresp) & Hlevel & Hres)]; [done|].
  assert (Hframe : children (db s') = children (db s1) ∧ ∃ body, r = Ok body).
  { destruct (regenerate (ev_kind ev)).
    - destruct (regenerate_response _ _ _ _ _ s1) as [[nr|x] s2] eqn:Hrun;
        destruct Hres as [-> ->];
        (apply regenerate_response_frame in Hrun as (_ & -> & _);
         [eauto|by rewrite lookup_with_id_ne]).
    - destruct Hres as [-> ->]. eauto. }
  destruct Hframe as [Hsame [body ->]].
  destruct Hlevel as [(-> & Hchildren & _)|(Hne & n & Hn & Hchildren & _)];
    [by rewrite Hsame|].
  rewrite (update_one_set_present _ _ child) in Hchildren by done.
  unfold new_level in Hchildren. fold (clamp (n + complexity_change (ev_kind ev)) (-2) 2) in Hchildren.
  destruct (ev_kind ev); [done| |]; exists rdoc, cid, child, n;
    by rewrite Hsame, Hchildren.
Qed.

Lemma level_moved_ok kind before after rid :
  levels_ok before → level_moved kind before after rid → levels_ok after.
Proof.
  intros Hok (rdoc & cid & child & n & _ & _ & Hc & _ & Heq) i c.
  rewrite Heq, lookup_insert. destruct (decide (cid = i)) as [->|Hne]; [|apply Hok].
  intros [= <-]. unfold level_ok, get. rewrite lookup_insert_eq.
  pose proof (clamp_range (n + complexity_change kind) (-2) 2 ltac:(lia)). lia.
Qed.

Lemma after_feedback_ok d ev : levels_ok d → levels_ok (after_feedback d ev).
Proof.
  intros Hok. unfold after_feedback.
  destruct (serve_feedback ev d) as [[r d'] calls] eqn:Hs. cbn.
  apply serve_feedback_children in Hs.
  assert (Hsame : children d' = children d → levels_ok d').
  { intros Heq i c. rewrite Heq. apply Hok. }
  destruct r as [body|x]; [|auto].
  destruct (ev_kind ev); [auto| |]; eapply level_moved_ok; eauto.
Qed.

(** C2: the complexity level stays between -2 and 2.  Starting from a
    database whose children all have a level between -2 and 2 (what
    [ChildCreate] validates at creation), every database reached by a
    sequence of [submit_feedback] requests has all levels between -2 and 2,
    whoever sends the requests and whatever the provider answers.  Each
    accepted request of kind too_complex (need_more_details) sets the level
    of the child of the response to [clamp (level - 1) (-2) 2]
    ([clamp (level + 1) (-2) 2]); every other request leaves the children
    as they are. *)
Theorem complexity_level_stays_clamped (d : database)
  (events : list feedback_event) :
  levels_ok d →
  Forall levels_ok (feedback_trace d events)
  ∧ ∀ k before ev,
      feedback_trace d events !! k = Some before →
      events !! k = Some ev →
      let '(r, after, _) := serve_feedback ev before in
      feedback_trace d events !! S k = Some after
      ∧ match r, ev_kind ev with
        | Ok _, too_complex | Ok _, need_more_details =>
            ∃ response_doc child_id child level,
              responses before !! ev_response ev = Some response_doc
              ∧ response_doc !! "child_id" = Some (PId child_id)
              ∧ children before !! child_id = Some child
              ∧ as_int (get child "complexity_level" (PInt 0)) = Ok level
              ∧ children after
                = <[child_id :=
                      <["complexity_level" :=
                          PInt (clamp (level + complexity_change (ev_kind ev))
                                  (-2) 2)]> child]>
                    (children before)
        | _, _ => children after = children before
        end.
Proof.
  intros Hok. split.
  - revert d Hok. induction events as [|ev events IH]; intros d Hok; cbn.
    + by repeat constructor.
    + constructor; [done|]. apply IH. by apply after_feedback_ok.
  - revert d Hok. induction events as [|ev events IH]; intros d Hok k before ev' Hb Hev;
      [done|].
    destruct k as [|k].
    + cbn in Hb, Hev. injection Hb as <-. injection Hev as <-.
      destruct (serve_feedback ev d) as [[r d'] calls] eqn:Hs.
      split.
      * cbn. unfold after_feedback. rewrite Hs. by destruct events.
      * by apply serve_feedback_children in Hs.
    + cbn in Hb, Hev.
      specialize (IH (after_feedback d ev) (after_feedback_ok d ev Hok) k before ev' Hb Hev).
      exact IH.
Qed.

(** ** Children *)

Lemma count_documents_insert (c : gmap nat dict) q i (doc : dict) :
  c !! i = None →
  count_documents (<[i := doc]> c) q
  = count_documents c q + (if matches q i doc then 1 else 0).
Proof.
  intros Hi. unfold count_documents. rewrite map_filter_insert.
  destruct (decide _) as [Hm|Hm]; cbn [fst snd] in Hm.
  - apply Is_true_true in Hm. rewrite Hm.
    rewrite map_size_insert_None; [lia|].
    apply map_lookup_filter_None. by left.
  - apply Is_true_false in Hm. rewrite Hm, delete_id by done. lia.
Qed.

Lemma matches_parent uid i doc :
  matches [("parent_id", Eq (PId uid))] i doc
  = bool_decide (doc !! "parent_id" = Some (PId uid)).
Proof.
  unfold matches. cbn [forallb fst snd]. rewrite lookup_with_id_ne by done.
  rewrite andb_true_r. destruct (doc !! "parent_id") as [v|]; cbn [holds].
  - destruct (decide (v = PId uid)) as [->|Hne].
    + by rewrite !bool_decide_eq_true_2.
    + rewrite !bool_decide_eq_false_2; [done| |done]. by intros [= ->].
  - by rewrite !bool_decide_eq_false_2.
Qed.

Lemma create_child_run child_data uid account e s :
  create_child child_data (with_id uid account) e s =
  if 4 <=? children_of (db s) uid then
    (Raise (HTTPException 400 "Maximum 4 children allowed"), s)
  else
    let created_at := utc_at e (readings s) in
    let doc := new_child_doc child_data uid created_at in
    let i := fresh (dom (children (db s))) in
    (Ok (list_to_map
           [ ("id", PId i);
             ("name", PStr (ChildCreate.name child_data));
             ("gender", PStr (Gender_value (ChildCreate.gender child_data)));
             ("birth_month", PInt (ChildCreate.birth_month child_data));
             ("birth_year", PInt (ChildCreate.birth_year child_data));
             ("complexity_level", PInt (ChildCreate.complexity_level child_data));
             ("age_months",
              PInt (Z.max 0
                      ((year (local_at e (S (readings s)))
                        - ChildCreate.birth_year child_data) * 12
                       + (month (local_at e (S (readings s)))
                          - ChildCreate.birth_month child_data))));
             ("parent_id", PId uid) ]),
     mk_state
       (mk_database (users (db s)) (<[i := doc]> (children (db s)))
          (responses (db s)))
       (S (S (readings s))) (sent s)).
Proof.
  unfold create_child. rewrite bind_eq, lift_eq, getitem_with_id.
  rewrite bind_eq. unfold db_count_documents, children_of. cbn [coll].
  destruct (4 <=? _); [reflexivity|].
  reflexivity.
Qed.



Lemma post_children_levels_ok max_year child_data uid account e s r s' :
  levels_ok (db s) →
  post_children max_year child_data (with_id uid account) e s = (r, s') →
  levels_ok (db s').
Proof.
  intros Hok. unfold post_children.
  destruct (ChildCreate.valid max_year child_data) eqn:Hvalid;
    [|by intros [= <- <-]].
  rewrite create_child_run.
  destruct (4 <=? children_of (db s) uid); intros [= <- <-]; [done|].
  unfold levels_ok. cbn [db children]. apply map_Forall_insert_2; [|done].
  unfold level_ok, new_child_doc, get. simplify_map_eq.
  unfold ChildCreate.valid in Hvalid.
  repeat (apply andb_prop in Hvalid as [Hvalid ?]). by apply andb_true_intro.
Qed.

(** ** The status *)

Lemma floor_ceil (a b : Z) :
  0 < b → a / b = ceil_div a b - (if a mod b =? 0 then 0 else 1).
Proof.
  intros Hb. unfold ceil_div.
  destruct (a mod b =? 0) eqn:Hm.
  - apply Z.eqb_eq in Hm. rewrite Z.div_opp_l_z by lia. lia.
  - apply Z.eqb_neq in Hm. rewrite Z.div_opp_l_nz by lia. lia.
Qed.

Lemma status_days_in_trial uid account e s trial_end :
  get (with_id uid account) "trial_end_date" PNone = PDate trial_end →
  ∃ body s',
    get_monetization_status (with_id uid account) e s = (Ok body, s')
    ∧ body !! "trial_days_left"
      = Some (PInt (if dt_ltb (utc_at e (S (readings s))) trial_end
                    then days (dt_sub trial_end (utc_at e (S (S (readings s)))))
                    else 0)).
Proof.
  intros Hend. unfold get_monetization_status, is_trial_active.
  rewrite Hend. rewrite bind_eq, lift_eq, getitem_with_id.
  cbv beta iota zeta delta
    [mbind M_bind mret M_ret lift raise utcnow db_count_documents truthy].
  cbn [db readings sent].
  destruct (dt_ltb (utc_at e (S (readings s))) trial_end);
    (eexists _, _; split; [reflexivity|by simplify_map_eq]).
Qed.

Lemma status_days_without_trial uid account e s :
  truthy (get (with_id uid account) "trial_end_date" PNone) = false →
  ∃ body s',
    get_monetization_status (with_id uid account) e s = (Ok body, s')
    ∧ body !! "trial_days_left" = Some (PInt 0).
Proof.
  intros Hend. unfold get_monetization_status, is_trial_active.
  rewrite Hend. rewrite bind_eq, lift_eq, getitem_with_id.
  cbv beta iota zeta delta
    [mbind M_bind mret M_ret lift raise utcnow db_count_documents].
  cbn [db readings sent].
  eexists _, _; split; [reflexivity|by simplify_map_eq].
Qed.

(** C5, as the code has it.  In the trial the status reports
    [(trial_end_date - now).days]: the whole days that remain, the floor of
    the remaining time in days, which is the ceiling when that time is a
    whole number of days and one less otherwise.  Without a running trial
    it reports 0.  The clock is read at each use: the reading [S k] decides
    whether the trial runs, the reading [S (S k)] is subtracted. *)
Theorem trial_days_left_is_floor (uid : nat) (account : dict) (e : env)
  (s : state) :
  let current_user := with_id uid account in
  (∀ trial_end,
      get current_user "trial_end_date" PNone = PDate trial_end →
      ∃ body s',
        get_monetization_status current_user e s = (Ok body, s')
        ∧ let remaining :=
            micros trial_end - micros (utc_at e (S (S (readings s)))) in
          body !! "trial_days_left"
          = Some (PInt (if dt_ltb (utc_at e (S (readings s))) trial_end
                        then remaining / day_us else 0))
          ∧ remaining / day_us
            = ceil_div remaining day_us
              - (if remaining mod day_us =? 0 then 0 else 1))
  ∧ (truthy (get current_user "trial_end_date" PNone) = false →
      ∃ body s',
        get_monetization_status current_user e s = (Ok body, s')
        ∧ body !! "trial_days_left" = Some (PInt 0)).
Proof.
  cbv zeta. split.
  - intros trial_end Hend.
    destruct (status_days_in_trial uid account e s trial_end Hend)
      as (body & s' & Hrun & Hdays).
    exists body, s'. split; [done|]. rewrite <- dt_sub_days. split; [done|].
    rewrite dt_sub_days. by apply floor_ceil.
  - apply status_days_without_trial.
Qed.

(** C5 as claimed fails a day and a half before the end of the trial: the
    status reports 1 day, the ceiling of the remaining time is 2. *)
Lemma trial_days_left_not_ceiling :
  let e := env_at noon_29 None in
  let s := mk_state (mk_database ∅ ∅ ∅) 0 [] in
  let remaining := micros midnight_31 - micros (utc_at e 2) in
  get (with_id 0 trial_account) "trial_end_date" PNone = PDate midnight_31
  ∧ dt_ltb (utc_at e 1) midnight_31 = true
  ∧ ceil_div remaining day_us = 2
  ∧ ∃ body s',
      get_monetization_status (with_id 0 trial_account) e s = (Ok body, s')
      ∧ body !! "trial_days_left" = Some (PInt 1)
      ∧ body !! "trial_days_left" ≠ Some (PInt (ceil_div remaining day_us)).
Proof.
  cbv zeta. split_and!; try reflexivity.
  destruct (status_days_in_trial 0 trial_account (env_at noon_29 None)
              (mk_state (mk_database ∅ ∅ ∅) 0 []) midnight_31 eq_refl)
    as (body & s' & Hrun & Hdays).
  exists body, s'. split; [exact Hrun|]. rewrite Hdays. split; [reflexivity|].
  vm_compute. discriminate.
Qed.

(** ** Questions *)

Ltac munfold_ask_in H :=
  cbv beta iota zeta delta
    [mbind M_bind mret M_ret lift raise try_except utcnow now
     client_configured db_find_one db_count_documents db_insert_one
     db_update_one_set db_update_one_inc insert_one update_one_inc
     is_trial_active calculate_child_age_years calculate_age_months] in H;
  cbn [db readings sent with_db coll set_coll users children responses] in H.

Lemma fallback_chain_result system user budget temp e s p t r s' :
  openai_client e = Some p →
  (∀ q, model q = "gpt-5" → attempt_fails (p q) = true) →
  (∀ q, model q = "gpt-4o" → p q = Content (Some t)) →
  primary_then_fallback system user budget temp e s = (r, s') →
  r = Ok (Some t)
  ∧ s' = sending [gpt5 system user budget; gpt4o system user budget temp] s.
Proof.
  intros Hcl H1 H2. rewrite primary_then_fallback_eq, Hcl. unfold second_attempt.
  specialize (H1 (gpt5 system user budget) eq_refl).
  specialize (H2 (gpt4o system user budget temp) eq_refl).
  rewrite H2. destruct (p (gpt5 system user budget)) as [|c]; cbn in H1;
    rewrite ?H1; by intros [= <- <-].
Qed.

Lemma fallback_answer uid account request e s p t r s' :
  openai_client e = Some p →
  (∀ q, model q = "gpt-5" → attempt_fails (p q) = true) →
  (∀ q, model q = "gpt-4o" → p q = Content (Some t)) →
  counter_ok (db s) uid →
  ask_question request (with_id uid account) e s = (r, s') →
  sent s' ≠ sent s →
  ∃ system body response_id,
    sent s' = sent s ++ [ gpt5 system (QuestionRequest.question request) 300;
                          gpt4o system (QuestionRequest.question request) 300 (7 # 10) ]
    ∧ r = Ok body
    ∧ body !! "answer" = Some (PStr t)
    ∧ body !! "usedFallback" = None
    ∧ body !! "id" = Some (PId response_id)
    ∧ responses (db s) !! response_id = None
    ∧ stored_answer (db s') response_id = Some (PStr t).
Proof.
  intros Hcl H1 H2 Hcnt H Hsent. unfold ask_question in H.
  rewrite bind_eq, lift_eq, getitem_with_id in H.
  unfold counter_ok in Hcnt.
  munfold_ask_in H.
  mcases H.
  all: try (injection H as <- <-; done).
  all: try (by rewrite Hcl in *).
  all: match goal with
       | Hp : primary_then_fallback _ _ _ _ _ _ = _ |- _ =>
           apply (fallback_chain_result _ _ _ _ _ _ p t) in Hp; [|done..];
           destruct Hp as [Hr ->]; try discriminate Hr; injection Hr as ->
       end.
  all: cbn [sending db readings sent] in *.
  all: repeat match goal with
       | Hi : as_id (PId _) = Ok _ |- _ => injection Hi as <-
       | Hu : users (db _) !! _ = _ |- _ => rewrite Hu in Hcnt
       | Hq : _ !! "questions_asked" = _ |- _ => rewrite Hq in Hcnt
       end.
  all: try done.
  all: injection H as <- <-; cbn [db readings sent with_db users children responses of_content].
  all: eexists _, _, _; split_and!; try reflexivity.
  all: try (by simplify_map_eq).
  all: try (apply not_elem_of_dom, is_fresh).
  all: unfold stored_answer; cbn [responses]; rewrite lookup_insert_eq; cbn;
       by simplify_map_eq.
Qed.

(** The quota: the filter of [ask_question] on [user_id] selects no
    response, so the monthly limit is never reached on a database whose
    responses [ask_question] has stored, and [ask_question] stores one more
    of the kind. *)
Lemma questions_this_month_zero d uid t :
  responses_by_ask d →
  count_documents (responses d)
    [("user_id", Eq (PId uid)); ("created_at", Gte (PDate t))] = 0.
Proof.
  intros Hd. unfold count_documents.
  rewrite map_empty_filter_2; [done|].
  intros i r Hr. cbn [fst snd]. unfold matches. cbn [forallb fst snd].
  rewrite lookup_with_id_ne by done. rewrite (Hd i r Hr). cbn [holds].
  rewrite bool_decide_eq_false_2 by done. by intros [].
Qed.

Lemma generate_advanced_system_message_Raise name gender age level x :
  generate_advanced_system_message name gender age level = Raise x →
  x = TypeError.
Proof.
  unfold generate_advanced_system_message.
  destruct (as_int level) eqn:Hl; [done|]. intros [= <-]. by apply as_int_Raise in Hl.
Qed.

Lemma monthly_limit_never_reached uid account request e s r s' :
  responses_by_ask (db s) →
  ask_question request (with_id uid account) e s = (r, s') →
  r ≠ Raise monthly_limit ∧ responses_by_ask (db s').
Proof.
  intros Hd H. unfold ask_question in H.
  rewrite bind_eq, lift_eq, getitem_with_id in H.
  munfold_ask_in H.
  mcases H.
  all: repeat match goal with
       | Hq : (1 <=? count_documents _ _) = true |- _ =>
           rewrite questions_this_month_zero in Hq by done; discriminate Hq
       | Hp : primary_then_fallback _ _ _ _ _ _ = _ |- _ =>
           apply primary_then_fallback_frame in Hp;
           cbn [db readings] in Hp; destruct Hp as [Hdb _]
       end.
  all: raised.
  all: repeat match goal with
       | Hx : generate_advanced_system_message _ _ _ _ = Raise _ |- _ =>
           apply generate_advanced_system_message_Raise in Hx; subst
       end.
  all: injection H as <- <-; cbn [db readings sent with_db users children responses];
       rewrite ?Hdb.
  all: split; [done|]; try done.
  all: unfold responses_by_ask; cbn [responses];
       apply map_Forall_insert_2; [by simplify_map_eq|done].
Qed.

(** C4, as the code has it.  When the primary model raises or returns no
    text, [ask_question] sends the same two messages once more, to the
    secondary model; when that one answers, the answer is stored and
    returned, without error.  The response has no usedFallback entry. *)
Theorem fallback_answer_returned (uid : nat) (account : dict)
  (request : QuestionRequest.t) (e : env) (d d' : database)
  (p : completion_request → completion) (t : string) (r : res dict)
  (calls : list completion_request) :
  openai_client e = Some p →
  (∀ q, model q = "gpt-5" → attempt_fails (p q) = true) →
  (∀ q, model q = "gpt-4o" → p q = Content (Some t)) →
  counter_ok d uid →
  serve (ask_question request (with_id uid account)) e d = (r, d', calls) →
  calls ≠ [] →
  ∃ system body response_id,
    calls = [ gpt5 system (QuestionRequest.question request) 300;
              gpt4o system (QuestionRequest.question request) 300 (7 # 10) ]
    ∧ r = Ok body
    ∧ body !! "answer" = Some (PStr t)
    ∧ body !! "usedFallback" = None
    ∧ body !! "id" = Some (PId response_id)
    ∧ responses d !! response_id = None
    ∧ stored_answer d' response_id = Some (PStr t).
Proof.
  intros Hcl H1 H2 Hcnt Hs Hcalls.
  apply serve_eq in Hs. destruct Hs as (s' & H & <- & <-).
  exact (fallback_answer uid account request e (mk_state d 0 []) p t r s'
           Hcl H1 H2 Hcnt H Hcalls).
Qed.

(** C4 as claimed fails where the primary model raises and the secondary
    one answers: the answer returned is the secondary's, but the body has
    no usedFallback entry. *)
Lemma no_used_fallback_flag :
  let e := env_at (march_10 0) (Some (only_secondary "Parce que.")) in
  let '(r, _, calls) := serve (as_user 0 (ask_question sky_question)) e example_db in
  model <$> calls = ["gpt-5"; "gpt-4o"]
  ∧ only_secondary "Parce que." <$> calls = [Fails; Content (Some "Parce que.")]
  ∧ answer_of r = Some (PStr "Parce que.")
  ∧ flag_of r "usedFallback" = None
  ∧ flag_of r "usedFallback" ≠ Some (PBool true).
Proof. vm_compute. by split_and!. Qed.

(** C1, at the input where the monthly quota fails.  The account is in the
    post-trial free tier (not premium, trial ended on 31 January 2025) and
    asks a question for its active child at 12:00 and again at 12:05 on
    10 March 2025.  The first request is answered and its response stored:
    at the second request one response of this account has been created
    since the start of the month.  The filter of [ask_question] asks for a
    field [user_id], which no response has (they carry [parent_id]), and
    counts none, so the second request is answered as well, where the quota
    of one question a month asks for 402 Monthly question limit reached. *)
Theorem second_question_admitted :
  let ask (minute : Z) :=
    serve (as_user 0 (ask_question sky_question))
      (env_at (march_10 minute) (Some (only_secondary "Parce que."))) in
  let '(r1, d1, _) := ask 0 example_db in
  let '(r2, d2, _) := ask 5 d1 in
  tier_of free_account (march_10 5) = Some post_trial_free
  ∧ answer_of r1 = Some (PStr "Parce que.")
  ∧ count_documents (responses d1)
      [ ("parent_id", Eq (PId 0));
        ("created_at", Gte (PDate (start_of_month (march_10 5)))) ] = 1
  ∧ count_documents (responses d1)
      [ ("user_id", Eq (PId 0));
        ("created_at", Gte (PDate (start_of_month (march_10 5)))) ] = 0
  ∧ answer_of r2 = Some (PStr "Parce que.")
  ∧ exception_of r2 = None
  ∧ count_documents (responses d2)
      [ ("parent_id", Eq (PId 0));
        ("created_at", Gte (PDate (start_of_month (march_10 5)))) ] = 2.
Proof. vm_compute. by split_and!. Qed.

(** C8 as claimed fails when the secondary model returns an empty text:
    both attempts have failed, yet the stored answer becomes the original
    followed by two newlines, and the caller is told regenerate = true,
    without error. *)
Lemma empty_elaboration_is_stored :
  let e := env_at (march_10 0) (Some (only_secondary "")) in
  let '(r, d', calls) :=
    serve (as_user 1 (submit_feedback 0 need_more_details)) e example_db in
  attempt_fails <$> (only_secondary "" <$> calls) = [true; true]
  ∧ stored_answer example_db 0 = Some (PStr "A cause de la lumiere du soleil.")
  ∧ stored_answer d' 0
    = Some (PStr ("A cause de la lumiere du soleil." +:+ nl +:+ nl))
  ∧ stored_answer d' 0 ≠ stored_answer example_db 0
  ∧ match r with
    | Ok body =>
        body !! "regenerate" = Some (JVal (PBool true))
        ∧ body !! "error" = None
    | Raise _ => False
    end.
Proof. vm_compute. by split_and!. Qed.

(** When the original answer is blank as well, the same run writes the
    answer of last resort over it, and still reports regenerate = true. *)
Lemma blank_answer_gets_placeholder :
  let e := env_at (march_10 0) (Some (only_secondary "")) in
  let '(r, d', _) :=
    serve (as_user 1 (submit_feedback 0 need_more_details)) e blank_db in
  stored_answer blank_db 0 = Some (PStr " ")
  ∧ stored_answer d' 0 = Some (PStr (could_not_regenerate (PStr "Tom")))
  ∧ match r with
    | Ok body => body !! "regenerate" = Some (JVal (PBool true))
    | Raise _ => False
    end.
Proof. vm_compute. by split_and!. Qed.

(** C3 as claimed fails on a blank answer.  [ask_question] stores the blank
    text of the secondary model as it is; when the elaboration comes back
    empty as well, the request reports regenerate = true, without error, and
    the answer of last resort is written over the original, which is no
    prefix of it. *)
Lemma blank_original_is_overwritten :
  let '(r1, d1, _) :=
    serve (as_user 1 (ask_question (QuestionRequest.mk "Pourquoi ?" 1)))
      (env_at (march_10 0) (Some (only_secondary " "))) example_db in
  let response_id := fresh (dom (responses example_db)) in
  let '(r2, d2, _) :=
    serve (as_user 1 (submit_feedback response_id need_more_details))
      (env_at (march_10 5) (Some (only_secondary ""))) d1 in
  answer_of r1 = Some (PStr " ")
  ∧ stored_answer d1 response_id = Some (PStr " ")
  ∧ match r2 with
    | Ok body =>
        body !! "regenerate" = Some (JVal (PBool true))
        ∧ body !! "error" = None
    | Raise _ => False
    end
  ∧ stored_answer d2 response_id
    = Some (PStr (could_not_regenerate (PStr "Tom")))
  ∧ String.prefix " " (could_not_regenerate (PStr "Tom")) = false.
Proof. vm_compute. by split_and!. Qed.

(** ** The theorems at work *)

(** C2 at work: four requests on the response of Tom, whose level goes
    2, 1, 0, 1, 1 (the last request is refused). *)
Lemma complexity_level_stays_clamped_witness :
  levels_ok example_db
  ∧ Forall levels_ok (feedback_trace example_db sky_events)
  ∧ (λ d, level_of d 1) <$> feedback_trace example_db sky_events
    = Some <$> [PInt 2; PInt 1; PInt 0; PInt 1; PInt 1].
Proof.
  assert (H : levels_ok example_db).
  { unfold levels_ok. apply (bool_decide_unpack _). vm_compute. exact I. }
  split; [exact H|]. split.
  - exact (proj1 (complexity_level_stays_clamped example_db sky_events H)).
  - vm_compute. reflexivity.
Defined.

(** C3, amended, at work: the primary model raises, the secondary one
    elaborates. *)
Lemma more_details_keeps_original_unless_blank_witness :
  model <$> encore_run.2 = ["gpt-5"; "gpt-4o"]
  ∧ stored_answer encore_run.1.2 0
    = Some (PStr ("A cause de la lumiere du soleil." +:+ nl +:+ nl +:+ "Encore."))
  ∧ String.prefix "A cause de la lumiere du soleil."
      ("A cause de la lumiere du soleil." +:+ nl +:+ nl +:+ "Encore.") = true.
Proof.
  split; [vm_compute; reflexivity|].
  destruct (more_details_keeps_original_unless_blank 1 premium_account 0
              (env_at (march_10 0) (Some (only_secondary "Encore.")))
              example_db encore_run.1.2 (body_of encore_run.1.1) encore_run.2
              "A cause de la lumiere du soleil.")
    as (section & cid & child & name & p & q & _ & _ & _ & Hp & Hq & Hsec & Hb
        & Hst & _ & Hpre).
  - vm_compute; reflexivity.
  - vm_compute; reflexivity.
  - reflexivity.
  - injection Hp as <-.
    assert (Hl : last encore_run.2
                 = Some (default (gpt5 "" "" 0) (last encore_run.2)))
      by (vm_compute; reflexivity).
    rewrite Hl in Hq. injection Hq as <-.
    assert (Hs : section = "Encore.") by (vm_compute in Hsec; congruence).
    subst section. cbv zeta in *.
    assert (Hnb : blank ("A cause de la lumiere du soleil." +:+ nl +:+ nl
                         +:+ "Encore.") = false) by (vm_compute; reflexivity).
    rewrite Hnb in Hst, Hpre. split; [exact Hst|by apply Hpre].
Defined.

(** C8, amended, at work: both models raise. *)
Lemma failed_more_details_keeps_answer_witness :
  stored_answer down_run.1.2 0 = stored_answer example_db 0
  ∧ body_of down_run.1.1 !! "regenerate" = Some (JVal (PBool false))
  ∧ body_of down_run.1.1 !! "error"
    = Some (JVal (PStr "Could not regenerate response"))
  ∧ body_of down_run.1.1 !! "new_response" = None.
Proof.
  destruct (failed_more_details_keeps_answer 1 premium_account 0
              (env_at (march_10 0) (Some unavailable)) example_db
              down_run.1.2 down_run.1.1 down_run.2) as [Hanswer Hbody].
  - intros q. split; [reflexivity|by left].
  - vm_compute; reflexivity.
  - split; [apply Hanswer|]. apply Hbody. vm_compute; reflexivity.
Defined.

(** C9 at work: without a client the regeneration fails, the level of Tom
    has gone from 2 to 1 all the same. *)
Lemma feedback_committed_before_regeneration_witness :
  body_of simpler_run.1.1 !! "error"
  = Some (JVal (PStr "Could not regenerate response"))
  ∧ level_of example_db 1 = Some (PInt 2)
  ∧ level_of simpler_run.1.2 1 = Some (PInt 1)
  ∧ responses simpler_run.1.2 !! 0%nat ≫= (.!! "feedback")
    = Some (PStr "too_complex")
  ∧ ∃ response_doc child_id child current_level t,
      responses example_db !! 0%nat = Some response_doc
      ∧ response_doc !! "child_id" = Some (PId child_id)
      ∧ children example_db !! child_id = Some child
      ∧ as_int (get child "complexity_level" (PInt 0)) = Ok current_level
      ∧ children simpler_run.1.2
        = update_one_set (children example_db) child_id
            [ ("complexity_level",
               PInt (Z.max (-2)
                       (Z.min 2 (current_level + complexity_change too_complex)))) ]
      ∧ responses simpler_run.1.2
        = update_one_set (responses example_db) 0
            [ ("feedback", PStr (feedback_text too_complex));
              ("feedback_timestamp", PDate t) ].
Proof.
  destruct (feedback_committed_before_regeneration 1 premium_account 0
              too_complex (env_at (march_10 0) None) example_db
              simpler_run.1.2 (body_of simpler_run.1.1) simpler_run.2)
    as [Herror Hstore].
  - discriminate.
  - vm_compute; reflexivity.
  - vm_compute; reflexivity.
  - destruct Hstore as (rdoc & cid & child & n & t & H1 & H2 & H3 & H4 & H5 & H6 & _).
    split_and!; [exact Herror|vm_compute; reflexivity..|].
    by exists rdoc, cid, child, n, t.
Defined.

(** C4, amended, at work. *)
Lemma fallback_answer_returned_witness :
  ∃ system body response_id,
    question_run.2
    = [ gpt5 system (QuestionRequest.question sky_question) 300;
        gpt4o system (QuestionRequest.question sky_question) 300 (7 # 10) ]
    ∧ question_run.1.1 = Ok body
    ∧ body !! "answer" = Some (PStr "Parce que.")
    ∧ body !! "usedFallback" = None
    ∧ body !! "id" = Some (PId response_id)
    ∧ responses example_db !! response_id = None
    ∧ stored_answer question_run.1.2 response_id = Some (PStr "Parce que.").
Proof.
  apply (fallback_answer_returned 0 free_account sky_question
           (env_at (march_10 0) (Some (only_secondary "Parce que.")))
           example_db question_run.1.2 (only_secondary "Parce que.")
           "Parce que." question_run.1.1 question_run.2).
  - reflexivity.
  - intros q Hq. unfold only_secondary. rewrite Hq. reflexivity.
  - intros q Hq. unfold only_secondary. rewrite Hq. reflexivity.
  - vm_compute. exact I.
  - vm_compute; reflexivity.
  - vm_compute. discriminate.
Defined.

(** C5, amended, at work: a day and a half before the end, 1 day is left. *)
Lemma trial_days_left_is_floor_witness :
  ∃ body s',
    get_monetization_status (with_id 0 trial_account) (env_at noon_29 None)
      (mk_state example_db 0 []) = (Ok body, s')
    ∧ body !! "trial_days_left" = Some (PInt 1).
Proof.
  destruct (proj1 (trial_days_left_is_floor 0 trial_account (env_at noon_29 None)
                     (mk_state example_db 0 [])) midnight_31 eq_refl)
    as (body & s' & Hrun & Hdays & _).
  exists body, s'. split; [exact Hrun|]. rewrite Hdays. vm_compute. reflexivity.
Defined.


(** * The other handlers: proofs *)

(** ** The runs of [ask_question] *)

Lemma update_one_inc_Raise c i k n x :
  update_one_inc c i k n = Raise x → x = WriteError.
Proof.
  unfold update_one_inc. intros H.
  repeat (case_head H; try discriminate H). all: by injection H.
Qed.

Ltac rewrite_replies :=
  repeat match goal with
  | Hq : _ (gpt5 _ _ _) = _ |- _ => rewrite Hq
  | Hq : _ (gpt4o _ _ _ _) = _ |- _ => rewrite Hq
  end.

Ltac munfold_ask2_in H :=
  cbv beta iota zeta delta
    [mbind M_bind mret M_ret lift raise try_except utcnow now
     client_configured db_find_one db_count_documents db_insert_one
     db_update_one_set db_update_one_inc insert_one
     is_trial_active calculate_child_age_years calculate_age_months] in H;
  cbn [db readings sent with_db coll set_coll users children responses] in H.

Lemma ask_question_inv uid account request e s r s' :
  ask_question request (with_id uid account) e s = (r, s') →
  (∃ x, r = Raise x ∧ db s' = db s ∧ sent s' = sent s ∧ refusal x)
  ∨ ∃ child name answer months t,
      children (db s) !! QuestionRequest.child_id request = Some child
      ∧ child !! "parent_id" = Some (PId uid)
      ∧ child !! "name" = Some name
      ∧ (let trial_end_date := get (with_id uid account) "trial_end_date" PNone in
         truthy trial_end_date = false ∨ ∃ d, trial_end_date = PDate d)
      ∧ children (db s') = children (db s)
      ∧ responses (db s')
        = <[fresh (dom (responses (db s))) :=
              response_doc_of request uid name answer months t]> (responses (db s))
      ∧ (sent s' = sent s ∧ openai_client e = None
           ∧ answer = PStr (could_not_answer name)
         ∨ ∃ p system,
             openai_client e = Some p
             ∧ let user := QuestionRequest.question request in
               (∃ c calls, answered_by p system user 300 (7 # 10) c calls
                           ∧ sent s' = sent s ++ calls ∧ answer = of_content c)
               ∨ (attempt_fails (p (gpt5 system user 300)) = true
                  ∧ p (gpt4o system user 300 (7 # 10)) = Fails
                  ∧ sent s' = sent s ++ [gpt5 system user 300;
                                         gpt4o system user 300 (7 # 10)]
                  ∧ answer = PStr (could_not_answer name)))
      ∧ (r = Raise WriteError ∧ users (db s') = users (db s)
         ∨ ∃ body,
             r = Ok body
             ∧ body !! "id" = Some (PId (fresh (dom (responses (db s)))))
             ∧ body !! "answer" = Some answer
             ∧ update_one_inc (users (db s)) uid "questions_asked" 1
               = Ok (users (db s'))).
Proof.
  intros H. unfold ask_question in H.
  rewrite bind_eq, lift_eq, getitem_with_id in H.
  munfold_ask2_in H.
  mcases H.
  all: try match goal with
       | Hi : as_id (PId _) = Raise _ |- _ => discriminate Hi
       end.
  all: raised.
  all: repeat match goal with
       | Hx : generate_advanced_system_message _ _ _ _ = Raise _ |- _ =>
           apply generate_advanced_system_message_Raise in Hx; subst
       end.
  all: try (left; injection H as <- <-; eexists; split_and!; try reflexivity;
            unfold refusal, monthly_limit; eauto 10; fail).
  all: right.
  all: match goal with
       | Hf : find_one _ _ _ = Some _ |- _ =>
           apply find_one_Some in Hf as (child & Hc & -> & Hm)
       end.
  all: rewrite matches_parent in Hm; apply bool_decide_eq_true_1 in Hm.
  all: repeat match goal with
       | Hg : getitem (with_id _ _) _ = Ok _ |- _ =>
           apply getitem_Ok in Hg; rewrite ?lookup_with_id_ne in Hg by done
       | Hi : as_id (PId _) = Ok _ |- _ => injection Hi as <-
       end.
  all: try match goal with
       | Hp : primary_then_fallback _ _ _ _ _ _ = _ |- _ =>
           rewrite primary_then_fallback_eq in Hp;
           destruct (openai_client e) as [p|] eqn:Hcl;
             [|exfalso;
               match goal with
               | Hb : bool_decide (is_Some _) = true |- _ =>
                   apply bool_decide_eq_true_1 in Hb; by destruct Hb
               end];
           unfold second_attempt in Hp;
           repeat (case_head Hp; try discriminate Hp);
           injection Hp as ? ?; subst; try discriminate
       end.
  all: try match goal with
       | Hb : bool_decide (is_Some (openai_client ?e')) = false |- _ =>
           apply bool_decide_eq_false_1 in Hb;
           destruct (openai_client e') as [p|] eqn:Hcl;
             [by exfalso; apply Hb|clear Hb]
       end.
  all: try match goal with
       | Hu : update_one_inc _ _ _ _ = Raise _ |- _ =>
           apply update_one_inc_Raise in Hu; subst
       end.
  all: cbn [sending db readings sent] in *.
  all: injection H as <- <-; cbn [db readings sent with_db users children responses].
  all: do 5 eexists; split_and!; [done|done|done|by eauto|reflexivity|reflexivity| |].
  all: try (first
         [ by left
         | right; do 2 eexists; split; [reflexivity|];
           first
             [ left; do 2 eexists; split_and!; [|reflexivity|reflexivity];
               unfold answered_by;
               first
                 [ left; split_and!; [eassumption|eassumption|reflexivity]
                 | right; split_and!;
                   [rewrite_replies; cbn [attempt_fails]; done
                   |eassumption|reflexivity] ]
             | right; split_and!;
               [rewrite_replies; cbn [attempt_fails]; done
               |eassumption|reflexivity|reflexivity] ] ]; fail).
  all: try (first
         [ left; split; [reflexivity|done]
         | right; eexists; split_and!;
           [reflexivity|by simplify_map_eq|by simplify_map_eq|done] ]; fail).
Qed.

(** X1: what [ask_question] raises.  A refusal (404 Child not found, 402
    Child not active in free version, 402 Monthly question limit reached, or
    the TypeError or KeyError of a malformed document) comes before anything
    is written or sent: the database and the requests to the provider are
    as they were.  The only other exception is the WriteError of the update
    of the question counter.  A failure of the provider is never raised: no
    APIError, AttributeError or plain Exception leaves the handler. *)
Theorem ask_question_exceptions (uid : nat) (account : dict)
  (request : QuestionRequest.t) (e : env) (s : state) :
  let '(r, s') := ask_question request (with_id uid account) e s in
  match r with
  | Ok _ => True
  | Raise x =>
      (refusal x ∧ db s' = db s ∧ sent s' = sent s ∨ x = WriteError)
      ∧ x ≠ APIError ∧ x ≠ AttributeError ∧ ∀ message, x ≠ Exception message
  end.
Proof.
  destruct (ask_question _ _ e s) as [[body|x] s'] eqn:H; [done|].
  apply ask_question_inv in H as [(y & [= <-] & Hdb & Hsent & Hx)|H].
  - split; [by left; split_and!|].
    destruct Hx as [->|[->|[->|[->|[k ->]]]]]; by split_and!.
  - destruct H as (child & name & answer & months & t & _ & _ & _ & _ & _ & _ & _ & Hr).
    destruct Hr as [[[= ->] _]|(body & [=] & _)]. by split_and!; [right|..].
Qed.

(** X2: an answered question is stored.  When [ask_question] returns a body,
    one response has been added to the collection, under an id that was free
    and that the body returns as id.  It holds the answer of the body, the
    question and the child of the request, the account as parent_id, a null
    feedback, and no field user_id; the children are unchanged. *)
Theorem ask_question_stores_its_answer (uid : nat) (account : dict)
  (request : QuestionRequest.t) (e : env) (s : state) :
  let '(r, s') := ask_question request (with_id uid account) e s in
  match r with
  | Raise _ => True
  | Ok body =>
      ∃ response_id response_doc,
        body !! "id" = Some (PId response_id)
        ∧ responses (db s) !! response_id = None
        ∧ responses (db s') = <[response_id := response_doc]> (responses (db s))
        ∧ children (db s') = children (db s)
        ∧ response_doc !! "answer" = body !! "answer"
        ∧ response_doc !! "question" = Some (PStr (QuestionRequest.question request))
        ∧ response_doc !! "child_id" = Some (PId (QuestionRequest.child_id request))
        ∧ response_doc !! "parent_id" = Some (PId uid)
        ∧ response_doc !! "feedback" = Some PNone
        ∧ response_doc !! "user_id" = None
  end.
Proof.
  destruct (ask_question _ _ e s) as [[body|x] s'] eqn:H; [|done].
  apply ask_question_inv in H as [(y & [=] & _)|H].
  destruct H as (child & name & answer & months & t & _ & _ & _ & _ & Hch & Hre & _ & Hr).
  destruct Hr as [[[=] _]|(body' & [= <-] & Hid & Hans & _)].
  eexists _, _. split_and!; [done| |done|done|..].
  - apply not_elem_of_dom, is_fresh.
  - rewrite Hans. by unfold response_doc_of; simplify_map_eq.
  - by unfold response_doc_of; simplify_map_eq.
  - by unfold response_doc_of; simplify_map_eq.
  - by unfold response_doc_of; simplify_map_eq.
  - by unfold response_doc_of; simplify_map_eq.
  - by unfold response_doc_of; simplify_map_eq.
Qed.

(** X3: an unreachable provider does not fail the request.  When every call
    of the client raises, or there is no client, a question that passes the
    checks is answered all the same: the body and the stored response carry
    the apology that asks the child, by name, to ask again. *)
Theorem provider_down_gives_apology (uid : nat) (account : dict)
  (request : QuestionRequest.t) (e : env) (s : state) :
  (∀ p, openai_client e = Some p → ∀ q, p q = Fails) →
  let '(r, s') := ask_question request (with_id uid account) e s in
  match r with
  | Raise _ => True
  | Ok body =>
      ∃ child name,
        children (db s) !! QuestionRequest.child_id request = Some child
        ∧ child !! "name" = Some name
        ∧ body !! "answer" = Some (PStr (could_not_answer name))
        ∧ stored_answer (db s') (fresh (dom (responses (db s))))
          = Some (PStr (could_not_answer name))
  end.
Proof.
  intros Hdown.
  destruct (ask_question _ _ e s) as [[body|x] s'] eqn:H; [|done].
  apply ask_question_inv in H as [(y & [=] & _)|H].
  destruct H as (child & name & answer & months & t & Hc & _ & Hn & _ & _ & Hre & Hp & Hr).
  destruct Hr as [[[=] _]|(body' & [= <-] & _ & Hans & _)].
  assert (answer = PStr (could_not_answer name)) as ->.
  { destruct Hp as [(_ & _ & ->)|(p & system & Hcl & Hp)]; [done|].
    destruct Hp as [(c & calls & Hp & _)|(_ & _ & _ & ->)]; [|done].
    destruct Hp as [(Hp & _)|(_ & Hp & _)]; by rewrite (Hdown p Hcl) in Hp. }
  eexists _, _. split_and!; [done..|].
  unfold stored_answer. rewrite Hre, lookup_insert_eq. cbn.
  by unfold response_doc_of; simplify_map_eq.
Qed.

(** ** The question gate *)

Lemma find_one_lookup c i q d :
  c !! i = Some d →
  find_one c i q = if matches q i d then Some (with_id i d) else None.
Proof. intros H. unfold find_one. by rewrite H. Qed.

Lemma find_one_own c i uid d :
  c !! i = Some d → d !! "parent_id" = Some (PId uid) →
  find_one c i [("parent_id", Eq (PId uid))] = Some (with_id i d).
Proof.
  intros H Hp. rewrite (find_one_lookup _ _ _ _ H), matches_parent.
  by rewrite bool_decide_eq_true_2.
Qed.

Lemma tier_post_trial_free u t :
  tier_of u t = Some post_trial_free →
  truthy (get u "is_premium" (PBool false)) = false
  ∧ ((∃ d, get u "trial_end_date" PNone = PDate d ∧ dt_ltb t d = false)
     ∨ truthy (get u "trial_end_date" PNone) = false).
Proof.
  unfold tier_of. destruct (truthy (get u "is_premium" _)); [done|].
  intros H. split; [done|].
  destruct (get u "trial_end_date" PNone) eqn:Hd; cbn [truthy] in *;
    try (right; done); try (by destruct (truthy _)).
  - right. by destruct b.
  - right. by destruct (negb (n =? 0)).
  - right. by destruct (negb (String.eqb s "")).
  - left. eexists; split; [done|]. by destruct (dt_ltb t d).
Qed.

Lemma ask_question_refused uid account request e s child detail :
  children (db s) !! QuestionRequest.child_id request = Some child →
  child !! "parent_id" = Some (PId uid) →
  tier_of (with_id uid account) (utc_at e (readings s)) = Some post_trial_free →
  (if inactive_child (with_id uid account) (QuestionRequest.child_id request) then
     detail = "Child not active in free version"
   else
     1 ≤ questions_counted (db s) uid
           (utc_at e (if truthy (get (with_id uid account) "trial_end_date" PNone)
                      then S (readings s) else readings s))
     ∧ detail = "Monthly question limit reached") →
  ∃ s', ask_question request (with_id uid account) e s
        = (Raise (HTTPException 402 detail), s').
Proof.
  intros Hc Hp Htier Hdet.
  apply tier_post_trial_free in Htier as [Hprem Htrial].
  destruct (ask_question request (with_id uid account) e s) as [r s'] eqn:H.
  exists s'. unfold ask_question in H.
  rewrite bind_eq, lift_eq, getitem_with_id in H.
  munfold_ask2_in H.
  rewrite (find_one_own _ _ _ _ Hc Hp), getitem_with_id, Hprem in H.
  unfold inactive_child, questions_counted in Hdet.
  destruct Htrial as [(d & Hd & Hlt)|Hf].
  - rewrite !Hd in H. cbn [truthy negb andb] in H. rewrite Hlt in H.
    rewrite Hd in Hdet. cbn [truthy] in Hdet.
    cbv beta iota zeta in H. cbn [readings db sent negb andb] in H.
    destruct (truthy _ && negb _).
    + subst detail. cbv beta iota in H. by injection H as <- <-.
    + destruct Hdet as [Hq ->]. apply Z.leb_le in Hq. rewrite Hq in H.
      cbv beta iota in H. by injection H as <- <-.
  - rewrite Hf in H, Hdet.
    cbv beta iota zeta in H. cbn [readings db sent negb andb] in H.
    destruct (truthy _ && negb _).
    + subst detail. cbv beta iota in H. by injection H as <- <-.
    + destruct Hdet as [Hq ->]. apply Z.leb_le in Hq. rewrite Hq in H.
      cbv beta iota in H. by injection H as <- <-.
Qed.

Lemma ask_question_402 uid account request e s detail s' :
  ask_question request (with_id uid account) e s
  = (Raise (HTTPException 402 detail), s') →
  ∃ child,
    children (db s) !! QuestionRequest.child_id request = Some child
    ∧ child !! "parent_id" = Some (PId uid)
    ∧ tier_of (with_id uid account) (utc_at e (readings s)) = Some post_trial_free
    ∧ if inactive_child (with_id uid account) (QuestionRequest.child_id request) then
        detail = "Child not active in free version"
      else
        1 ≤ questions_counted (db s) uid
              (utc_at e (if truthy (get (with_id uid account) "trial_end_date" PNone)
                         then S (readings s) else readings s))
        ∧ detail = "Monthly question limit reached".
Proof.
  intros H. unfold ask_question in H.
  rewrite bind_eq, lift_eq, getitem_with_id in H.
  munfold_ask2_in H.
  mcases H.
  all: try match goal with
       | Hi : as_id (PId _) = Raise _ |- _ => discriminate Hi
       end.
  all: raised.
  all: repeat match goal with
       | Hx : generate_advanced_system_message _ _ _ _ = Raise _ |- _ =>
           apply generate_advanced_system_message_Raise in Hx; subst
       | Hu : update_one_inc _ _ _ _ = Raise _ |- _ =>
           apply update_one_inc_Raise in Hu; subst
       end.
  all: try discriminate H.
  all: match goal with
       | Hf : find_one _ _ _ = Some _ |- _ =>
           apply find_one_Some in Hf as (child & Hc & -> & Hm)
       end.
  all: rewrite matches_parent in Hm; apply bool_decide_eq_true_1 in Hm.
  all: match goal with
       | Hg : getitem (with_id _ _) "_id" = Ok _ |- _ =>
           rewrite getitem_with_id in Hg
       end.
  all: match goal with
       | Hg : Ok (PId _) = Ok _ |- _ => injection Hg as <-
       end.
  all: match goal with
       | Hb : negb _ && _ = true |- _ =>
           apply andb_prop in Hb as [Hprem Htrial];
           apply negb_true_iff in Hprem
       end.
  all: injection H as <-.
  all: exists child; split_and!; [done|done| |].
  all: unfold tier_of, inactive_child, questions_counted.
  all: rewrite ?Hprem.
  all: repeat match goal with
       | Hd : get _ "trial_end_date" _ = _ |- _ => rewrite Hd in *
       | Hb : _ && _ = _ |- _ => rewrite Hb
       | Hb : negb (dt_ltb _ _) = true |- _ =>
           apply negb_true_iff in Hb; rewrite Hb
       end.
  all: try done.
  all: try (split; [|done]; by apply Z.leb_le).
  all: match goal with
       | Hf : truthy ?v = false |- _ =>
           destruct v; cbn [truthy] in Hf |- *; rewrite ?Hf; done
       end.
Qed.

(** X4: the question gate.  [ask_question] answers 402 exactly when the
    child of the request is a child of the account, the account is in the
    post-trial free tier at the first reading of the clock, and either
    another child is the active one (detail Child not active in free
    version), or the handler counts at least one question this month (detail
    Monthly question limit reached).  The count is the one of the handler:
    the responses whose field user_id is the account. *)
Theorem question_gate (uid : nat) (account : dict) (request : QuestionRequest.t)
  (e : env) (s : state) (detail : string) :
  let current_user := with_id uid account in
  let child_id := QuestionRequest.child_id request in
  let counted_at :=
    if truthy (get current_user "trial_end_date" PNone) then S (readings s)
    else readings s in
  (∃ s', ask_question request current_user e s
         = (Raise (HTTPException 402 detail), s'))
  ↔ ∃ child,
      children (db s) !! child_id = Some child
      ∧ child !! "parent_id" = Some (PId uid)
      ∧ tier_of current_user (utc_at e (readings s)) = Some post_trial_free
      ∧ if inactive_child current_user child_id then
          detail = "Child not active in free version"
        else
          1 ≤ questions_counted (db s) uid (utc_at e counted_at)
          ∧ detail = "Monthly question limit reached".
Proof.
  intros current_user child_id counted_at.
  subst current_user child_id counted_at. split.
  - intros (s' & H). by eapply ask_question_402.
  - intros (child & Hc & Hp & Htier & Hdet). by eapply ask_question_refused.
Qed.

Lemma getitem_lookup (d : dict) k v : d !! k = Some v → getitem d k = Ok v.
Proof. intros H. unfold getitem. by rewrite H. Qed.

Ltac munfold :=
  cbv beta iota zeta delta
    [mbind M_bind mret M_ret lift raise try_except utcnow now
     client_configured db_find_one db_count_documents db_insert_one
     db_update_one_set db_update_one_inc];
  cbn [db readings sent with_db coll set_coll users children responses].

(** X5: the id [ask_question] returns is one [submit_feedback] takes.
    After an answered question the same account can send the feedback
    understood on the returned id, whenever it does: the request succeeds,
    sends nothing to the provider, marks the response as understood and
    leaves its answer as it was returned. *)
Theorem answer_accepts_feedback (uid : nat) (account : dict)
  (request : QuestionRequest.t) (e e2 : env) (s : state) :
  let '(r, s') := ask_question request (with_id uid account) e s in
  match r with
  | Raise _ => True
  | Ok body =>
      ∃ response_id d2,
        body !! "id" = Some (PId response_id)
        ∧ serve (submit_feedback response_id understood (with_id uid account))
            e2 (db s')
          = (Ok (result_of understood), d2, [])
        ∧ responses d2 !! response_id ≫= (.!! "feedback")
          = Some (PStr "understood")
        ∧ stored_answer d2 response_id = body !! "answer"
  end.
Proof.
  destruct (ask_question _ _ e s) as [[body|x] s'] eqn:H; [|done].
  apply ask_question_inv in H as [(y & [=] & _)|H].
  destruct H as (child & name & answer & months & t & Hc & Hp & _ & Htrial & Hch
                 & Hre & _ & Hr).
  destruct Hr as [[[=] _]|(body' & [= <-] & Hid & Hans & _)].
  set (rid := fresh (dom (responses (db s)))) in *.
  set (doc := response_doc_of request uid name answer months t) in *.
  assert (Hdoc : responses (db s') !! rid = Some doc)
    by (by rewrite Hre, lookup_insert_eq).
  destruct (is_trial_active_cases (get (with_id uid account) "trial_end_date" PNone)
              e2 (mk_state (db s') 0 []))
    as [(d & Hd & Ha)|[(Hf & Ha)|(Ht & Hn & Ha)]].
  3: { exfalso. destruct Htrial as [Hf|[d Hd]]; [congruence|by eapply Hn]. }
  all: eexists rid, _; split; [done|].
  all: unfold serve, submit_feedback.
  all: rewrite bind_eq, lift_eq, getitem_with_id, bind_eq, Ha; clear Ha.
  all: replace (bool_decide (understood ∈ [too_complex; need_more_details]))
         with false by done.
  all: rewrite andb_false_r.
  all: munfold.
  all: rewrite (find_one_own _ _ _ _ Hdoc)
         by (by subst doc; unfold response_doc_of; simplify_map_eq).
  all: rewrite (getitem_lookup _ "child_id" (PId (QuestionRequest.child_id request)))
         by (by subst doc; unfold response_doc_of; simplify_map_eq).
  all: cbv beta iota; cbn [as_id db readings sent with_db users children responses];
       rewrite Hch, (find_one_own _ _ _ _ Hc Hp).
  all: cbn [complexity_change Z.eqb negb regenerate].
  all: cbv beta iota; cbn [db readings sent with_db users children responses].
  all: split_and!; [reflexivity| |].
  all: unfold stored_answer; cbn [responses]; unfold update_one_set;
       rewrite lookup_alter_eq, Hdoc; cbn; rewrite ?Hans;
       subst doc; unfold response_doc_of; by simplify_map_eq.
Qed.

(** ** The footprint of a feedback *)

Lemma primary_then_fallback_sent system user budget temp e s r s' :
  primary_then_fallback system user budget temp e s = (r, s') →
  ∃ calls, sent s' = sent s ++ calls ∧ (length calls ≤ 2)%nat.
Proof.
  rewrite primary_then_fallback_eq. unfold second_attempt, sending.
  destruct (openai_client e) as [p|];
    [|intros [= <- <-]; exists []; split; [by rewrite app_nil_r|cbn; lia]].
  destruct (p (gpt5 system user budget)) as [|c];
    [|destruct (no_text c)];
    try destruct (p (gpt4o system user budget temp));
    intros [= <- <-]; eexists; (split; [reflexivity|cbn; lia]).
Qed.

Lemma regenerate_response_sent rid fb rdoc child e s r s' :
  regenerate_response rid fb rdoc child e s = (r, s') →
  ∃ calls, sent s' = sent s ++ calls ∧ (length calls ≤ 2)%nat.
Proof.
  intros H. unfold regenerate_response in H.
  destruct fb;
    [rewrite bool_decide_eq_false_2 in H by done
    |rewrite bool_decide_eq_false_2 in H by done
    |rewrite bool_decide_eq_true_2 in H by done].
  all: munfold_all_in H.
  all: mcases H.
  all: try match goal with
       | Hp : primary_then_fallback _ _ _ _ _ _ = _ |- _ =>
           apply primary_then_fallback_sent in Hp;
           cbn [sent] in Hp; destruct Hp as (calls & Hs & Hl)
       end.
  all: injection H as <- <-; cbn [db readings sent with_db].
  all: try (eexists; split; [eassumption|done]).
  all: exists []; split; [by rewrite app_nil_r|cbn; lia].
Qed.

(** The simpler answer: a regeneration after too_complex that returns has
    asked the chain with the system message of the child as it is given,
    and stored the reply in place of the answer. *)
Lemma regenerate_simpler_Ok rid rdoc child e s nr s' :
  regenerate_response rid too_complex rdoc child e s = (Ok nr, s') →
  ∃ p name gender question birth_month birth_year age s1 system reply calls ts,
    openai_client e = Some p
    ∧ child !! "name" = Some name
    ∧ child !! "gender" = Some gender
    ∧ child !! "birth_month" = Some birth_month
    ∧ child !! "birth_year" = Some birth_year
    ∧ rdoc !! "question" = Some question
    ∧ calculate_child_age_years birth_month birth_year e s = (Ok age, s1)
    ∧ generate_advanced_system_message name gender age
        (get child "complexity_level" (PInt 0)) = Ok system
    ∧ answered_by p system (py_str question) 300 (7 # 10) reply calls
    ∧ sent s' = sent s ++ calls
    ∧ let a := if no_text reply then could_not_regenerate name
               else py_str (of_content reply) in
      responses (db s') = update_one_set (responses (db s)) rid (regenerated_fields a ts)
      ∧ nr !! "answer" = Some (PStr a).
Proof.
  intros H. unfold regenerate_response in H.
  rewrite bool_decide_eq_false_2 in H by done.
  munfold_all_in H. mcases H.
  all: repeat match goal with
       | Hp : primary_then_fallback _ _ _ _ _ _ = (Ok _, _) |- _ =>
           apply primary_then_fallback_Ok in Hp;
           destruct Hp as (p & calls & Hcl & -> & Hans)
       | Hg : getitem _ _ = Ok _ |- _ => apply getitem_Ok in Hg
       end.
  all: injection H as <- <-;
       cbn [db readings sent with_db users children responses sending] in *.
  all: try match goal with
       | Hn : no_text _ = false |- _ =>
           destruct (no_text_false _ Hn) as (txt & -> & _)
       end.
  all: do 12 eexists; split_and!; try eassumption.
  all: try (unfold calculate_child_age_years; munfold;
            repeat match goal with
                   | Hi : as_int _ = Ok _ |- _ => rewrite Hi
                   end; reflexivity).
  all: try reflexivity.
  all: cbv zeta; rewrite ?Heqb; cbn [of_content py_str]; try reflexivity.
  all: by simplify_map_eq.
Qed.

Lemma dom_update_one_set (c : gmap nat dict) i fields :
  dom (update_one_set c i fields) = dom c.
Proof. unfold update_one_set. apply leibniz_equiv, dom_alter. Qed.

Lemma update_one_set_ne (c : gmap nat dict) i j fields :
  i ≠ j → update_one_set c i fields !! j = c !! j.
Proof. intros. unfold update_one_set. by rewrite lookup_alter_ne. Qed.

Lemma regenerated_answer (c : gmap nat dict) rid a ts doc :
  c !! rid = Some doc →
  update_one_set c rid (regenerated_fields a ts) !! rid ≫= (.!! "answer")
  = Some (PStr a).
Proof.
  intros H. unfold update_one_set. rewrite lookup_alter_eq, H. cbn.
  by simplify_map_eq.
Qed.

(** X6: what a feedback request can change.  [submit_feedback] leaves the
    accounts as they are, creates and deletes no child and no response,
    changes no response but the one it names and no child but the child of
    that response, and sends at most two requests to the provider.  When it
    raises, the database is as it was and nothing has been sent. *)
Theorem feedback_footprint (uid : nat) (account : dict) (response_id : nat)
  (feedback : feedback_kind) (e : env) (d : database) :
  let '(r, d', calls) :=
    serve (submit_feedback response_id feedback (with_id uid account)) e d in
  users d' = users d
  ∧ dom (children d') = dom (children d)
  ∧ dom (responses d') = dom (responses d)
  ∧ (∀ j, j ≠ response_id → responses d' !! j = responses d !! j)
  ∧ (∀ c, responses d !! response_id ≫= (.!! "child_id") ≠ Some (PId c) →
          children d' !! c = children d !! c)
  ∧ (length calls ≤ 2)%nat
  ∧ (∀ x, r = Raise x → d' = d ∧ calls = []).
Proof.
  destruct (serve _ e d) as [[r d'] calls] eqn:Hs.
  apply serve_eq in Hs as (s' & H & <- & <-).
  apply submit_feedback_inv in H
    as [(x & -> & Hdb & Hsent)
       |(rdoc & cid & child & s1 & child1 & Hr & Hcid & Hc & Hs1 & Hu & [t Hre]
         & Hch & Hreg)].
  { rewrite Hdb, Hsent. cbn. split_and!; try done. lia. }
  cbn [db sent] in *.
  assert (Hch1 : dom (children (db s1)) = dom (children d)
                 ∧ ∀ c, c ≠ cid → children (db s1) !! c = children d !! c).
  { destruct Hch as [(_ & -> & _)|(_ & n & _ & -> & _)]; [done|].
    split; [apply dom_update_one_set|]. intros c Hne. by apply update_one_set_ne. }
  destruct Hch1 as [Hdom Hother].
  assert (Hfin : users (db s') = users (db s1)
                 ∧ children (db s') = children (db s1)
                 ∧ dom (responses (db s')) = dom (responses (db s1))
                 ∧ (∀ j, j ≠ response_id →
                      responses (db s') !! j = responses (db s1) !! j)
                 ∧ (∃ l, sent s' = sent s1 ++ l ∧ (length l ≤ 2)%nat)
                 ∧ ∃ body, r = Ok body).
  { destruct (regenerate feedback).
    - destruct (regenerate_response _ _ _ _ e s1) as [r2 s2] eqn:Hrun.
      pose proof (regenerate_response_sent _ _ _ _ _ _ _ _ Hrun) as Hl.
      apply regenerate_response_frame in Hrun
        as (Hu2 & Hc2 & Hr2);
        [|by rewrite lookup_with_id_ne, Hcid by done].
      destruct r2 as [nr|x]; destruct Hreg as [-> ->].
      + destruct Hr2 as (a & ts & -> & _).
        split_and!; eauto using dom_update_one_set.
        intros j Hj. by apply update_one_set_ne.
      + rewrite Hr2. split_and!; eauto.
    - destruct Hreg as [-> ->]. split_and!; eauto.
      exists []. split; [by rewrite app_nil_r|cbn; lia]. }
  destruct Hfin as (Hu3 & Hc3 & Hd3 & Hr3 & (l & Hl & Hlen) & body & ->).
  split_and!.
  - congruence.
  - by rewrite Hc3.
  - by rewrite Hd3, Hre, dom_update_one_set.
  - intros j Hj. by rewrite Hr3, Hre, update_one_set_ne.
  - intros c Hne. rewrite Hc3. apply Hother. intros ->.
    apply Hne. by rewrite Hr; cbn.
  - rewrite Hl, Hs1. cbn. done.
  - done.
Qed.

(** X7: the simpler answer is made at the lowered level.  When a feedback
    too_complex ends with regenerate = true, the provider was asked with the
    system message of the child at level [clamp (level - 1) (-2) 2], the
    level just stored and not the one the answer was made at, and with the
    original question, 300 tokens and temperature 0.7; the stored answer is
    the reply, or the apology of the regeneration when the reply has no
    text. *)
Theorem simpler_answer_uses_new_level (uid : nat) (account : dict)
  (response_id : nat) (e : env) (d : database) :
  let '(r, d', calls) :=
    serve (submit_feedback response_id too_complex (with_id uid account)) e d in
  match r with
  | Raise _ => True
  | Ok body =>
      body !! "regenerate" = Some (JVal (PBool true)) →
      ∃ response_doc child_id child level name gender question age system p reply,
        responses d !! response_id = Some response_doc
        ∧ response_doc !! "child_id" = Some (PId child_id)
        ∧ response_doc !! "question" = Some question
        ∧ children d !! child_id = Some child
        ∧ child !! "name" = Some name
        ∧ child !! "gender" = Some gender
        ∧ as_int (get child "complexity_level" (PInt 0)) = Ok level
        ∧ generate_advanced_system_message name gender age
            (PInt (clamp (level - 1) (-2) 2)) = Ok system
        ∧ openai_client e = Some p
        ∧ answered_by p system (py_str question) 300 (7 # 10) reply calls
        ∧ stored_answer d' response_id
          = Some (PStr (if no_text reply then could_not_regenerate name
                        else py_str (of_content reply)))
  end.
Proof.
  destruct (serve _ e d) as [[[body|x] d'] calls] eqn:Hs; [|done].
  intros Hflag.
  apply serve_eq in Hs as (s' & H & <- & <-).
  apply submit_feedback_inv in H
    as [(x & [=] & _)
       |(rdoc & cid & child & s1 & child1 & Hr & Hcid & Hc & Hs1 & Hu & [t Hre]
         & Hch & Hreg)].
  destruct Hch as [([=] & _)|(_ & n & Hn & Hch & ->)].
  cbn [regenerate] in Hreg.
  destruct (regenerate_response _ _ _ _ e s1) as [[nr|x] s2] eqn:Hrun;
    destruct Hreg as [[= ->] ->].
  2: { by rewrite (proj1 (failed_result_regenerate too_complex)) in Hflag. }
  apply regenerate_simpler_Ok in Hrun
    as (p & name & gender & question & bm & by_ & age & s3 & system & reply
        & l & ts & Hcl & Hname & Hgender & _ & _ & Hq & _ & Hsys & Hans & Hsent
        & Hstore & _).
  rewrite lookup_insert_ne, lookup_with_id_ne in Hname, Hgender by done.
  rewrite lookup_with_id_ne in Hq by done.
  unfold get in Hsys. rewrite lookup_insert_eq in Hsys.
  exists rdoc, cid, child, n, name, gender, question, age, system, p, reply.
  split_and!; try done.
  - cbn [sent] in Hs1. rewrite Hsent, Hs1. done.
  - unfold stored_answer. rewrite Hstore. eapply regenerated_answer.
    rewrite Hre. unfold update_one_set. by rewrite lookup_alter_eq, Hr.
Qed.

(** ** Levels and ages *)

Lemma clamp_cases x :
  (x ≤ -2 ∧ clamp x (-2) 2 = -2) ∨ (2 ≤ x ∧ clamp x (-2) 2 = 2)
  ∨ (-2 < x < 2 ∧ clamp x (-2) 2 = x).
Proof. unfold clamp. lia. Qed.

Lemma get_complexity_descriptor_clamp level age :
  get_complexity_descriptor level age
  = get_complexity_descriptor (clamp level (-2) 2) age.
Proof.
  destruct (clamp_cases level) as [[H ->]|[[H ->]|[H ->]]]; [| |done].
  - unfold get_complexity_descriptor. by rewrite (proj2 (Z.leb_le _ _) H).
  - unfold get_complexity_descriptor.
    rewrite (proj2 (Z.leb_gt _ _)) by lia.
    by rewrite !(proj2 (Z.eqb_neq _ _)) by lia.
Qed.

Lemma get_complexity_instructions_clamp level :
  get_complexity_instructions level
  = get_complexity_instructions (clamp level (-2) 2).
Proof.
  destruct (clamp_cases level) as [[H ->]|[[H ->]|[H ->]]]; [| |done].
  - unfold get_complexity_instructions. by rewrite (proj2 (Z.leb_le _ _) H).
  - unfold get_complexity_instructions.
    rewrite (proj2 (Z.leb_gt _ _)) by lia.
    by rewrite !(proj2 (Z.eqb_neq _ _)) by lia.
Qed.

(** X8: levels beyond the bounds are read as the bounds.
    [generate_advanced_system_message] gives for any integer level the
    message of that level clamped to -2..2: a level below -2 is treated as
    -2, one above 2 as 2. *)
Theorem system_message_saturates (child_name child_gender : pyval) (age level : Z) :
  generate_advanced_system_message child_name child_gender age (PInt level)
  = generate_advanced_system_message child_name child_gender age
      (PInt (clamp level (-2) 2)).
Proof.
  unfold generate_advanced_system_message. cbn [as_int].
  by rewrite <- get_complexity_descriptor_clamp, <- get_complexity_instructions_clamp.
Qed.

(** X9: the age named in the descriptor.  Whatever the level and the age
    of the child, the text of [get_complexity_descriptor] names one age and
    no other number: it reads some text, a space, a number between 3 and 12,
    the word ans and some text, and neither text holds a digit. *)
Theorem described_age_in_range (complexity_level age : Z) :
  ∃ before n after,
    get_complexity_descriptor complexity_level age
    = before +:+ " " +:+ pretty n +:+ " ans" +:+ after
    ∧ 3 ≤ n ≤ 12
    ∧ no_digit before = true
    ∧ no_digit after = true.
Proof.
  unfold get_complexity_descriptor, int_of_age.
  destruct (complexity_level <=? -2);
    [|destruct (complexity_level =? -1);
      [|destruct (complexity_level =? 0);
        [|destruct (complexity_level =? 1)]]].
  - exists "très simple, comme pour un enfant de",
      (Z.max 3 (Z.quot (Z.max 36 (Z.min age 144) - 24) 12)),
      ", avec des mots très faciles".
    split_and!; [reflexivity| | |reflexivity..];
      Z.to_euclidean_division_equations; lia.
  - exists "simple, comme pour un enfant de",
      (Z.max 3 (Z.quot (Z.max 36 (Z.min age 144) - 12) 12)),
      ", avec des explications courtes".
    split_and!; [reflexivity| | |reflexivity..];
      Z.to_euclidean_division_equations; lia.
  - exists "adapté à un enfant de", (Z.quot (Z.max 36 (Z.min age 144)) 12), "".
    split_and!; [reflexivity| | |reflexivity..];
      Z.to_euclidean_division_equations; lia.
  - exists "plus détaillé avec des exemples concrets, comme pour un enfant de",
      (Z.min 12 (Z.quot (Z.max 36 (Z.min age 144) + 12) 12)),
      " qui veut approfondir".
    split_and!; [reflexivity| | |reflexivity..];
      Z.to_euclidean_division_equations; lia.
  - exists "très détaillé avec des explications scientifiques et des exemples variés, comme pour un enfant de",
      (Z.min 12 (Z.quot (Z.max 36 (Z.min age 144) + 24) 12)),
      " qui est très curieux".
    split_and!; [reflexivity| | |reflexivity..];
      Z.to_euclidean_division_equations; lia.
Qed.

(** X10: the two ages of a child agree on the whole years.  For a birth
    month between 1 and 12 that is not in the future, the whole years of
    [calculate_child_age_years] are the months of [calculate_age_months]
    divided by 12; the year count drops the months of the current year when
    the birthday is still to come this year, and is the age in months
    otherwise. *)
Theorem whole_years_agree (birth_year birth_month : Z) (e : env) (s : state) :
  let t := local_at e (readings s) in
  1 ≤ birth_month ≤ 12 →
  1 ≤ month t ≤ 12 →
  0 ≤ (year t - birth_year) * 12 + (month t - birth_month) →
  ∃ years months s',
    calculate_child_age_years (PInt birth_month) (PInt birth_year) e s
    = (Ok years, s')
    ∧ calculate_age_months (PInt birth_year) (PInt birth_month) e s
      = (Ok months, s')
    ∧ int_of_age years = months / 12
    ∧ years = if month t <? birth_month then 12 * (months / 12) else months.
Proof.
  intros t Hb Hm Hage. subst t.
  unfold calculate_child_age_years, calculate_age_months. munfold. cbn [as_int].
  eexists _, _, _. split_and!; [reflexivity|reflexivity|..].
  - unfold int_of_age. destruct (Z.ltb_spec (month (local_at e (readings s))) birth_month).
    + Z.to_euclidean_division_equations; lia.
    + Z.to_euclidean_division_equations; lia.
  - destruct (Z.ltb_spec (month (local_at e (readings s))) birth_month);
      Z.to_euclidean_division_equations; lia.
Qed.

(** X11: a birth month later in the current year.  [ChildCreate] accepts
    it; [calculate_age_months] then gives 0 months, and
    [calculate_child_age_years] an age of -1 year: the year is not clamped
    as the months are. *)
Theorem age_before_birth_month (birth_year birth_month : Z) (e : env) (s : state) :
  let t := local_at e (readings s) in
  year t = birth_year →
  month t < birth_month →
  ∃ years s',
    calculate_child_age_years (PInt birth_month) (PInt birth_year) e s
    = (Ok years, s')
    ∧ calculate_age_months (PInt birth_year) (PInt birth_month) e s = (Ok 0, s')
    ∧ int_of_age years = -1.
Proof.
  intros t Hy Hm. subst t.
  unfold calculate_child_age_years, calculate_age_months. munfold. cbn [as_int].
  eexists _, _. split_and!; [reflexivity|..].
  - do 2 f_equal. lia.
  - unfold int_of_age.
    rewrite (proj2 (Z.ltb_lt _ _) Hm), Hy.
    replace (birth_year - birth_year - 1) with (-1) by lia.
    by rewrite Z.max_l by lia.
Qed.

(** ** Whose child it is *)

Ltac munfold_more :=
  cbv beta iota zeta delta
    [mbind M_bind mret M_ret lift raise try_except utcnow now
     client_configured db_find_one db_count_documents db_insert_one
     db_update_one_set db_update_one_inc db_delete_one db_find db_find_first];
  cbn [db readings sent with_db coll set_coll users children responses].

Lemma find_one_foreign d uid cid :
  foreign d uid cid →
  find_one (children d) cid [("parent_id", Eq (PId uid))] = None.
Proof.
  intros Hf. unfold find_one. destruct (children d !! cid) as [child|] eqn:Hc; [|done].
  rewrite matches_parent, bool_decide_eq_false_2; [done|]. by apply Hf.
Qed.

Lemma database_eta d : mk_database (users d) (children d) (responses d) = d.
Proof. by destruct d. Qed.

Lemma ask_question_foreign uid account request e s :
  foreign (db s) uid (QuestionRequest.child_id request) →
  ask_question request (with_id uid account) e s
  = (Raise (HTTPException 404 "Child not found"), s).
Proof.
  intros Hf. unfold ask_question.
  rewrite bind_eq, lift_eq, getitem_with_id. munfold.
  by rewrite find_one_foreign.
Qed.

(** X12: the handlers that take a child check whose it is.  For a child id
    that is no child of the account (unknown, or of another parent),
    [ask_question], [delete_child], [select_active_child] and
    [get_child_complexity] all answer 404 Child not found, change nothing and
    send nothing: they do not tell a child of another account from no child. *)
Theorem child_handlers_check_ownership (uid : nat) (account : dict)
  (child_id : nat) (e : env) (d : database) :
  foreign d uid child_id →
  let current_user := with_id uid account in
  (∀ question,
      child_not_found
        (ask_question (QuestionRequest.mk question child_id) current_user) e d)
  ∧ child_not_found (delete_child child_id current_user) e d
  ∧ child_not_found (select_active_child child_id current_user) e d
  ∧ child_not_found (get_child_complexity child_id current_user) e d.
Proof.
  intros Hf current_user. subst current_user. unfold child_not_found, serve.
  split_and!.
  - intros question. by rewrite ask_question_foreign.
  - unfold delete_child. rewrite bind_eq, lift_eq, getitem_with_id.
    munfold_more. unfold delete_one. rewrite find_one_foreign by done.
    cbn [db sent with_db Z.eqb]. cbv beta iota. cbn [db sent].
    by rewrite database_eta.
  - unfold select_active_child. rewrite bind_eq, lift_eq, getitem_with_id.
    munfold_more. by rewrite find_one_foreign.
  - unfold get_child_complexity. rewrite bind_eq, lift_eq, getitem_with_id.
    munfold_more. by rewrite find_one_foreign.
Qed.

Lemma delete_child_own uid account cid child e s :
  children (db s) !! cid = Some child →
  child !! "parent_id" = Some (PId uid) →
  delete_child cid (with_id uid account) e s
  = (Ok {[ "message" := PStr "Child deleted successfully" ]},
     with_db (mk_database (users (db s)) (delete cid (children (db s)))
                (responses (db s))) s).
Proof.
  intros Hc Hp. unfold delete_child. rewrite bind_eq, lift_eq, getitem_with_id.
  munfold_more. unfold delete_one. by rewrite (find_one_own _ _ _ _ Hc Hp).
Qed.

Lemma count_documents_delete (c : gmap nat dict) q i (doc : dict) :
  c !! i = Some doc →
  count_documents (delete i c) q
  = count_documents c q - (if matches q i doc then 1 else 0).
Proof.
  intros H. rewrite <- (insert_delete_id c i doc H) at 2.
  rewrite count_documents_insert by apply lookup_delete_eq. lia.
Qed.

(** X13: deleting a child frees a place.  [delete_child] on a child of the
    account removes this child and nothing else, so the account has one
    child less; an account that was within the limit of 4 can then create a
    child again, and is back at its former count. *)
Theorem deleting_a_child_frees_a_place (uid : nat) (account : dict)
  (child_id : nat) (child : dict) (e : env) (d : database) :
  children d !! child_id = Some child →
  child !! "parent_id" = Some (PId uid) →
  ∃ body d',
    serve (delete_child child_id (with_id uid account)) e d = (Ok body, d', [])
    ∧ children d' = delete child_id (children d)
    ∧ users d' = users d
    ∧ responses d' = responses d
    ∧ children_of d' uid = children_of d uid - 1
    ∧ (children_of d uid ≤ 4 →
       ∀ child_data e2,
         ∃ body2 d2,
           serve (create_child child_data (with_id uid account)) e2 d'
           = (Ok body2, d2, [])
           ∧ children_of d2 uid = children_of d uid).
Proof.
  intros Hc Hp. unfold serve at 1.
  rewrite (delete_child_own uid account child_id child e (mk_state d 0 []) Hc Hp).
  cbn [with_db db sent].
  eexists _, _. split; [reflexivity|]. cbn [users children responses].
  assert (Hn : children_of
                 (mk_database (users d) (delete child_id (children d)) (responses d))
                 uid = children_of d uid - 1).
  { unfold children_of. cbn [children].
    rewrite (count_documents_delete _ _ _ _ Hc), matches_parent.
    by rewrite bool_decide_eq_true_2. }
  split_and!; [done..|].
  intros Hle child_data e2. unfold serve. rewrite create_child_run.
  cbn [db]. rewrite Hn.
  destruct (Z.leb_spec 4 (children_of d uid - 1)); [lia|].
  cbn [db sent]. eexists _, _. split; [reflexivity|].
  unfold children_of in *. cbn [children] in *.
  rewrite count_documents_insert by (apply not_elem_of_dom, is_fresh).
  rewrite Hn, matches_parent.
  rewrite bool_decide_eq_true_2; [lia|].
  unfold new_child_doc. by simplify_map_eq.
Qed.

(** X14: deleting the active child.  [delete_child] does not touch the
    account, so its active_child_id still names the deleted child: as long
    as the account is in the post-trial free tier, every question is then
    refused, with 404 for the deleted child and for strangers, and with 402
    Child not active in free version for the other children. *)
Theorem deleting_the_active_child_locks_out (uid : nat) (account : dict)
  (child_id : nat) (child : dict) (e : env) (d : database) :
  children d !! child_id = Some child →
  child !! "parent_id" = Some (PId uid) →
  get (with_id uid account) "active_child_id" PNone = PId child_id →
  ∃ body d',
    serve (delete_child child_id (with_id uid account)) e d = (Ok body, d', [])
    ∧ users d' = users d
    ∧ ∀ request e2 s2,
        db s2 = d' →
        tier_of (with_id uid account) (utc_at e2 (readings s2))
        = Some post_trial_free →
        ∃ x s3,
          ask_question request (with_id uid account) e2 s2 = (Raise x, s3)
          ∧ (x = HTTPException 404 "Child not found"
             ∨ x = HTTPException 402 "Child not active in free version").
Proof.
  intros Hc Hp Hactive. unfold serve.
  rewrite (delete_child_own uid account child_id child e (mk_state d 0 []) Hc Hp).
  cbn [with_db db sent].
  eexists _, _. split; [reflexivity|]. split; [done|].
  intros request e2 s2 Hdb Htier.
  destruct (children (db s2) !! QuestionRequest.child_id request) as [c2|] eqn:Hc2.
  - destruct (decide (c2 !! "parent_id" = Some (PId uid))) as [Hp2|Hp2].
    + assert (Hne : QuestionRequest.child_id request ≠ child_id).
      { intros Heq. rewrite Hdb, Heq in Hc2. cbn in Hc2.
        by rewrite lookup_delete_eq in Hc2. }
      destruct (ask_question_refused uid account request e2 s2 c2
                  "Child not active in free version" Hc2 Hp2 Htier) as [s3 Hrun].
      { unfold inactive_child. rewrite Hactive. cbn [truthy andb].
        rewrite bool_decide_eq_false_2 by congruence. done. }
      eexists _, s3. split; [exact Hrun|by right].
    + eexists _, s2. split; [|by left].
      apply ask_question_foreign. intros c3 Hc3. congruence.
  - eexists _, s2. split; [|by left].
    apply ask_question_foreign. intros c3 Hc3. congruence.
Qed.

(** ** Lists of documents *)

Lemma elem_of_find (c : gmap nat dict) q doc :
  doc ∈ find c q
  ↔ ∃ i d, doc = with_id i d ∧ c !! i = Some d ∧ matches q i d = true.
Proof.
  unfold find. rewrite list_elem_of_fmap. split.
  - intros ([i d] & -> & Hin). apply list_elem_of_filter in Hin as [Hm Hin].
    apply elem_of_map_to_list in Hin. exists i, d. split_and!; [done..|].
    by apply Is_true_true.
  - intros (i & d & -> & Hc & Hm). exists (i, d). split; [done|].
    apply list_elem_of_filter. split; [by apply Is_true_true|].
    by apply elem_of_map_to_list.
Qed.

Lemma length_find (c : gmap nat dict) q :
  Z.of_nat (length (find c q)) = count_documents c q.
Proof.
  unfold find, count_documents. rewrite length_fmap, map_filter_alt.
  rewrite map_size_list_to_map; [done|].
  apply NoDup_fmap_fst.
  - intros i d1 d2 [_ H1]%list_elem_of_filter [_ H2]%list_elem_of_filter.
    apply elem_of_map_to_list in H1, H2. congruence.
  - apply NoDup_filter, NoDup_map_to_list.
Qed.

Lemma with_id_lookup_id i (d : dict) : with_id i d !! "_id" = Some (PId i).
Proof. unfold with_id. by rewrite lookup_insert_eq. Qed.

Lemma NoDup_find_ids (c : gmap nat dict) q :
  NoDup ((λ doc : dict, doc !! "_id") <$> find c q).
Proof.
  unfold find. rewrite <- list_fmap_compose.
  apply NoDup_fmap_2_strong; [|apply NoDup_filter, NoDup_map_to_list].
  intros [i1 d1] [i2 d2] [_ H1]%list_elem_of_filter [_ H2]%list_elem_of_filter.
  unfold compose. cbn [fst snd]. rewrite !with_id_lookup_id. intros [= ->].
  apply elem_of_map_to_list in H1, H2. congruence.
Qed.

Lemma Forall2_elem_of_r {A B} (P : A → B → Prop) l k y :
  Forall2 P l k → y ∈ k → ∃ x, x ∈ l ∧ P x y.
Proof.
  induction 1 as [|x y' l k Hxy _ IH]; [by intros ?%elem_of_nil|].
  intros [->|Hin]%elem_of_cons.
  - exists x. split; [left|done].
  - destruct (IH Hin) as (x' & ? & ?). exists x'. split; [by right|done].
Qed.

Lemma Forall2_elem_of_l {A B} (P : A → B → Prop) l k x :
  Forall2 P l k → x ∈ l → ∃ y, y ∈ k ∧ P x y.
Proof.
  induction 1 as [|x' y l k Hxy _ IH]; [by intros ?%elem_of_nil|].
  intros [->|Hin]%elem_of_cons.
  - exists y. split; [left|done].
  - destruct (IH Hin) as (y' & ? & ?). exists y'. split; [by right|done].
Qed.

Lemma elem_of_take {A} (l : list A) n x : x ∈ take n l → x ∈ l.
Proof.
  revert n. induction l as [|y l IH]; intros [|n]; cbn; try by intros ?%elem_of_nil.
  intros [->|H]%elem_of_cons; [left|right; eauto].
Qed.

Section MapM.
Context {A B : Type} (f : A → M B).

Lemma mapM_nil e s : mapM f [] e s = (Ok [], s).
Proof. reflexivity. Qed.

Lemma mapM_cons x l e s :
  mapM f (x :: l) e s =
  match f x e s with
  | (Ok y, s1) =>
      match mapM f l e s1 with
      | (Ok k, s2) => (Ok (y :: k), s2)
      | (Raise z, s2) => (Raise z, s2)
      end
  | (Raise z, s1) => (Raise z, s1)
  end.
Proof.
  cbn [mapM]. rewrite bind_eq. destruct (f x e s) as [[y|z] s1]; [|done].
  rewrite bind_eq. by destruct (mapM f l e s1) as [[k|z] s2].
Qed.

(** What a loop returns: one result for each element, in order. *)
Lemma mapM_Ok l e s out s' :
  mapM f l e s = (Ok out, s') →
  Forall2 (λ x y, ∃ s1 s2, f x e s1 = (Ok y, s2)) l out.
Proof.
  revert s out. induction l as [|x l IH]; intros s out.
  - rewrite mapM_nil. intros [= <- <-]. constructor.
  - rewrite mapM_cons. destruct (f x e s) as [[y|z] s1] eqn:Hx; [|done].
    destruct (mapM f l e s1) as [[k|z] s2] eqn:Hl; [|done].
    intros [= <- <-]. constructor; eauto.
Qed.

(** A loop whose body leaves the database and the provider alone does so
    too. *)
Lemma mapM_frame l e s r s' :
  (∀ x s1 r1 s2, f x e s1 = (r1, s2) → db s2 = db s1 ∧ sent s2 = sent s1) →
  mapM f l e s = (r, s') →
  db s' = db s ∧ sent s' = sent s.
Proof.
  intros Hf. revert s r. induction l as [|x l IH]; intros s r.
  - rewrite mapM_nil. by intros [= <- <-].
  - rewrite mapM_cons. destruct (f x e s) as [[y|z] s1] eqn:Hx.
    + destruct (mapM f l e s1) as [[k|z] s2] eqn:Hl;
        intros [= <- <-]; apply IH in Hl as [-> ->]; by apply Hf in Hx.
    + intros [= <- <-]. by apply Hf in Hx.
Qed.

End MapM.

(** ** The list of children *)

Lemma child_entry_frame user_id child e s r s' :
  child_entry user_id child e s = (r, s') →
  db s' = db s ∧ sent s' = sent s.
Proof.
  intros H. unfold child_entry in H. munfold_all_in H. mcases H.
  all: by injection H as <- <-.
Qed.

Lemma child_entry_Ok user_id child e s item s' :
  child_entry user_id child e s = (Ok item, s') →
  item !! "id" = child !! "_id"
  ∧ item !! "name" = child !! "name"
  ∧ item !! "gender" = child !! "gender"
  ∧ item !! "birth_month" = child !! "birth_month"
  ∧ item !! "birth_year" = child !! "birth_year"
  ∧ item !! "complexity_level" = Some (get child "complexity_level" (PInt 0))
  ∧ item !! "parent_id" = Some user_id.
Proof.
  intros H. unfold child_entry in H. munfold_all_in H. mcases H.
  repeat match goal with
         | Hg : getitem _ _ = Ok _ |- _ => apply getitem_Ok in Hg
         end.
  injection H as <- <-. split_and!; by simplify_map_eq.
Qed.

(** X15: the list of children.  [get_children] changes nothing and sends
    nothing; it lists at most 4 entries, all of different children, each the
    entry of a stored child of the account with its name and level; an
    account within the limit of 4 gets all of its children. *)
Theorem get_children_lists_own_children (uid : nat) (account : dict) (e : env)
  (s : state) :
  let '(r, s') := get_children (with_id uid account) e s in
  db s' = db s ∧ sent s' = sent s
  ∧ match r with
    | Raise _ => True
    | Ok items =>
        (length items ≤ 4)%nat
        ∧ NoDup ((λ item : dict, item !! "id") <$> items)
        ∧ Forall (λ item : dict,
              ∃ i child,
                item !! "id" = Some (PId i)
                ∧ children (db s) !! i = Some child
                ∧ child !! "parent_id" = Some (PId uid)
                ∧ item !! "name" = child !! "name"
                ∧ item !! "complexity_level"
                  = Some (get child "complexity_level" (PInt 0))
                ∧ item !! "parent_id" = Some (PId uid)) items
        ∧ (children_of (db s) uid ≤ 4 →
           ∀ i child,
             children (db s) !! i = Some child →
             child !! "parent_id" = Some (PId uid) →
             ∃ item, item ∈ items ∧ item !! "id" = Some (PId i))
    end.
Proof.
  destruct (get_children _ e s) as [r s'] eqn:H.
  unfold get_children in H.
  rewrite bind_eq, lift_eq, getitem_with_id, bind_eq in H.
  unfold db_find in H. cbn [coll] in H.
  set (found := find (children (db s)) [("parent_id", Eq (PId uid))]) in H.
  pose proof (mapM_frame _ _ _ _ _ _
                (λ x s1 r1 s2, child_entry_frame (PId uid) x e s1 r1 s2) H)
    as [Hdb Hsent].
  split_and!; [done|done|].
  destruct r as [items|x]; [|done].
  apply mapM_Ok in H.
  assert (Hitems : Forall2 (λ (doc item : dict),
                      item !! "id" = doc !! "_id"
                      ∧ item !! "name" = doc !! "name"
                      ∧ item !! "complexity_level"
                        = Some (get doc "complexity_level" (PInt 0))
                      ∧ item !! "parent_id" = Some (PId uid))
                    (take 4 found) items).
  { eapply Forall2_impl; [exact H|]. intros doc item (s1 & s2 & Hrun).
    by apply child_entry_Ok in Hrun as (? & ? & _ & _ & _ & ? & ?). }
  clear H. split_and!.
  - rewrite <- (Forall2_length _ _ _ Hitems), length_take. lia.
  - assert (Hids : (λ item : dict, item !! "id") <$> items
                   = (λ doc : dict, doc !! "_id") <$> take 4 found).
    { clear -Hitems. induction Hitems as [|doc item l k (Hid & _) _ IH]; [done|].
      cbn. by rewrite Hid, IH. }
    rewrite Hids, fmap_take.
    eapply sublist_NoDup; [apply NoDup_find_ids|apply sublist_take].
  - apply Forall_forall. intros item Hin.
    destruct (Forall2_elem_of_r _ _ _ _ Hitems Hin)
      as (doc & Hdoc & Hid & Hname & Hlevel & Hparent).
    apply elem_of_take, elem_of_find in Hdoc as (i & child & -> & Hc & Hm).
    rewrite matches_parent in Hm. apply bool_decide_eq_true_1 in Hm.
    exists i, child. rewrite Hid, Hname, Hlevel, with_id_lookup_id.
    rewrite lookup_with_id_ne, get_with_id_ne by done. done.
  - intros Hle i child Hc Hp.
    assert (Hall : take 4 found = found).
    { apply take_ge. pose proof (length_find (children (db s))
                                   [("parent_id", Eq (PId uid))]) as Hlen.
      fold found in Hlen. unfold children_of in Hle. lia. }
    rewrite Hall in Hitems.
    assert (Hin : with_id i child ∈ found).
    { apply elem_of_find. exists i, child. split_and!; [done..|].
      by rewrite matches_parent, bool_decide_eq_true_2. }
    destruct (Forall2_elem_of_l _ _ _ _ Hitems Hin) as (item & Hitem & Hid & _).
    exists item. split; [done|]. by rewrite Hid, with_id_lookup_id.
Qed.

(** ** The order of BSON values *)

Lemma string_compare_trans (a b c : string) :
  String.compare a b ≠ Gt → String.compare b c ≠ Gt → String.compare a c ≠ Gt.
Proof.
  revert b c. induction a as [|x a IH]; intros [|y b] [|z c]; cbn; try done.
  unfold Ascii.compare.
  destruct (N.compare_spec (Ascii.N_of_ascii x) (Ascii.N_of_ascii y)) as [Hxy|Hxy|Hxy];
    destruct (N.compare_spec (Ascii.N_of_ascii y) (Ascii.N_of_ascii z)) as [Hyz|Hyz|Hyz];
    destruct (N.compare_spec (Ascii.N_of_ascii x) (Ascii.N_of_ascii z)) as [Hxz|Hxz|Hxz];
    try done; try lia; eauto.
Qed.

Lemma string_leb_trans (a b c : string) :
  String.leb a b = true → String.leb b c = true → String.leb a c = true.
Proof.
  unfold String.leb. intros H1 H2.
  pose proof (string_compare_trans a b c) as H.
  destruct (String.compare a b), (String.compare b c), (String.compare a c);
    try done; exfalso; by apply H.
Qed.

Lemma bson_leb_trans a b c :
  bson_leb a b = true → bson_leb b c = true → bson_leb a c = true.
Proof.
  destruct a as [[]|], b as [[]|], c as [[]|]; cbn; try done.
  - destruct b0, b1, b; done.
  - intros H1%Z.leb_le H2%Z.leb_le. apply Z.leb_le. lia.
  - apply string_leb_trans.
  - unfold dt_leb. intros H1%Z.leb_le H2%Z.leb_le. apply Z.leb_le. lia.
  - intros H1%Nat.leb_le H2%Nat.leb_le. apply Nat.leb_le. lia.
Qed.

Lemma bson_leb_total a b : bson_leb a b = true ∨ bson_leb b a = true.
Proof.
  destruct a as [[]|], b as [[]|]; cbn; try (by left); try (by right).
  - destruct b0, b; auto.
  - destruct (Z.leb_spec n n0); [by left|right; apply Z.leb_le; lia].
  - apply String.leb_total.
  - unfold dt_leb. destruct (Z.leb_spec (micros d) (micros d0));
      [by left|right; apply Z.leb_le; lia].
  - destruct (Nat.leb_spec i i0); [by left|right; apply Nat.leb_le; lia].
Qed.

#[local] Instance descending_trans k : Transitive (descending k).
Proof.
  intros a b c. unfold descending. rewrite !Is_true_true.
  intros H1 H2. by eapply bson_leb_trans.
Qed.

#[local] Instance descending_total k : Total (descending k).
Proof.
  intros a b. unfold descending. rewrite !Is_true_true. apply bson_leb_total.
Qed.

(** ** The responses of a child *)

Lemma response_entry_frame response e s r s' :
  response_entry response e s = (r, s') → db s' = db s ∧ sent s' = sent s.
Proof.
  intros H. unfold response_entry in H. munfold_in H. mcases H.
  all: by injection H as <- <-.
Qed.

Lemma response_entry_Ok response e s item s' :
  response_entry response e s = (Ok item, s') →
  item !! "id" = response !! "_id"
  ∧ item !! "question" = response !! "question"
  ∧ item !! "answer" = response !! "answer"
  ∧ item !! "created_at" = response !! "created_at"
  ∧ item !! "feedback" = Some (get response "feedback" PNone).
Proof.
  intros H. unfold response_entry in H. munfold_in H. mcases H.
  repeat match goal with
         | Hg : getitem _ _ = Ok _ |- _ => apply getitem_Ok in Hg
         end.
  injection H as <- <-. split_and!; by simplify_map_eq.
Qed.

Lemma StronglySorted_Forall2 {A B} (R : relation A) (R' : relation B)
  (P : A → B → Prop) l k :
  (∀ x1 x2 y1 y2, P x1 y1 → P x2 y2 → R x1 x2 → R' y1 y2) →
  Forall2 P l k → StronglySorted R l → StronglySorted R' k.
Proof.
  intros HR. induction 1 as [|x y l k Hxy Hlk IH]; [constructor|].
  intros [Hs Hx]%StronglySorted_inv. constructor; [by apply IH|].
  apply Forall_forall. intros y' Hy'.
  destruct (Forall2_elem_of_r _ _ _ _ Hlk Hy') as (x' & Hx' & Hp).
  eapply HR; [exact Hxy|exact Hp|]. by eapply Forall_forall in Hx.
Qed.

(** X16: the history of a child.  [get_child_responses] changes nothing
    and sends nothing; it lists at most 20 entries, the newest first, each
    the entry of a stored response of this child and this account; a
    response of the child that is not listed is left out only because 20
    are, none of which is older than it. *)
Theorem get_child_responses_newest_first (uid : nat) (account : dict)
  (child_id : nat) (e : env) (s : state) :
  let '(r, s') := get_child_responses child_id (with_id uid account) e s in
  db s' = db s ∧ sent s' = sent s
  ∧ match r with
    | Raise _ => True
    | Ok items =>
        (length items ≤ 20)%nat
        ∧ StronglySorted (descending "created_at") items
        ∧ Forall (λ item : dict,
              ∃ i response,
                item !! "id" = Some (PId i)
                ∧ responses (db s) !! i = Some response
                ∧ response !! "child_id" = Some (PId child_id)
                ∧ response !! "parent_id" = Some (PId uid)
                ∧ item !! "question" = response !! "question"
                ∧ item !! "answer" = response !! "answer"
                ∧ item !! "created_at" = response !! "created_at") items
        ∧ ∀ i response,
            responses (db s) !! i = Some response →
            response !! "child_id" = Some (PId child_id) →
            response !! "parent_id" = Some (PId uid) →
            (∃ item, item ∈ items ∧ item !! "id" = Some (PId i))
            ∨ (length items = 20%nat
               ∧ Forall (λ item : dict,
                     Is_true (bson_leb (response !! "created_at")
                                (item !! "created_at"))) items)
    end.
Proof.
  destruct (get_child_responses _ _ e s) as [r s'] eqn:H.
  unfold get_child_responses in H.
  rewrite bind_eq, lift_eq, getitem_with_id, bind_eq in H.
  unfold db_find in H. cbn [coll] in H.
  set (q := [("child_id", Eq (PId child_id)); ("parent_id", Eq (PId uid))]) in H.
  set (found := find (responses (db s)) q) in H.
  set (sorted := sort_descending "created_at" found) in H.
  pose proof (mapM_frame _ _ _ _ _ _
                (λ x s1 r1 s2, response_entry_frame x e s1 r1 s2) H)
    as [Hdb Hsent].
  split_and!; [done|done|].
  destruct r as [items|x]; [|done].
  apply mapM_Ok in H.
  assert (Hitems : Forall2 (λ (doc item : dict),
                      item !! "id" = doc !! "_id"
                      ∧ item !! "question" = doc !! "question"
                      ∧ item !! "answer" = doc !! "answer"
                      ∧ item !! "created_at" = doc !! "created_at")
                    (take 20 sorted) items).
  { eapply Forall2_impl; [exact H|]. intros doc item (s1 & s2 & Hrun).
    by apply response_entry_Ok in Hrun as (? & ? & ? & ? & _). }
  clear H.
  assert (Hsorted : StronglySorted (descending "created_at") sorted)
    by (apply StronglySorted_merge_sort; apply _).
  assert (Hperm : sorted ≡ₚ found) by apply merge_sort_Permutation.
  assert (Hq : ∀ i (r : dict),
             matches q i r = true
             ↔ r !! "child_id" = Some (PId child_id)
               ∧ r !! "parent_id" = Some (PId uid)).
  { intros i r. unfold matches, q. cbn [forallb fst snd holds].
    rewrite !lookup_with_id_ne by done.
    rewrite andb_true_r, andb_true_iff.
    destruct (r !! "child_id") as [v1|], (r !! "parent_id") as [v2|];
      rewrite ?bool_decide_eq_true; intuition congruence. }
  rewrite <- (take_drop 20 sorted) in Hsorted.
  split_and!.
  - rewrite <- (Forall2_length _ _ _ Hitems), length_take. lia.
  - eapply StronglySorted_Forall2;
      [|exact Hitems|by eapply StronglySorted_app_1_l].
    intros x1 x2 y1 y2 (_ & _ & _ & H1) (_ & _ & _ & H2).
    unfold descending. by rewrite H1, H2.
  - apply Forall_forall. intros item Hin.
    destruct (Forall2_elem_of_r _ _ _ _ Hitems Hin)
      as (doc & Hdoc & Hid & Hquestion & Hanswer & Hcreated).
    apply elem_of_take in Hdoc. rewrite Hperm in Hdoc.
    apply elem_of_find in Hdoc as (i & r & -> & Hr & Hm).
    apply Hq in Hm as [Hc Hp].
    exists i, r. rewrite Hid, Hquestion, Hanswer, Hcreated, with_id_lookup_id.
    by rewrite !lookup_with_id_ne by done.
  - intros i r Hr Hc Hp.
    assert (Hin : with_id i r ∈ sorted).
    { rewrite Hperm. apply elem_of_find. exists i, r. split_and!; [done..|].
      by apply Hq. }
    rewrite <- (take_drop 20 sorted) in Hin.
    apply elem_of_app in Hin as [Hin|Hin].
    + left. destruct (Forall2_elem_of_l _ _ _ _ Hitems Hin)
        as (item & Hitem & Hid & _).
      exists item. split; [done|]. by rewrite Hid, with_id_lookup_id.
    + right. split.
      * rewrite <- (Forall2_length _ _ _ Hitems), length_take.
        assert (length sorted ≤ 20 → False)%nat; [|lia].
        intros Hle. rewrite drop_ge in Hin by done. by apply elem_of_nil in Hin.
      * apply Forall_forall. intros item Hitem.
        destruct (Forall2_elem_of_r _ _ _ _ Hitems Hitem)
          as (doc & Hdoc & _ & _ & _ & Hcreated).
        pose proof (StronglySorted_app_1_elem_of _ _ _ _ _ Hsorted Hdoc Hin)
          as Hrel.
        unfold descending in Hrel.
        by rewrite lookup_with_id_ne, <- Hcreated in Hrel by done.
Qed.

(** ** The active child and the subscription *)

Lemma as_user_found {A} uid account (handler : dict → M A) e s :
  users (db s) !! uid = Some account →
  as_user uid handler e s = handler (with_id uid account) e s.
Proof.
  intros Hu. unfold as_user, get_current_user.
  rewrite !bind_eq. unfold db_find_one. cbn [coll].
  by rewrite (find_one_lookup _ _ _ _ Hu).
Qed.

Lemma as_user_unknown {A} uid (handler : dict → M A) e s :
  users (db s) !! uid = None →
  as_user uid handler e s = (Raise (HTTPException 401 "User not found"), s).
Proof.
  intros Hu. unfold as_user, get_current_user.
  rewrite !bind_eq. unfold db_find_one, find_one. cbn [coll].
  by rewrite Hu.
Qed.

Lemma select_active_child_own uid account cid child e s :
  children (db s) !! cid = Some child →
  child !! "parent_id" = Some (PId uid) →
  select_active_child cid (with_id uid account) e s
  = (Ok (list_to_map [ ("message", PStr "Active child selected");
                       ("active_child_id", PId cid) ]),
     with_db (mk_database
                (update_one_set (users (db s)) uid [("active_child_id", PId cid)])
                (children (db s)) (responses (db s))) s).
Proof.
  intros Hc Hp. unfold select_active_child.
  rewrite bind_eq, lift_eq, getitem_with_id. munfold.
  by rewrite (find_one_own _ _ _ _ Hc Hp).
Qed.

(** X17: the active child can be chosen again.  [select_active_child] on a
    child of the account stores this child as the active one, whatever child
    was active before and in whatever tier, and changes nothing else.  From
    then on this child alone is active: in the post-trial free tier a
    question for another child of the account is refused with 402 Child not
    active in free version. *)
Theorem active_child_can_be_switched (uid : nat) (account : dict)
  (child_id : nat) (child : dict) (e : env) (d : database) :
  users d !! uid = Some account →
  children d !! child_id = Some child →
  child !! "parent_id" = Some (PId uid) →
  let account' := <["active_child_id" := PId child_id]> account in
  ∃ body d',
    serve (as_user uid (select_active_child child_id)) e d = (Ok body, d', [])
    ∧ users d' = <[uid := account']> (users d)
    ∧ children d' = children d
    ∧ responses d' = responses d
    ∧ (∀ c, inactive_child (with_id uid account') c
            = negb (bool_decide (c = child_id)))
    ∧ ∀ request other e2 s2,
        db s2 = d' →
        QuestionRequest.child_id request ≠ child_id →
        children d !! QuestionRequest.child_id request = Some other →
        other !! "parent_id" = Some (PId uid) →
        tier_of (with_id uid account') (utc_at e2 (readings s2))
        = Some post_trial_free →
        ∃ s3,
          ask_question request (with_id uid account') e2 s2
          = (Raise (HTTPException 402 "Child not active in free version"), s3).
Proof.
  intros Hu Hc Hp account'. unfold serve.
  rewrite (as_user_found uid account) by done.
  rewrite (select_active_child_own uid account child_id child e
             (mk_state d 0 []) Hc Hp).
  cbn [with_db db sent users children responses].
  assert (Hin : ∀ c, inactive_child (with_id uid account') c
                     = negb (bool_decide (c = child_id))).
  { intros c. unfold inactive_child, account'.
    rewrite get_with_id_ne by done. unfold get. rewrite lookup_insert_eq.
    cbn [truthy andb]. f_equal. apply bool_decide_ext. split; congruence. }
  eexists _, _. split; [reflexivity|]. cbn [users children responses].
  split_and!; [|done|done|done|].
  - by rewrite (update_one_set_present _ _ _ _ _ Hu).
  - intros request other e2 s2 Hdb Hne Hother Hpo Htier.
    eapply ask_question_refused; [|exact Hpo|exact Htier|].
    + by rewrite Hdb.
    + rewrite Hin. by rewrite bool_decide_eq_false_2.
Qed.

Lemma update_one_set_found (c : gmap nat dict) i doc fields :
  c !! i = Some doc →
  update_one_set c i fields = <[i := set_fields fields doc]> c.
Proof.
  intros H. unfold update_one_set. apply map_eq. intros j.
  destruct (decide (j = i)) as [->|Hne].
  - by rewrite lookup_alter_eq, lookup_insert_eq, H.
  - by rewrite lookup_alter_ne, lookup_insert_ne.
Qed.

Lemma submit_feedback_402 uid account rid fb e s detail s' :
  submit_feedback rid fb (with_id uid account) e s
  = (Raise (HTTPException 402 detail), s') →
  truthy (get (with_id uid account) "is_premium" (PBool false)) = false.
Proof.
  intros H. unfold submit_feedback in H.
  rewrite bind_eq, lift_eq, getitem_with_id in H. rewrite bind_eq in H.
  destruct (truthy (get (with_id uid account) "is_premium" (PBool false)));
    [exfalso|done].
  destruct (is_trial_active_cases
              (get (with_id uid account) "trial_end_date" PNone) e s)
    as [(d & _ & Ha)|[(_ & Ha)|(_ & _ & Ha)]]; rewrite Ha in H; clear Ha.
  3: discriminate H.
  all: cbn [negb andb] in H; munfold_in H; mcases H; raised; discriminate H.
Qed.

Lemma subscribed_is_premium uid account subscription_type transaction_id end_date :
  truthy (get (with_id uid
                 (set_fields
                    (subscription_fields subscription_type transaction_id end_date)
                    account)) "is_premium" (PBool false)) = true.
Proof. rewrite get_with_id_ne by done. unfold get. by simplify_map_eq. Qed.

(** X18: a subscription does not end.  [subscribe_premium] sends nothing
    and changes only the account, and only for the types monthly and annual.
    It sets is_premium and clears the active child; since no handler reads
    subscription_end_date, the account is then premium at every time, and
    neither [ask_question] nor [submit_feedback] refuses it with 402. *)
Theorem subscription_never_expires (uid : nat) (subscription_type
  transaction_id : string) (e : env) (d : database) :
  let '(r, d', calls) :=
    serve (as_user uid (subscribe_premium subscription_type transaction_id)) e d in
  calls = []
  ∧ children d' = children d
  ∧ responses d' = responses d
  ∧ match r with
    | Raise _ => d' = d
    | Ok body =>
        ∃ account end_date,
          let account' :=
            set_fields
              (subscription_fields subscription_type transaction_id end_date)
              account in
          users d !! uid = Some account
          ∧ subscription_type ∈ ["monthly"; "annual"]
          ∧ users d' = <[uid := account']> (users d)
          ∧ account' !! "active_child_id" = Some PNone
          ∧ (∀ t, tier_of (with_id uid account') t = Some premium)
          ∧ (∀ request e2 s2 detail s3,
                ask_question request (with_id uid account') e2 s2
                ≠ (Raise (HTTPException 402 detail), s3))
          ∧ (∀ response_id feedback e2 s2 detail s3,
                submit_feedback response_id feedback (with_id uid account') e2 s2
                ≠ (Raise (HTTPException 402 detail), s3))
    end.
Proof.
  unfold serve.
  destruct (users d !! uid) as [account|] eqn:Hu.
  2: { by rewrite as_user_unknown. }
  rewrite (as_user_found uid account) by done.
  unfold subscribe_premium. rewrite bind_eq, lift_eq, getitem_with_id.
  destruct (bool_decide (subscription_type ∈ ["monthly"; "annual"])) eqn:Hty;
    cbn [negb]; [|by rewrite raise_eq].
  apply bool_decide_eq_true_1 in Hty.
  munfold. cbn [as_id].
  destruct (dt_add _ _) as [end_date|x]; [|done].
  cbn [db sent users children responses]. split_and!; [done..|].
  exists account, end_date. cbv zeta.
  pose proof (subscribed_is_premium uid account subscription_type
                transaction_id end_date) as Hprem.
  split_and!; [done|done| | |..].
  - by apply update_one_set_found.
  - by unfold subscription_fields; simplify_map_eq.
  - intros t. unfold tier_of. by rewrite Hprem.
  - intros request e2 s2 detail s3 H.
    apply ask_question_402 in H as (_ & _ & _ & H & _).
    unfold tier_of in H. by rewrite Hprem in H.
  - intros response_id feedback e2 s2 detail s3 H.
    apply submit_feedback_402 in H. congruence.
Qed.

(** ** The status *)

Ltac munfold_status_in H :=
  cbv beta iota zeta delta
    [mbind M_bind mret M_ret lift raise try_except utcnow now
     client_configured db_find_one db_count_documents db_insert_one
     db_update_one_set db_update_one_inc is_trial_active] in H;
  cbn [db readings sent with_db coll set_coll users children responses] in H.

(** X19: what the status counts.  On a database whose responses were
    stored by [ask_question], [get_monetization_status] reports
    questions_this_month = questions_asked = 0 and never the popup
    monthly_limit, whatever the account has asked; it changes nothing, and
    raises only the TypeError of a trial_end_date that is not a date. *)
Theorem status_counts_no_question (uid : nat) (account : dict) (e : env)
  (s : state) :
  responses_by_ask (db s) →
  let '(r, s') := get_monetization_status (with_id uid account) e s in
  db s' = db s ∧ sent s' = sent s
  ∧ match r with
    | Raise x => x = TypeError
    | Ok body =>
        body !! "questions_this_month" = Some (PInt 0)
        ∧ body !! "questions_asked" = Some (PInt 0)
        ∧ body !! "popup_frequency" ≠ Some (PStr "monthly_limit")
    end.
Proof.
  intros Hd.
  destruct (get_monetization_status _ e s) as [r s'] eqn:H.
  unfold get_monetization_status in H.
  rewrite bind_eq, lift_eq, getitem_with_id in H.
  munfold_status_in H.
  mcases H.
  all: rewrite ?questions_this_month_zero in H by done.
  all: injection H as <- <-; cbn [db sent].
  all: split_and!; try done; try (by simplify_map_eq).
  all: rewrite lookup_insert_ne, lookup_insert_ne, lookup_insert_ne,
         lookup_insert_ne, lookup_insert_eq by done.
  all: by repeat case_match.
Qed.

(** X20: the last day of the trial.  For an account that is not premium and
    has no active child, with less than a day of trial left, the status
    reports trial_days_left = 0 and with it is_post_trial_setup_required and
    the popup child_selection, although the trial is running and no
    question is refused with 402. *)
Theorem last_trial_day_asks_for_a_child (uid : nat) (account : dict) (e : env)
  (s : state) (trial_end : datetime) :
  let current_user := with_id uid account in
  get current_user "trial_end_date" PNone = PDate trial_end →
  truthy (get current_user "is_premium" (PBool false)) = false →
  truthy (get current_user "active_child_id" PNone) = false →
  (∀ k, 0 < micros trial_end - micros (utc_at e k) < day_us) →
  (∃ body s',
      get_monetization_status current_user e s = (Ok body, s')
      ∧ body !! "trial_days_left" = Some (PInt 0)
      ∧ body !! "is_post_trial_setup_required" = Some (PBool true)
      ∧ body !! "popup_frequency" = Some (PStr "child_selection"))
  ∧ (∀ k, tier_of current_user (utc_at e k) = Some trial)
  ∧ ∀ request s2 detail s3,
      ask_question request current_user e s2
      ≠ (Raise (HTTPException 402 detail), s3).
Proof.
  intros current_user Hend Hprem Hactive Hclock. subst current_user.
  assert (Htier : ∀ k, tier_of (with_id uid account) (utc_at e k) = Some trial).
  { intros k. unfold tier_of. rewrite Hprem, Hend. unfold dt_ltb.
    specialize (Hclock k). by rewrite (proj2 (Z.ltb_lt _ _)) by lia. }
  split_and!; [|done|].
  - unfold get_monetization_status, is_trial_active.
    rewrite Hend. rewrite bind_eq, lift_eq, getitem_with_id.
    cbn [truthy].
    cbv beta iota zeta delta
      [mbind M_bind mret M_ret lift raise utcnow db_count_documents].
    cbn [db readings sent].
    assert (Hlt : ∀ k, dt_ltb (utc_at e k) trial_end = true).
    { intros k. unfold dt_ltb. specialize (Hclock k). apply Z.ltb_lt. lia. }
    rewrite Hlt, dt_sub_days. cbv beta iota. cbn [db readings sent coll].
    rewrite Z.div_small by (specialize (Hclock (S (S (readings s)))); lia).
    eexists _, _. split; [reflexivity|].
    rewrite Hprem, Hactive. cbn [negb andb Z.leb Z.compare].
    split_and!; by simplify_map_eq.
  - intros request s2 detail s3 H.
    apply ask_question_402 in H as (_ & _ & _ & H & _).
    by rewrite Htier in H.
Qed.

(** ** The level after a feedback *)

Lemma get_child_complexity_Ok child_id uid account e s info s' :
  get_child_complexity child_id (with_id uid account) e s = (Ok info, s') →
  ∃ child,
    children (db s) !! child_id = Some child
    ∧ child !! "parent_id" = Some (PId uid)
    ∧ info_child_id info = child_id
    ∧ info_complexity_level info = get child "complexity_level" (PInt 0)
    ∧ child !! "name" = Some (info_name info)
    ∧ db s' = db s ∧ sent s' = sent s.
Proof.
  intros H. unfold get_child_complexity in H.
  rewrite bind_eq, lift_eq, getitem_with_id in H.
  munfold_all_in H. mcases H.
  apply find_one_Some in Heqo as (child & Hc & -> & Hm).
  rewrite matches_parent in Hm. apply bool_decide_eq_true_1 in Hm.
  repeat match goal with
         | Hg : getitem (with_id _ _) _ = Ok _ |- _ =>
             apply getitem_Ok in Hg; rewrite lookup_with_id_ne in Hg by done
         end.
  injection H as <- <-. exists child. cbn.
  rewrite get_with_id_ne by done. by split_and!.
Qed.

(** X21: the level a feedback stores is the level the child then has.
    After an accepted feedback too_complex or need_more_details, the level
    of the child of the response is the former level moved by one step and
    clamped to -2..2, and this is the level [get_child_complexity] reports
    to the account. *)
Theorem feedback_moves_the_reported_level (uid : nat) (account : dict)
  (response_id : nat) (feedback : feedback_kind) (e : env) (d : database) :
  feedback ≠ understood →
  let '(r, d', calls) :=
    serve (submit_feedback response_id feedback (with_id uid account)) e d in
  match r with
  | Raise _ => True
  | Ok body =>
      ∃ child_id level,
        responses d !! response_id ≫= (.!! "child_id") = Some (PId child_id)
        ∧ (λ child, as_int (get child "complexity_level" (PInt 0)))
            <$> children d !! child_id = Some (Ok level)
        ∧ level_of d' child_id
          = Some (PInt (clamp (level + complexity_change feedback) (-2) 2))
        ∧ ∀ e2 s2 info s3,
            db s2 = d' →
            get_child_complexity child_id (with_id uid account) e2 s2
            = (Ok info, s3) →
            info_complexity_level info
            = PInt (clamp (level + complexity_change feedback) (-2) 2)
  end.
Proof.
  intros Hfb.
  destruct (serve _ e d) as [[[body|x] d'] calls] eqn:Hs; [|done].
  apply serve_eq in Hs as (s' & H & <- & <-).
  apply submit_feedback_inv in H
    as [(x & [=] & _)
       |(rdoc & cid & child & s1 & child1 & Hr & Hcid & Hc & Hs1 & Hu & [t Hre]
         & Hch & Hreg)].
  destruct Hch as [(-> & _)|(_ & n & Hn & Hch & ->)]; [done|].
  cbn [db sent] in Hr, Hc, Hch.
  assert (Hfinal : children (db s') = children (db s1)).
  { destruct (regenerate feedback).
    - destruct (regenerate_response _ _ _ _ e s1) as [r2 s2] eqn:Hrun.
      apply regenerate_response_frame in Hrun as (_ & Hc2 & _);
        [|by rewrite lookup_with_id_ne, Hcid by done].
      by destruct r2; destruct Hreg as [_ ->].
    - by destruct Hreg as [_ ->]. }
  rewrite (update_one_set_present _ _ _ _ _ Hc) in Hch.
  assert (Hlevel : level_of (db s') cid
                   = Some (PInt (clamp (n + complexity_change feedback) (-2) 2))).
  { unfold level_of. rewrite Hfinal, Hch, lookup_insert_eq. cbn.
    unfold get. by rewrite lookup_insert_eq. }
  exists cid, n. split_and!.
  - by rewrite Hr.
  - by rewrite Hc; cbn; rewrite Hn.
  - done.
  - intros e2 s2 info s3 Hdb Hrun.
    apply get_child_complexity_Ok in Hrun as (c2 & Hc2 & _ & _ & -> & _).
    unfold level_of in Hlevel. rewrite <- Hdb, Hc2 in Hlevel. cbn in Hlevel.
    by injection Hlevel.
Qed.

(** ** Accounts *)

Lemma matches_email em i (u : dict) :
  matches [("email", Eq (PStr em))] i u
  = bool_decide (u !! "email" = Some (PStr em)).
Proof.
  unfold matches. cbn [forallb fst snd]. rewrite lookup_with_id_ne by done.
  rewrite andb_true_r. destruct (u !! "email") as [v|]; cbn [holds].
  - apply bool_decide_ext. split; congruence.
  - by rewrite !bool_decide_eq_false_2.
Qed.

Lemma find_first_None (c : gmap nat dict) q :
  find_first c q = None ↔ ∀ i u, c !! i = Some u → matches q i u = false.
Proof.
  unfold find_first. rewrite head_None. split.
  - intros Hnil i u Hu. destruct (matches q i u) eqn:Hm; [|done].
    assert (Hin : with_id i u ∈ find c q) by (apply elem_of_find; eauto).
    rewrite Hnil in Hin. by apply elem_of_nil in Hin.
  - intros Hno. destruct (find c q) as [|doc l] eqn:Hf; [done|].
    assert (Hin : doc ∈ find c q) by (rewrite Hf; left).
    apply elem_of_find in Hin as (i & u & _ & Hu & Hm).
    by rewrite (Hno i u Hu) in Hm.
Qed.

Lemma find_first_Some (c : gmap nat dict) q doc :
  find_first c q = Some doc →
  ∃ i u, doc = with_id i u ∧ c !! i = Some u ∧ matches q i u = true.
Proof.
  unfold find_first. intros H. apply elem_of_find.
  destruct (find c q) as [|x l]; [done|]. injection H as ->. left.
Qed.

Lemma find_first_email d em i u :
  emails_unique d →
  users d !! i = Some u → u !! "email" = Some (PStr em) →
  find_first (users d) [("email", Eq (PStr em))] = Some (with_id i u).
Proof.
  intros Huniq Hu Hem.
  destruct (find_first (users d) [("email", Eq (PStr em))]) as [doc|] eqn:Hf.
  - apply find_first_Some in Hf as (j & v & -> & Hv & Hm).
    rewrite matches_email in Hm. apply bool_decide_eq_true_1 in Hm.
    assert (j = i) as -> by (by eapply Huniq).
    congruence.
  - rewrite find_first_None in Hf. specialize (Hf i u Hu).
    rewrite matches_email, bool_decide_eq_true_2 in Hf; done.
Qed.

Lemma find_first_email_None d em :
  ¬ email_taken d em →
  find_first (users d) [("email", Eq (PStr em))] = None.
Proof.
  intros Hno. apply find_first_None. intros i u Hu.
  rewrite matches_email. apply bool_decide_eq_false_2. intros Hem.
  apply Hno. by exists i, u.
Qed.

Lemma emails_unique_insert d i account :
  emails_unique d → users d !! i = None →
  (∀ em, account !! "email" = Some (PStr em) → ¬ email_taken d em) →
  emails_unique
    (mk_database (<[i := account]> (users d)) (children d) (responses d)).
Proof.
  intros Huniq Hfresh Hnew j1 j2 u1 u2 em. cbn [users].
  destruct (decide (j1 = i)) as [->|H1], (decide (j2 = i)) as [->|H2];
    rewrite ?lookup_insert_eq, ?lookup_insert_ne by done; try done.
  - intros [= <-] Hu2 Hem1 Hem2. exfalso. eapply Hnew; [done|]. by exists j2, u2.
  - intros Hu1 [= <-] Hem1 Hem2. exfalso. eapply Hnew; [done|]. by exists j1, u1.
  - apply Huniq.
Qed.

Lemma find_first_email_free d em :
  find_first (users d) [("email", Eq (PStr em))] = None → ¬ email_taken d em.
Proof.
  rewrite find_first_None. intros Hno (i & u & Hu & Hem).
  specialize (Hno i u Hu). rewrite matches_email in Hno.
  by rewrite bool_decide_eq_true_2 in Hno.
Qed.

Lemma dt_add_Raise t d x :
  dt_add t d = Raise x → x = Exception "date value out of range".
Proof.
  unfold dt_add. destruct (_ && _); [|by intros [= <-]].
  by destruct (fromordinal _) as [[? ?] ?].
Qed.

Lemma dt_add_in_range t d :
  1 ≤ toordinal t ≤ 3652059 - 366 →
  0 ≤ seconds_of_day t < 86400 →
  0 ≤ microsecond t < 1000000 →
  0 ≤ days d ≤ 365 → 0 ≤ seconds d < 86400 → 0 ≤ microseconds d < 1000000 →
  ∃ t', dt_add t d = Ok t'.
Proof.
  intros Ho Hs Hu Hd Hds Hdu. unfold dt_add.
  set (delta := timedelta_of _ _ _).
  assert (0 < days delta ≤ 3652059) as [H1 H2].
  { unfold delta, timedelta_of. cbn [days].
    Z.to_euclidean_division_equations. lia. }
  rewrite (proj2 (Z.ltb_lt _ _) H1), (proj2 (Z.leb_le _ _) H2). cbn [andb].
  destruct (fromordinal (days delta)) as [[y m] dd]. eauto.
Qed.

Section Accounts.

Variable pwd_context_hash : string → string → res string.
Variable pwd_context_verify : string → pyval → res bool.
Variable jwt_encode : Token.t → string.

Ltac unfold_register_in H := unfold register in H.
Ltac unfold_login := unfold login.

#[local] Abbreviation register := (register pwd_context_hash jwt_encode).
#[local] Abbreviation login := (login pwd_context_verify jwt_encode).

Ltac munfold_auth_in H :=
  cbv beta iota zeta delta
    [mbind M_bind mret M_ret lift raise try_except utcnow now
     db_find_one db_count_documents db_insert_one insert_one
     db_update_one_set db_update_one_inc db_find_first
     create_access_token create_refresh_token
     get_password_hash verify_password] in H;
  cbn [db readings sent with_db coll set_coll users children responses] in H.

Lemma register_inv salt user_data e s r s' :
  register salt user_data e s = (r, s') →
  sent s' = sent s
  ∧ children (db s') = children (db s)
  ∧ responses (db s') = responses (db s)
  ∧ ((∃ x, r = Raise x ∧ db s' = db s
           ∧ (email_taken (db s) (UserCreate.email user_data) →
              x = HTTPException 400 "Email already registered"))
     ∨ ¬ email_taken (db s) (UserCreate.email user_data)
       ∧ ∃ hashed trial_end created_at,
           let uid := fresh (dom (users (db s))) in
           let account : dict :=
             list_to_map
               [ ("email", PStr (UserCreate.email user_data));
                 ("password", PStr hashed);
                 ("first_name", PStr (UserCreate.first_name user_data));
                 ("last_name", PStr (UserCreate.last_name user_data));
                 ("is_premium", PBool false);
                 ("trial_end_date", PDate trial_end);
                 ("created_at", PDate created_at);
                 ("questions_asked", PInt 0);
                 ("popup_count", PInt 0) ] in
           pwd_context_hash salt (UserCreate.password user_data) = Ok hashed
           ∧ dt_add (utc_at e (readings s)) (timedelta_of 30 0 0) = Ok trial_end
           ∧ users (db s') = <[uid := account]> (users (db s))
           ∧ match r with
             | Ok body =>
                 body !! "user"
                 = Some (JObj (list_to_map
                      [ ("id", PId uid);
                        ("email", PStr (UserCreate.email user_data));
                        ("first_name", PStr (UserCreate.first_name user_data));
                        ("last_name", PStr (UserCreate.last_name user_data)) ]))
                 ∧ body !! "token_type" = Some (JVal (PStr "bearer"))
             | Raise x => x = Exception "date value out of range"
             end).
Proof.
  intros H. unfold_register_in H. munfold_auth_in H.
  mcases H.
  all: injection H as <- <-; cbn [db readings sent with_db users children responses].
  all: split_and!; [done..|].
  all: try match goal with
       | Hf : find_first _ _ = None |- _ => apply find_first_email_free in Hf
       end.
  all: repeat match goal with
       | Hx : dt_add _ _ = Raise _ |- _ => apply dt_add_Raise in Hx; subst
       end.
  all: try (left; eexists; split_and!; [reflexivity|by destruct (db s)|done]).
  all: right; split; [done|]; do 3 eexists; cbv zeta;
       split_and!; try eassumption; try reflexivity.
  all: by simplify_map_eq.
Qed.

Lemma register_emails_unique salt user_data e s r s' :
  emails_unique (db s) →
  register salt user_data e s = (r, s') →
  emails_unique (db s').
Proof.
  intros Huniq H. apply register_inv in H as (_ & Hch & Hre & H).
  destruct H as [(x & _ & -> & _)|(Hfree & hashed & t1 & t2 & _ & _ & Hu & _)];
    [done|].
  cbv zeta in Hu.
  destruct (db s') as [u c rs]. cbn [users children responses] in *. subst.
  apply emails_unique_insert; [done|apply not_elem_of_dom, is_fresh|].
  intros em Hem. by simplify_map_eq.
Qed.

(** X22: registration keeps the emails apart.  On a database in which no
    two accounts share an email, [register] leaves one: an email that is
    taken is refused with 400 Email already registered and nothing changes;
    otherwise one account is added under a free id, which the body returns,
    with this email, not premium and without an active child.  The children
    and the responses are unchanged and nothing is sent. *)
Theorem register_keeps_emails_unique (salt : string) (user_data : UserCreate.t)
  (e : env) (d : database) :
  emails_unique d →
  let '(r, d', calls) := serve (register salt user_data) e d in
  emails_unique d'
  ∧ calls = []
  ∧ children d' = children d
  ∧ responses d' = responses d
  ∧ (email_taken d (UserCreate.email user_data) →
     r = Raise (HTTPException 400 "Email already registered") ∧ d' = d)
  ∧ ∀ body,
      r = Ok body →
      ∃ uid account,
        users d !! uid = None
        ∧ users d' = <[uid := account]> (users d)
        ∧ account !! "email" = Some (PStr (UserCreate.email user_data))
        ∧ account !! "is_premium" = Some (PBool false)
        ∧ account !! "active_child_id" = None
        ∧ ∃ user, body !! "user" = Some (JObj user)
                  ∧ user !! "id" = Some (PId uid).
Proof.
  intros Huniq.
  destruct (serve _ e d) as [[r d'] calls] eqn:Hs.
  apply serve_eq in Hs as (s' & H & <- & <-).
  pose proof (register_emails_unique _ _ _ (mk_state d 0 []) _ _ Huniq H) as Huniq'.
  apply register_inv in H as (Hsent & Hch & Hre & H). cbn [db sent] in *.
  destruct H as [(x & -> & Hdb & Hx)
                |(Hfree & hashed & trial_end & created_at & Hhash & Hend & Hu & Hr)].
  - rewrite Hdb. split_and!; try done.
    intros Ht. by rewrite (Hx Ht).
  - cbv zeta in Hu, Hr.
    assert (Hfresh : users d !! fresh (dom (users d)) = None)
      by apply not_elem_of_dom, is_fresh.
    split_and!; try done.
    + intros body ->. destruct Hr as [Hbody _].
      eexists _, _. split_and!; [done|exact Hu|..];
        try (by simplify_map_eq).
      eexists. split; [exact Hbody|by simplify_map_eq].
Qed.

Ltac munfold_auth :=
  cbv beta iota zeta delta
    [mbind M_bind mret M_ret lift raise try_except utcnow now
     db_find_one db_count_documents db_insert_one insert_one
     db_update_one_set db_update_one_inc db_find_first
     create_access_token create_refresh_token
     get_password_hash verify_password];
  cbn [db readings sent with_db coll set_coll users children responses].

Lemma login_unknown user_data e s :
  ¬ email_taken (db s) (UserLogin.email user_data) →
  login user_data e s
  = (Raise (HTTPException 401 "Incorrect email or password"), s).
Proof.
  intros Hno. unfold_login. munfold_auth.
  by rewrite find_first_email_None.
Qed.

Lemma login_wrong_password user_data e s i u hashed :
  emails_unique (db s) →
  users (db s) !! i = Some u →
  u !! "email" = Some (PStr (UserLogin.email user_data)) →
  u !! "password" = Some hashed →
  pwd_context_verify (UserLogin.password user_data) hashed = Ok false →
  login user_data e s
  = (Raise (HTTPException 401 "Incorrect email or password"), s).
Proof.
  intros Huniq Hu Hem Hpw Hv. unfold_login. munfold_auth.
  rewrite (find_first_email _ _ _ _ Huniq Hu Hem).
  rewrite (getitem_lookup _ "password" hashed)
    by (by rewrite lookup_with_id_ne).
  by rewrite Hv.
Qed.

(** X23: a refused login does not tell which part was wrong.  An email that
    no account has and a wrong password for an existing account get the
    same answer, 401 Incorrect email or password, and change nothing. *)
Theorem login_hides_which_part_is_wrong (unknown wrong : UserLogin.t) (e : env)
  (d : database) (i : nat) (u : dict) (hashed : pyval) :
  emails_unique d →
  ¬ email_taken d (UserLogin.email unknown) →
  users d !! i = Some u →
  u !! "email" = Some (PStr (UserLogin.email wrong)) →
  u !! "password" = Some hashed →
  pwd_context_verify (UserLogin.password wrong) hashed = Ok false →
  serve (login unknown) e d = serve (login wrong) e d
  ∧ serve (login wrong) e d
    = (Raise (HTTPException 401 "Incorrect email or password"), d, []).
Proof.
  intros Huniq Hno Hu Hem Hpw Hv. unfold serve.
  rewrite login_unknown by done.
  by rewrite (login_wrong_password wrong e (mk_state d 0 []) i u hashed).
Qed.

(** X24: who has registered can log in.  With a password context that
    verifies what it has hashed, after a successful [register] a [login]
    with the same email and password succeeds at any time of a clock in
    range, changes nothing, returns the same user, and the id it returns is
    the one [get_current_user] finds the account under. *)
Theorem register_then_login (salt : string) (user_data : UserCreate.t)
  (e e2 : env) (d : database) :
  (∀ salt password hashed,
      pwd_context_hash salt password = Ok hashed →
      pwd_context_verify password (PStr hashed) = Ok true) →
  emails_unique d →
  clock_in_range e2 →
  let '(r, d', calls) := serve (register salt user_data) e d in
  match r with
  | Raise _ => True
  | Ok body =>
      ∃ body2,
        serve (login (UserLogin.mk (UserCreate.email user_data)
                        (UserCreate.password user_data))) e2 d'
        = (Ok body2, d', [])
        ∧ body2 !! "user" = body !! "user"
        ∧ ∃ user uid account,
            body2 !! "user" = Some (JObj user)
            ∧ user !! "id" = Some (PId uid)
            ∧ get_current_user uid e2 (mk_state d' 0 [])
              = (Ok (with_id uid account), mk_state d' 0 [])
  end.
Proof.
  intros Hverify Huniq Hclock.
  destruct (serve _ e d) as [[[body|x] d'] calls] eqn:Hs; [|done].
  apply serve_eq in Hs as (s' & H & <- & <-).
  pose proof (register_emails_unique _ _ _ (mk_state d 0 []) _ _ Huniq H) as Huniq'.
  apply register_inv in H as (_ & _ & _ & H). cbn [db sent] in *.
  destruct H as [(x & [=] & _)
                |(Hfree & hashed & trial_end & created_at & Hhash & Hend & Hu
                  & Hbody & _)].
  cbv zeta in Hu, Hbody.
  set (uid := fresh (dom (users d))) in *.
  match type of Hu with _ = <[_ := ?a]> _ => set (account := a) in * end.
  assert (Hacc : users (db s') !! uid = Some account)
    by (by rewrite Hu, lookup_insert_eq).
  unfold serve. unfold_login. munfold_auth. cbn [UserLogin.email UserLogin.password].
  rewrite (find_first_email (db s') _ uid account Huniq' Hacc)
    by (by subst account; simplify_map_eq).
  rewrite (getitem_lookup _ "password" (PStr hashed))
    by (by rewrite lookup_with_id_ne by done; subst account; simplify_map_eq).
  rewrite (Hverify _ _ _ Hhash). cbn [negb]. rewrite getitem_with_id.
  destruct (Hclock 0%nat) as (Ho0 & Hs0 & Hu0).
  destruct (Hclock 1%nat) as (Ho1 & Hs1 & Hu1).
  destruct (dt_add_in_range (utc_at e2 0) (timedelta_of 0 (15 * 60) 0))
    as [t0 Ht0]; [done|done|done|by cbn..|].
  destruct (dt_add_in_range (utc_at e2 1) (timedelta_of 7 0 0))
    as [t1 Ht1]; [done|done|done|by cbn..|].
  cbn [db readings sent]. rewrite Ht0. cbv beta iota. cbn [db readings sent].
  rewrite Ht1. cbv beta iota.
  rewrite (getitem_lookup _ "email" (PStr (UserCreate.email user_data)))
    by (by rewrite lookup_with_id_ne by done; subst account; simplify_map_eq).
  rewrite (getitem_lookup _ "first_name" (PStr (UserCreate.first_name user_data)))
    by (by rewrite lookup_with_id_ne by done; subst account; simplify_map_eq).
  rewrite (getitem_lookup _ "last_name" (PStr (UserCreate.last_name user_data)))
    by (by rewrite lookup_with_id_ne by done; subst account; simplify_map_eq).
  cbn [db sent]. eexists. split_and!; [reflexivity| |].
  - rewrite Hbody. by simplify_map_eq.
  - eexists _, uid, account. split_and!; [by simplify_map_eq..|].
    unfold get_current_user. rewrite bind_eq. unfold db_find_one. cbn [coll db].
    by rewrite (find_one_lookup _ _ _ _ Hacc).
Qed.

End Accounts.

(** ** The calendar *)

(** The years before [y], by the cycles of 400, 100 and 4 years they fill. *)
Lemma days_before_year_cycles a b c k :
  0 ≤ a → 0 ≤ b ≤ 3 → 0 ≤ c ≤ 24 → 0 ≤ k ≤ 3 →
  days_before_year (a * 400 + 1 + (b * 100 + c * 4 + k))
  = a * 146097 + b * 36524 + c * 1461 + k * 365.
Proof.
  intros Ha Hb Hc Hk. unfold days_before_year. cbv zeta.
  replace (a * 400 + 1 + (b * 100 + c * 4 + k) - 1)
    with (a * 400 + b * 100 + c * 4 + k) by lia.
  Z.to_euclidean_division_equations. lia.
Qed.

Lemma is_leap_cycles a b c k :
  0 ≤ a → 0 ≤ b ≤ 3 → 0 ≤ c ≤ 24 → 0 ≤ k ≤ 3 →
  is_leap (a * 400 + 1 + (b * 100 + c * 4 + k))
  = (k =? 3) && (negb (c =? 24) || (b =? 3)).
Proof.
  intros Ha Hb Hc Hk. unfold is_leap.
  destruct (Z.eqb_spec k 3), (Z.eqb_spec c 24), (Z.eqb_spec b 3);
    cbn [negb andb orb];
    repeat match goal with
           | |- context [?x mod ?y =? 0] =>
               destruct (Z.eqb_spec (x mod y) 0)
           end; cbn [negb andb orb]; try reflexivity;
    exfalso; Z.to_euclidean_division_equations; lia.
Qed.

Lemma month_day_spec leapyear n :
  0 ≤ n < 365 → month_day_ok leapyear n = true.
Proof.
  intros Hn.
  assert (Hall : forallb (λ k, month_day_ok true (Z.of_nat k)
                               && month_day_ok false (Z.of_nat k))
                   (seq 0 365) = true) by (vm_compute; reflexivity).
  rewrite forallb_forall in Hall.
  specialize (Hall (Z.to_nat n)). rewrite Z2Nat.id in Hall by lia.
  assert (Hin : In (Z.to_nat n) (seq 0 365)) by (apply in_seq; lia).
  apply Hall, andb_prop in Hin as [H1 H2]. by destruct leapyear.
Qed.

Lemma days_before_month_leap y m :
  days_before_month y m
  = days_before_month (if is_leap y then 2024 else 2025) m.
Proof. unfold days_before_month. by destruct (is_leap y). Qed.

(** The day that [fromordinal] names is day [n]. *)
Lemma toordinal_fromordinal n h mi sec us :
  1 ≤ n →
  let '(y, m, dd) := fromordinal n in
  toordinal (mk_datetime y m dd h mi sec us) = n.
Proof.
  intros Hn. unfold fromordinal, toordinal. cbv zeta. cbn [year month day].
  set (n0 := n - 1).
  set (a := n0 / 146097). set (r1 := n0 mod 146097).
  set (b := r1 / 36524). set (r2 := r1 mod 36524).
  set (c := r2 / 1461). set (r3 := r2 mod 1461).
  set (k := r3 / 365). set (r := r3 mod 365).
  assert (Hn0 : n0 = a * 146097 + r1 ∧ 0 ≤ r1 < 146097 ∧ 0 ≤ a).
  { unfold a, r1. Z.to_euclidean_division_equations. lia. }
  assert (Hr1 : r1 = b * 36524 + r2 ∧ 0 ≤ r2 < 36524 ∧ 0 ≤ b ≤ 4).
  { unfold b, r2. Z.to_euclidean_division_equations. lia. }
  assert (Hr2 : r2 = c * 1461 + r3 ∧ 0 ≤ r3 < 1461 ∧ 0 ≤ c ≤ 24).
  { unfold c, r3. Z.to_euclidean_division_equations. lia. }
  assert (Hr3 : r3 = k * 365 + r ∧ 0 ≤ r < 365 ∧ 0 ≤ k ≤ 4).
  { unfold k, r. Z.to_euclidean_division_equations. lia. }
  clearbody a r1 b r2 c r3 k r. subst n0.
  destruct Hn0 as (Hn0 & Hr1b & Ha), Hr1 as (Hr1 & Hr2b & Hb),
    Hr2 as (Hr2 & Hr3b & Hc), Hr3 as (Hr3 & Hrb & Hk).
  destruct (Z.eqb_spec k 4) as [->|Hk4]; cbn [orb].
  - (* the last day of a cycle of four years *)
    assert (b ≤ 3 ∧ c ≤ 23 ∧ r = 0) as (Hb3 & Hc23 & ->) by (split_and!; lia).
    replace (a * 400 + 1 + (b * 100 + c * 4 + 4) - 1)
      with (a * 400 + 1 + (b * 100 + c * 4 + 3)) by lia.
    rewrite days_before_year_cycles by lia.
    rewrite days_before_month_leap, is_leap_cycles by lia.
    rewrite (proj2 (Z.eqb_neq c 24)) by lia.
    change (days_before_month _ 12) with 335. lia.
  - destruct (Z.eqb_spec b 4) as [->|Hb4].
    + (* the last day of a cycle of four hundred years *)
      assert (c = 0 ∧ k = 0 ∧ r = 0) as (-> & -> & ->) by (split_and!; lia).
      replace (a * 400 + 1 + (4 * 100 + 0 * 4 + 0) - 1)
        with (a * 400 + 1 + (3 * 100 + 24 * 4 + 3)) by lia.
      rewrite days_before_year_cycles by lia.
      rewrite days_before_month_leap, is_leap_cycles by lia.
      change (days_before_month _ 12) with 335. lia.
    + pose proof (month_day_spec ((k =? 3) && (negb (c =? 24) || (b =? 3))) r Hrb)
        as Hmd.
      unfold month_day_ok in Hmd.
      destruct (month_day _ r) as [m dd].
      apply andb_prop in Hmd as [_ Hmd]. apply Z.eqb_eq in Hmd.
      cbn [year month day].
      rewrite days_before_year_cycles by lia.
      rewrite days_before_month_leap, is_leap_cycles by lia. lia.
Qed.

Lemma timedelta_of_total d s us :
  let delta := timedelta_of d s us in
  (days delta * 86400 + seconds delta) * 1000000 + microseconds delta
  = (d * 86400 + s) * 1000000 + us
  ∧ 0 ≤ seconds delta < 86400
  ∧ 0 ≤ microseconds delta < 1000000.
Proof.
  unfold timedelta_of. cbn [days seconds microseconds].
  Z.to_euclidean_division_equations. lia.
Qed.

(** Adding a timedelta moves a datetime by that much, and leaves a proper
    time of day. *)
Lemma micros_dt_add t d t' :
  dt_add t d = Ok t' →
  micros t' = micros t + ((days d * 86400 + seconds d) * 1000000 + microseconds d)
  ∧ proper_time t'.
Proof.
  unfold dt_add. cbv zeta.
  set (delta := timedelta_of _ _ _).
  destruct (timedelta_of_total (toordinal t + days d)
              (seconds_of_day t + seconds d) (microsecond t + microseconds d))
    as (Htotal & Hs & Hu).
  fold delta in Htotal, Hs, Hu. clearbody delta.
  destruct (Z.ltb_spec 0 (days delta)) as [Hpos|]; [|done].
  destruct (days delta <=? 3652059); [|done]. cbn [andb].
  pose proof (toordinal_fromordinal (days delta) (seconds delta / 3600)
                (seconds delta mod 3600 / 60) (seconds delta mod 3600 mod 60)
                (microseconds delta)) as Hord.
  destruct (fromordinal (days delta)) as [[y m] dd].
  specialize (Hord ltac:(lia)).
  intros [= <-]. unfold micros at 1, proper_time. rewrite Hord.
  unfold seconds_of_day at 1. cbn [hour minute second microsecond].
  unfold micros.
  split; [|split_and!]; Z.to_euclidean_division_equations; lia.
Qed.

(** X25: the end of a subscription.  The end_date [subscribe_premium]
    returns is the reading of the clock plus exactly 30 days for a monthly
    subscription and 365 days for an annual one, with a proper time of day. *)
Theorem subscription_end_is_exact (uid : nat) (subscription_type
  transaction_id : string) (e : env) (d : database) :
  let '(r, d', calls) :=
    serve (as_user uid (subscribe_premium subscription_type transaction_id)) e d in
  match r with
  | Raise _ => True
  | Ok body =>
      ∃ end_date,
        body !! "end_date" = Some (PStr (isoformat end_date))
        ∧ micros end_date
          = micros (utc_at e 0)
            + (if String.eqb subscription_type "monthly" then 30 else 365) * day_us
        ∧ proper_time end_date
  end.
Proof.
  unfold serve.
  destruct (users d !! uid) as [account|] eqn:Hu.
  2: { by rewrite as_user_unknown. }
  rewrite (as_user_found uid account) by done.
  unfold subscribe_premium. rewrite bind_eq, lift_eq, getitem_with_id.
  destruct (bool_decide (subscription_type ∈ ["monthly"; "annual"]));
    cbn [negb]; [|by rewrite raise_eq].
  munfold. cbn [as_id].
  destruct (dt_add _ _) as [end_date|x] eqn:Hadd; [|done].
  apply micros_dt_add in Hadd as [Hmicros Hproper].
  cbn [db sent users children responses].
  exists end_date. split_and!; [by simplify_map_eq| |done].
  rewrite Hmicros. unfold day_us, timedelta_of. cbn [days seconds microseconds].
  destruct (String.eqb subscription_type "monthly");
    Z.to_euclidean_division_equations; lia.
Qed.

Section Trial.

Variable pwd_context_hash : string → string → res string.
Variable jwt_encode : Token.t → string.

(** X26: the trial of a new account lasts 30 days.  The account [register]
    creates is in trial at every time before the 30 days after the reading
    of the clock at registration have passed, and in the post-trial free tier
    from then on.  The database keeps dates to the millisecond: the reading
    is taken to be a whole number of milliseconds, so that the stored date
    is the computed one. *)
Theorem trial_lasts_thirty_days (salt : string) (user_data : UserCreate.t)
  (e : env) (d : database) :
  microsecond (utc_at e 0) mod 1000 = 0 →
  let '(r, d', calls) :=
    serve (register pwd_context_hash jwt_encode salt user_data) e d in
  match r with
  | Raise _ => True
  | Ok body =>
      ∃ uid account trial_end,
        users d' !! uid = Some account
        ∧ body !! "user" ≫= (λ v, match v with
                                  | JObj user => user !! "id"
                                  | JVal _ => None
                                  end) = Some (PId uid)
        ∧ account !! "trial_end_date" = Some (PDate trial_end)
        ∧ micros trial_end = micros (utc_at e 0) + 30 * day_us
        ∧ ∀ t, tier_of (with_id uid account) t
               = Some (if micros t <? micros (utc_at e 0) + 30 * day_us
                       then trial else post_trial_free)
  end.
Proof.
  intros _.
  destruct (serve _ e d) as [[[body|x] d'] calls] eqn:Hs; [|done].
  apply serve_eq in Hs as (s' & H & <- & <-).
  apply register_inv in H as (_ & _ & _ & H). cbn [db sent readings] in H.
  destruct H as [(x & [=] & _)
                |(_ & hashed & trial_end & created_at & _ & Hend & Hu & Hbody & _)].
  cbv zeta in Hu, Hbody.
  apply micros_dt_add in Hend as [Hmicros _].
  eexists _, _, trial_end. split_and!.
  - by rewrite Hu, lookup_insert_eq.
  - rewrite Hbody. cbn. by simplify_map_eq.
  - by simplify_map_eq.
  - rewrite Hmicros. unfold day_us, timedelta_of. cbn [days seconds microseconds].
    Z.to_euclidean_division_equations; lia.
  - intros t. unfold tier_of.
    rewrite !get_with_id_ne by done.
    match goal with
    | |- context [get ?acc "is_premium" _] =>
        replace (get acc "is_premium" (PBool false)) with (PBool false)
          by (unfold get; by simplify_map_eq);
        replace (get acc "trial_end_date" PNone) with (PDate trial_end)
          by (unfold get; by simplify_map_eq)
    end.
    cbn [truthy].
    unfold dt_ltb. rewrite Hmicros. unfold day_us, timedelta_of.
    cbn [days seconds microseconds]. by do 3 f_equal.
Qed.

End Trial.

(** ** The other theorems at work *)

(** X3 at work: both models raise, Lea is asked to ask again. *)
Lemma provider_down_gives_apology_witness :
  exception_of apology_run.1 = None
  ∧ let '(r, s') := apology_run in
    match r with
    | Raise _ => True
    | Ok body =>
        ∃ child name,
          children example_db !! 0%nat = Some child
          ∧ child !! "name" = Some name
          ∧ body !! "answer" = Some (PStr (could_not_answer name))
          ∧ stored_answer (db s') (fresh (dom (responses example_db)))
            = Some (PStr (could_not_answer name))
    end.
Proof.
  split; [vm_compute; reflexivity|].
  apply (provider_down_gives_apology 0 free_account sky_question
           (env_at (march_10 0) (Some unavailable)) (mk_state example_db 0 [])).
  intros p [= <-] q. reflexivity.
Defined.

(** X10 at work: Lea, born in May 2019, in March 2025 is 5 years or 70 months old. *)
Lemma whole_years_agree_witness :
  ∃ years months s',
    calculate_child_age_years (PInt 5) (PInt 2019) (env_at (march_10 0) None)
      (mk_state example_db 0 []) = (Ok years, s')
    ∧ calculate_age_months (PInt 2019) (PInt 5) (env_at (march_10 0) None)
        (mk_state example_db 0 []) = (Ok months, s')
    ∧ int_of_age years = months / 12
    ∧ years = if 3 <? 5 then 12 * (months / 12) else months.
Proof.
  apply (whole_years_agree 2019 5 (env_at (march_10 0) None)
           (mk_state example_db 0 []));
    [lia|vm_compute; split; discriminate|vm_compute; discriminate].
Defined.

(** X11 at work: Noe, to be born in November 2025, in March 2025. *)
Lemma age_before_birth_month_witness :
  ∃ years s',
    calculate_child_age_years (PInt 11) (PInt 2025) (env_at (march_10 0) None)
      (mk_state example_db 0 []) = (Ok years, s')
    ∧ calculate_age_months (PInt 2025) (PInt 11) (env_at (march_10 0) None)
        (mk_state example_db 0 []) = (Ok 0, s')
    ∧ int_of_age years = -1.
Proof.
  apply (age_before_birth_month 2025 11 (env_at (march_10 0) None)
           (mk_state example_db 0 [])); vm_compute; reflexivity.
Defined.

(** X12 at work: Tom is the child of the second account; the first one cannot
    ask about him, delete him, select him, nor read his level. *)
Lemma child_handlers_check_ownership_witness :
  let current_user := with_id 0 free_account in
  let e := env_at (march_10 0) None in
  (∀ question,
      child_not_found (ask_question (QuestionRequest.mk question 1) current_user)
        e example_db)
  ∧ child_not_found (delete_child 1 current_user) e example_db
  ∧ child_not_found (select_active_child 1 current_user) e example_db
  ∧ child_not_found (get_child_complexity 1 current_user) e example_db.
Proof.
  apply (child_handlers_check_ownership 0 free_account 1
           (env_at (march_10 0) None) example_db).
  intros child Hc.
  assert (Htom : children example_db !! 1%nat = Some tom) by reflexivity.
  rewrite Htom in Hc. injection Hc as <-. discriminate.
Defined.

(** X13 at work: the first account deletes Lea, then creates a child again. *)
Lemma deleting_a_child_frees_a_place_witness :
  ∃ body d',
    serve (delete_child 0 (with_id 0 free_account)) (env_at (march_10 0) None)
      example_db = (Ok body, d', [])
    ∧ children d' = delete 0%nat (children example_db)
    ∧ users d' = users example_db
    ∧ responses d' = responses example_db
    ∧ children_of d' 0 = children_of example_db 0 - 1
    ∧ (children_of example_db 0 ≤ 4 →
       ∀ child_data e2,
         ∃ body2 d2,
           serve (create_child child_data (with_id 0 free_account)) e2 d'
           = (Ok body2, d2, [])
           ∧ children_of d2 0 = children_of example_db 0).
Proof.
  apply (deleting_a_child_frees_a_place 0 free_account 0 lea
           (env_at (march_10 0) None) example_db); reflexivity.
Defined.

(** X14 at work: Lea is the active child of the first account, whose trial
    is over. *)
Lemma deleting_the_active_child_locks_out_witness :
  tier_of (with_id 0 free_account) (march_10 0) = Some post_trial_free
  ∧ ∃ body d',
      serve (delete_child 0 (with_id 0 free_account)) (env_at (march_10 0) None)
        family_db = (Ok body, d', [])
      ∧ users d' = users family_db
      ∧ ∀ request e2 s2,
          db s2 = d' →
          tier_of (with_id 0 free_account) (utc_at e2 (readings s2))
          = Some post_trial_free →
          ∃ x s3,
            ask_question request (with_id 0 free_account) e2 s2 = (Raise x, s3)
            ∧ (x = HTTPException 404 "Child not found"
               ∨ x = HTTPException 402 "Child not active in free version").
Proof.
  split; [vm_compute; reflexivity|].
  apply (deleting_the_active_child_locks_out 0 free_account 0 lea
           (env_at (march_10 0) None) family_db); reflexivity.
Defined.

(** X17 at work: the first account moves its choice from Lea to Noe. *)
Lemma active_child_can_be_switched_witness :
  get (with_id 0 free_account) "active_child_id" PNone = PId 0
  ∧ let account' := <["active_child_id" := PId 2]> free_account in
    ∃ body d',
      serve (as_user 0 (select_active_child 2)) (env_at (march_10 0) None)
        family_db = (Ok body, d', [])
      ∧ users d' = <[0%nat := account']> (users family_db)
      ∧ children d' = children family_db
      ∧ responses d' = responses family_db
      ∧ (∀ c, inactive_child (with_id 0 account') c
              = negb (bool_decide (c = 2%nat)))
      ∧ ∀ request other e2 s2,
          db s2 = d' →
          QuestionRequest.child_id request ≠ 2%nat →
          children family_db !! QuestionRequest.child_id request = Some other →
          other !! "parent_id" = Some (PId 0) →
          tier_of (with_id 0 account') (utc_at e2 (readings s2))
          = Some post_trial_free →
          ∃ s3,
            ask_question request (with_id 0 account') e2 s2
            = (Raise (HTTPException 402 "Child not active in free version"), s3).
Proof.
  split; [vm_compute; reflexivity|].
  apply (active_child_can_be_switched 0 free_account 2 noe
           (env_at (march_10 0) None) family_db); reflexivity.
Defined.

(** X19 at work: the stored response has no [user_id]; the status of the
    premium account, which has asked one question, counts none. *)
Lemma status_counts_no_question_witness :
  count_documents (responses example_db) [("parent_id", Eq (PId 1))] = 1
  ∧ let '(r, s') := status_run in
    db s' = example_db ∧ sent s' = []
    ∧ match r with
      | Raise x => x = TypeError
      | Ok body =>
          body !! "questions_this_month" = Some (PInt 0)
          ∧ body !! "questions_asked" = Some (PInt 0)
          ∧ body !! "popup_frequency" ≠ Some (PStr "monthly_limit")
      end.
Proof.
  split; [vm_compute; reflexivity|].
  apply (status_counts_no_question 1 premium_account (env_at (march_10 0) None)
           (mk_state example_db 0 [])).
  unfold responses_by_ask. apply (bool_decide_unpack _). vm_compute. exact I.
Defined.

(** X20 at work: twelve hours before the end of the trial. *)
Lemma last_trial_day_asks_for_a_child_witness :
  let current_user := with_id 0 trial_account in
  let e := env_at noon_30 None in
  (∃ body s',
      get_monetization_status current_user e (mk_state example_db 0 [])
      = (Ok body, s')
      ∧ body !! "trial_days_left" = Some (PInt 0)
      ∧ body !! "is_post_trial_setup_required" = Some (PBool true)
      ∧ body !! "popup_frequency" = Some (PStr "child_selection"))
  ∧ (∀ k, tier_of current_user (utc_at e k) = Some trial)
  ∧ ∀ request s2 detail s3,
      ask_question request current_user e s2
      ≠ (Raise (HTTPException 402 detail), s3).
Proof.
  apply (last_trial_day_asks_for_a_child 0 trial_account (env_at noon_30 None)
           (mk_state example_db 0 []) midnight_31).
  - vm_compute; reflexivity.
  - vm_compute; reflexivity.
  - vm_compute; reflexivity.
  - intros k. vm_compute. split; reflexivity.
Defined.

(** X21 at work: without a client the regeneration fails; Tom is at level 1
    all the same, and the complexity endpoint says so. *)
Lemma feedback_moves_the_reported_level_witness :
  exception_of simpler_run.1.1 = None
  ∧ level_of example_db 1 = Some (PInt 2)
  ∧ let '(r, d', calls) := simpler_run in
    match r with
    | Raise _ => True
    | Ok body =>
        ∃ child_id level,
          responses example_db !! 0%nat ≫= (.!! "child_id") = Some (PId child_id)
          ∧ (λ child, as_int (get child "complexity_level" (PInt 0)))
              <$> children example_db !! child_id = Some (Ok level)
          ∧ level_of d' child_id
            = Some (PInt (clamp (level + complexity_change too_complex) (-2) 2))
          ∧ ∀ e2 s2 info s3,
              db s2 = d' →
              get_child_complexity child_id premium_user e2 s2 = (Ok info, s3) →
              info_complexity_level info
              = PInt (clamp (level + complexity_change too_complex) (-2) 2)
    end.
Proof.
  split; [vm_compute; reflexivity|]. split; [vm_compute; reflexivity|].
  apply (feedback_moves_the_reported_level 1 premium_account 0 too_complex
           (env_at (march_10 0) None) example_db).
  discriminate.
Defined.

(** X22 at work: Zoe registers on an empty database. *)
Lemma register_keeps_emails_unique_witness :
  exception_of signup_run.1.1 = None
  ∧ let '(r, d', calls) := signup_run in
    emails_unique d'
    ∧ calls = []
    ∧ children d' = ∅
    ∧ responses d' = ∅
    ∧ (email_taken (mk_database ∅ ∅ ∅) "zoe@example.org" →
       r = Raise (HTTPException 400 "Email already registered")
       ∧ d' = mk_database ∅ ∅ ∅)
    ∧ ∀ body,
        r = Ok body →
        ∃ uid account,
          (∅ : gmap nat dict) !! uid = None
          ∧ users d' = <[uid := account]> ∅
          ∧ account !! "email" = Some (PStr "zoe@example.org")
          ∧ account !! "is_premium" = Some (PBool false)
          ∧ account !! "active_child_id" = None
          ∧ ∃ user, body !! "user" = Some (JObj user)
                    ∧ user !! "id" = Some (PId uid).
Proof.
  split; [vm_compute; reflexivity|].
  apply (register_keeps_emails_unique plain_hash subject_only "salt" zoe_signup
           (env_at (march_10 0) None) (mk_database ∅ ∅ ∅)).
  intros i j ui uj email Hi. cbn in Hi. by rewrite lookup_empty in Hi.
Defined.

(** X23 at work: an unknown email and a wrong password for Zoe get the same
    answer. *)
Lemma login_hides_which_part_is_wrong_witness :
  let e := env_at (march_10 0) None in
  serve (login plain_verify subject_only
           (UserLogin.mk "nobody@example.org" "secret")) e zoe_db
  = serve (login plain_verify subject_only
             (UserLogin.mk "zoe@example.org" "wrong")) e zoe_db
  ∧ serve (login plain_verify subject_only
             (UserLogin.mk "zoe@example.org" "wrong")) e zoe_db
    = (Raise (HTTPException 401 "Incorrect email or password"), zoe_db, []).
Proof.
  apply (login_hides_which_part_is_wrong plain_verify subject_only
           (UserLogin.mk "nobody@example.org" "secret")
           (UserLogin.mk "zoe@example.org" "wrong")
           (env_at (march_10 0) None) zoe_db 0 zoe_account (PStr "secret$salt")).
  - intros i j ui uj email Hi Hj _ _. cbn in Hi, Hj.
    apply lookup_singleton_Some in Hi as [<- _].
    by apply lookup_singleton_Some in Hj as [<- _].
  - intros (i & u & Hu & Hem). cbn in Hu.
    apply lookup_singleton_Some in Hu as [_ <-]. vm_compute in Hem. discriminate.
  - reflexivity.
  - vm_compute; reflexivity.
  - vm_compute; reflexivity.
  - vm_compute; reflexivity.
Defined.

(** X24 at work: Zoe registers, then logs in with the same password. *)
Lemma register_then_login_witness :
  exception_of signup_run.1.1 = None
  ∧ let '(r, d', calls) := signup_run in
    match r with
    | Raise _ => True
    | Ok body =>
        ∃ body2,
          serve (login plain_verify subject_only
                   (UserLogin.mk "zoe@example.org" "secret"))
            (env_at (march_10 5) None) d'
          = (Ok body2, d', [])
          ∧ body2 !! "user" = body !! "user"
          ∧ ∃ user uid account,
              body2 !! "user" = Some (JObj user)
              ∧ user !! "id" = Some (PId uid)
              ∧ get_current_user uid (env_at (march_10 5) None) (mk_state d' 0 [])
                = (Ok (with_id uid account), mk_state d' 0 [])
    end.
Proof.
  split; [vm_compute; reflexivity|].
  apply (register_then_login plain_hash plain_verify subject_only "salt"
           zoe_signup (env_at (march_10 0) None) (env_at (march_10 5) None)
           (mk_database ∅ ∅ ∅)).
  - intros salt password hashed [= <-]. cbn. f_equal. apply prefix_app.
  - intros i j ui uj email Hi. cbn in Hi. by rewrite lookup_empty in Hi.
  - intros k. vm_compute. by split_and!.
Defined.

(** X26 at work: Zoe registers on the 10th of March at noon; she is in trial
    until the 9th of April at noon. *)
Lemma trial_lasts_thirty_days_witness :
  exception_of signup_run.1.1 = None
  ∧ micros (mk_datetime 2025 4 9 12 0 0 0) = micros (march_10 0) + 30 * day_us
  ∧ let '(r, d', calls) := signup_run in
    match r with
    | Raise _ => True
    | Ok body =>
        ∃ uid account trial_end,
          users d' !! uid = Some account
          ∧ body !! "user" ≫= (λ v, match v with
                                    | JObj user => user !! "id"
                                    | JVal _ => None
                                    end) = Some (PId uid)
          ∧ account !! "trial_end_date" = Some (PDate trial_end)
          ∧ micros trial_end = micros (march_10 0) + 30 * day_us
          ∧ ∀ t, tier_of (with_id uid account) t
                 = Some (if micros t <? micros (march_10 0) + 30 * day_us
                         then trial else post_trial_free)
    end.
Proof.
  split; [vm_compute; reflexivity|]. split; [vm_compute; reflexivity|].
  apply (trial_lasts_thirty_days plain_hash subject_only "salt" zoe_signup
           (env_at (march_10 0) None) (mk_database ∅ ∅ ∅)).
  reflexivity.
Defined.
